(** * ENLTbot: connection/session lifecycle, dispatch and rate guard

    A shallow embedding of the parts of the bot that its specification talks
    about, and the properties of the specification stated over it.

    - [Py]        the Python values and builtins the code relies on
                  ([int], [str.lower], truthiness, [dict.get], exceptions);
    - [Wire]      message_handlers.py: [WSCommand], [Message], [_safe_int];
    - [Enhanced]  bot_core.py: [EnhancedBoxIM] (login, token refresh, the
                  WebSocket supervisor and the dispatcher);
    - [Mono]      app.py: the receive loop and dispatcher of [BoxIM];
    - [Level]     app.py: [LevelSystem.add_experience] and [_handle_spam];
    - [Scenario]  concrete environments and states;
    - [Token]     bot_core.py: [ensure_valid_token] and the calls that
                  change the session;
    - [Api]       api_client.py: [APIClient.request];
    - [Heartbeat] bot_core.py: [_ws_heartbeat];
    - [Mute]      bot_core.py: the muted groups of [MessageModule];
    - [Progress]  app.py: level thresholds and labels;
    - [Points]    app.py: [daily_sign], [exchange_points], [lottery_draw];
    - [MonoLoop]  app.py: [BoxIM._ws_loop] and [_ws_connect];
    - [Tasks]     bot_core.py: the asyncio tasks of [EnhancedBoxIM], every
                  [_ws_loop] that [connect] starts and the heartbeat
                  tasks, step by step.

    Instants ([time.time()]) are rationals; JSON documents are modelled by
    the value [json.loads] returns for them. *)

From Stdlib Require Import ZArith QArith Qround Lqa Lia List String Ascii Bool.
From stdpp Require Import base option list gmap.
Import ListNotations.

Local Open Scope Z_scope.

(* ===================================================================== *)
(** ** Python values                                                      *)
(* ===================================================================== *)

Module Py.

(** The exception classes the modelled code can meet.  All of them derive
    from [Exception]; [asyncio.CancelledError], [KeyboardInterrupt] and
    [SystemExit] derive from [BaseException] only, are never caught by an
    [except Exception] clause, and are not values of this type. *)
Inductive exn : Type :=
| ValueError
| TypeError
| OverflowError
| KeyError
| AttributeError
| JSONDecodeError
| ConnectionClosed
| TimeoutError
| RuntimeError (msg : string).

(** [JSONDecodeError] is a subclass of [ValueError]. *)
Definition is_ValueError (e : exn) : bool :=
  match e with ValueError | JSONDecodeError => true | _ => false end.

Definition is_TypeError (e : exn) : bool :=
  match e with TypeError => true | _ => false end.

Definition is_JSONDecodeError (e : exn) : bool :=
  match e with JSONDecodeError => true | _ => false end.

Definition is_ConnectionClosed (e : exn) : bool :=
  match e with ConnectionClosed => true | _ => false end.

(** The outcome of evaluating a Python expression or call. *)
Inductive res (A : Type) : Type :=
| Ret (a : A)
| Raise (e : exn).
Arguments Ret {A} a.
Arguments Raise {A} e.

Definition bind {A B} (m : res A) (k : A -> res B) : res B :=
  match m with Ret a => k a | Raise e => Raise e end.

(** [try: body  except <classes>: handler] *)
Definition try_except {A} (body : res A) (classes : exn -> bool)
  (handler : exn -> res A) : res A :=
  match body with
  | Ret a => Ret a
  | Raise e => if classes e then handler e else Raise e
  end.

Definition raises {A} (m : res A) : bool :=
  match m with Ret _ => false | Raise _ => true end.

(** A Python [float]: a finite double is the rational it denotes. *)
Inductive pyfloat : Type :=
| FFinite (q : Q)
| FInf (negative : bool)
| FNaN.

(** What [json.loads] can return. A [dict] is its list of items, keys unique. *)
#[warnings="-register-all"]
Inductive json : Type :=
| JNull
| JBool (b : bool)
| JInt (z : Z)
| JFloat (f : pyfloat)
| JStr (s : string)
| JList (l : list json)
| JDict (d : list (string * json)).

Fixpoint items_get (d : list (string * json)) (k : string) : option json :=
  match d with
  | [] => None
  | (k', v) :: r => if String.eqb k' k then Some v else items_get r k
  end.

(** [d.get(k)] and [d.get(k, default)] on a dict's items. *)
Definition dict_get (d : list (string * json)) (k : string) : json :=
  match items_get d k with Some v => v | None => JNull end.

Definition dict_get_default (d : list (string * json)) (k : string) (dflt : json) : json :=
  match items_get d k with Some v => v | None => dflt end.

(** [v.get(k)]: only a dict has the method. *)
Definition get (v : json) (k : string) : res json :=
  match v with
  | JDict d => Ret (dict_get d k)
  | _ => Raise AttributeError
  end.

Definition get_default (v : json) (k : string) (dflt : json) : res json :=
  match v with
  | JDict d => Ret (dict_get_default d k dflt)
  | _ => Raise AttributeError
  end.

(** [bool(v)] *)
Definition truthy (v : json) : bool :=
  match v with
  | JNull => false
  | JBool b => b
  | JInt z => negb (z =? 0)
  | JFloat (FFinite q) => negb (Qeq_bool q 0)
  | JFloat _ => true
  | JStr s => negb (String.eqb s "")
  | JList l => match l with [] => false | _ => true end
  | JDict d => match d with [] => false | _ => true end
  end.

(** [v == n] for an [IntEnum] member or int [n]. *)
Definition eq_int (v : json) (n : Z) : bool :=
  match v with
  | JInt z => z =? n
  | JBool b => (if b then 1 else 0) =? n
  | JFloat (FFinite q) => Qeq_bool q (inject_Z n)
  | _ => false
  end.

(** [str.lower] on ASCII letters. *)
Definition lower_ascii (c : ascii) : ascii :=
  let n := nat_of_ascii c in
  if ((65 <=? n) && (n <=? 90))%nat then ascii_of_nat (n + 32) else c.

Fixpoint lower (s : string) : string :=
  match s with
  | EmptyString => EmptyString
  | String c r => String (lower_ascii c) (lower r)
  end.

(** Whitespace as [int] skips it around a literal. *)
Definition is_space (c : ascii) : bool :=
  let n := nat_of_ascii c in
  (((9 <=? n) && (n <=? 13)) || ((28 <=? n) && (n <=? 32)))%nat.

Definition digit_of (c : ascii) : option Z :=
  let n := nat_of_ascii c in
  if ((48 <=? n) && (n <=? 57))%nat then Some (Z.of_nat (n - 48)) else None.

Fixpoint lstrip (s : list ascii) : list ascii :=
  match s with
  | [] => []
  | c :: r => if is_space c then lstrip r else s
  end.

Definition strip (s : list ascii) : list ascii :=
  rev (lstrip (rev (lstrip s))).

(** Decimal digits, single underscores allowed between two digits. *)
Fixpoint parse_digits (acc : Z) (after_digit : bool) (s : list ascii) : option Z :=
  match s with
  | [] => if after_digit then Some acc else None
  | c :: r =>
      match digit_of c with
      | Some d => parse_digits (10 * acc + d) true r
      | None =>
          if Ascii.eqb c "_"%char && after_digit
          then parse_digits acc false r
          else None
      end
  end.

(** [int(s)] for a [str] in base 10: [None] stands for [ValueError].  The
    text is ASCII; digits of other scripts, and the limit recent
    interpreters put on the number of digits, are outside the model. *)
Definition int_of_str (s : string) : option Z :=
  match strip (list_ascii_of_string s) with
  | "+"%char :: r => parse_digits 0 false r
  | "-"%char :: r => Z.opp <$> parse_digits 0 false r
  | cs => parse_digits 0 false cs
  end.

(** [int(x)] for a float: truncation towards zero; the infinities raise
    [OverflowError] and NaN raises [ValueError]. *)
Definition int_of_float (f : pyfloat) : res Z :=
  match f with
  | FFinite q => Ret (Z.quot (Qnum q) (Z.pos (Qden q)))
  | FInf _ => Raise OverflowError
  | FNaN => Raise ValueError
  end.

(** The builtin [int(v)]. *)
Definition int (v : json) : res Z :=
  match v with
  | JNull => Raise TypeError
  | JBool b => Ret (if b then 1 else 0)
  | JInt z => Ret z
  | JFloat f => int_of_float f
  | JStr s => match int_of_str s with Some z => Ret z | None => Raise ValueError end
  | JList _ | JDict _ => Raise TypeError
  end.

(** [k in v] for a string [k]. *)
Definition contains (v : json) (k : string) : res bool :=
  match v with
  | JDict d => Ret (match items_get d k with Some _ => true | None => false end)
  | JList l =>
      Ret (existsb (fun x => match x with JStr s => String.eqb s k | _ => false end) l)
  | JStr s => Ret (match String.index 0 k s with Some _ => true | None => false end)
  | _ => Raise TypeError
  end.

(** [v[k]] for a string [k]. *)
Definition subscript (v : json) (k : string) : res json :=
  match v with
  | JDict d => match items_get d k with Some x => Ret x | None => Raise KeyError end
  | _ => Raise TypeError
  end.

(** [s.split('.')] *)
Fixpoint split_dot (s : string) : list string :=
  match s with
  | EmptyString => [EmptyString]
  | String c r =>
      let parts := split_dot r in
      if Ascii.eqb c "."%char then EmptyString :: parts
      else match parts with
           | p :: ps => String c p :: ps
           | [] => [String c EmptyString]
           end
  end.

End Py.

Notation "'let?' x ':=' m 'in' k" := (Py.bind m (fun x => k))
  (at level 10, x name, m at level 100, k at level 200).

(* ===================================================================== *)
(** ** message_handlers.py                                                *)
(* ===================================================================== *)

Module Wire.
Import Py.

(** [class WSCommand(IntEnum)] *)
Inductive WSCommand : Type :=
| AUTH | HEARTBEAT | FORCE_OFFLINE | PRIVATE_MESSAGE | GROUP_MESSAGE | SYSTEM_MESSAGE.

Definition WSCommand_value (c : WSCommand) : Z :=
  match c with
  | AUTH => 0 | HEARTBEAT => 1 | FORCE_OFFLINE => 2
  | PRIVATE_MESSAGE => 3 | GROUP_MESSAGE => 4 | SYSTEM_MESSAGE => 5
  end.

(** [MessageType.RECALL], [MessageType.TEXT], ... are compared by value. *)
Definition MessageType_TEXT : Z := 0.
Definition MessageType_STICKER : Z := 7.
Definition MessageType_RECALL : Z := 10.
Definition MessageType_ONLINE_STATUS : Z := 82.

(** [Message._safe_int] *)
Definition _safe_int (value : json) : res (option Z) :=
  try_except
    (match value with
     | JNull => Ret None
     | JStr s =>
         let value_lower := lower s in
         if String.eqb value_lower "none" || String.eqb value_lower "null"
            || String.eqb value_lower "undefined"
         then Ret None
         else let? n := int value in Ret (Some n)
     | _ => let? n := int value in Ret (Some n)
     end)
    (fun e => is_ValueError e || is_TypeError e)
    (fun _ => Ret None).

(** [class Message] *)
Record Message : Type := {
  data : json;
  is_group : bool;
  id : option Z;
  type : option Z;
  content : json;
  send_id : option Z;
  recv_id : option Z;
  group_id : option Z;
  send_time : json;
  sendNickName : json;
  quote_message : json;
  recalled_message_id : option Z
}.

(** [Message.__init__(data, is_group)] *)
Definition Message_init (data : json) (is_group : bool) : res Message :=
  let? v_id := get data "id" in
  let? id := _safe_int v_id in
  let? v_type := get_default data "type" (JInt 0) in
  let? type := _safe_int v_type in
  let? content := get_default data "content" (JStr "") in
  let? v_send := get data "sendId" in
  let? send_id := _safe_int v_send in
  let? v_recv := get data "recvId" in
  let? recv_id := _safe_int v_recv in
  let? v_group := get data "groupId" in
  let? group_id := _safe_int v_group in
  let? send_time := get data "sendTime" in
  let? nick := get data "sendNickName" in
  let? quote := get data "quoteMessage" in
  let? recalled := (if bool_decide (type = Some MessageType_RECALL)
                then _safe_int content else Ret None) in
  Ret {| data := data; is_group := is_group; id := id; type := type;
         content := content; send_id := send_id; recv_id := recv_id;
         group_id := group_id; send_time := send_time; sendNickName := nick;
         quote_message := quote; recalled_message_id := recalled |}.

(** A frame as the socket delivers it: text that [json.loads] rejects, or
    text that it turns into a value. *)
Inductive frame : Type :=
| Malformed (text : string)
| Wellformed (v : json).

Definition json_loads (message : frame) : res json :=
  match message with
  | Malformed _ => Raise JSONDecodeError
  | Wellformed v => Ret v
  end.

(** The two handler tables, [message_handlers['private']] and
    [message_handlers['group']]. *)
Inductive Category : Type := private | group.

(** The command that feeds a table, and the [is_group] its messages get. *)
Definition Category_command (c : Category) : WSCommand :=
  match c with private => PRIVATE_MESSAGE | group => GROUP_MESSAGE end.

Definition Category_is_group (c : Category) : bool :=
  match c with private => false | group => true end.

(** The envelope [{"cmd": c, "data": payload}]. *)
Definition envelope (c : WSCommand) (payload : json) : frame :=
  Wellformed (JDict [("cmd"%string, JInt (WSCommand_value c)); ("data"%string, payload)]).

(** The state after every handler of the list has run in turn on the same
    message, whatever each of them returned or raised. *)
Definition all_ran {App M : Type} (handlers : list (M -> App -> App * res unit))
  (message : M) (a : App) : App :=
  fold_left (fun a handler => fst (handler message a)) handlers a.

(** The exceptions the handlers of the list raise on the message, in order. *)
Fixpoint raised {App M : Type} (handlers : list (M -> App -> App * res unit))
  (message : M) (a : App) : list exn :=
  match handlers with
  | [] => []
  | handler :: rest =>
      match handler message a with
      | (a1, Ret _) => raised rest message a1
      | (a1, Raise e) => e :: raised rest message a1
      end
  end.

End Wire.

(* ===================================================================== *)
(** ** bot_core.py: EnhancedBoxIM                                         *)
(* ===================================================================== *)

Module Enhanced.
Import Py.

(** [config.BotConfig], the settings the supervisor reads. *)
Record BotConfig : Type := {
  RECONNECT_DELAY : Z;
  MAX_RECONNECT_DELAY : Z;
  MAX_RECONNECT_ATTEMPTS : Z
}.

(** The values used when the environment sets nothing. *)
Definition default_config : BotConfig :=
  {| RECONNECT_DELAY := 3; MAX_RECONNECT_DELAY := 60; MAX_RECONNECT_ATTEMPTS := 10 |}.

Inductive Terminal : Type := PC | MOBILE | WEB.

(** The REST calls a function issues, in order. *)
Inductive call : Type :=
| POST_login
| POST_refresh
| GET_user_self.

(** *** Session: the authentication fields of [EnhancedBoxIM] *)

Record Session : Type := {
  access_token : option string;
  refresh_token : option string;
  access_token_expires : Q;
  refresh_token_expires : Q;
  user_id : json;
  terminal : Terminal;
  username : string;
  password : string;
  _last_token_refresh_time : Q;
  _token_refresh_cooldown : Q;
  _is_refreshing_token : bool
}.

Definition set_tokens (a r : option string) (s : Session) : Session :=
  {| access_token := a; refresh_token := r;
     access_token_expires := access_token_expires s;
     refresh_token_expires := refresh_token_expires s;
     user_id := user_id s; terminal := terminal s;
     username := username s; password := password s;
     _last_token_refresh_time := _last_token_refresh_time s;
     _token_refresh_cooldown := _token_refresh_cooldown s;
     _is_refreshing_token := _is_refreshing_token s |}.

Definition set_expires (a r : Q) (s : Session) : Session :=
  {| access_token := access_token s; refresh_token := refresh_token s;
     access_token_expires := a; refresh_token_expires := r;
     user_id := user_id s; terminal := terminal s;
     username := username s; password := password s;
     _last_token_refresh_time := _last_token_refresh_time s;
     _token_refresh_cooldown := _token_refresh_cooldown s;
     _is_refreshing_token := _is_refreshing_token s |}.

Definition set_user_id (u : json) (s : Session) : Session :=
  {| access_token := access_token s; refresh_token := refresh_token s;
     access_token_expires := access_token_expires s;
     refresh_token_expires := refresh_token_expires s;
     user_id := u; terminal := terminal s;
     username := username s; password := password s;
     _last_token_refresh_time := _last_token_refresh_time s;
     _token_refresh_cooldown := _token_refresh_cooldown s;
     _is_refreshing_token := _is_refreshing_token s |}.

Definition set_credentials (t : Terminal) (u p : string) (s : Session) : Session :=
  {| access_token := access_token s; refresh_token := refresh_token s;
     access_token_expires := access_token_expires s;
     refresh_token_expires := refresh_token_expires s;
     user_id := user_id s; terminal := t;
     username := u; password := p;
     _last_token_refresh_time := _last_token_refresh_time s;
     _token_refresh_cooldown := _token_refresh_cooldown s;
     _is_refreshing_token := _is_refreshing_token s |}.

Definition set_last_token_refresh_time (t : Q) (s : Session) : Session :=
  {| access_token := access_token s; refresh_token := refresh_token s;
     access_token_expires := access_token_expires s;
     refresh_token_expires := refresh_token_expires s;
     user_id := user_id s; terminal := terminal s;
     username := username s; password := password s;
     _last_token_refresh_time := t;
     _token_refresh_cooldown := _token_refresh_cooldown s;
     _is_refreshing_token := _is_refreshing_token s |}.

Definition set_is_refreshing_token (f : bool) (s : Session) : Session :=
  {| access_token := access_token s; refresh_token := refresh_token s;
     access_token_expires := access_token_expires s;
     refresh_token_expires := refresh_token_expires s;
     user_id := user_id s; terminal := terminal s;
     username := username s; password := password s;
     _last_token_refresh_time := _last_token_refresh_time s;
     _token_refresh_cooldown := _token_refresh_cooldown s;
     _is_refreshing_token := f |}.

(** The fields as [__init__] leaves them. *)
Definition init_session (u p : string) : Session :=
  {| access_token := None; refresh_token := None;
     access_token_expires := 0; refresh_token_expires := 0;
     user_id := JNull; terminal := PC; username := u; password := p;
     _last_token_refresh_time := 0; _token_refresh_cooldown := 30;
     _is_refreshing_token := false |}.

(** [not self.access_token]: [None] and the empty string are falsy. *)
Definition token_missing (t : option string) : bool :=
  match t with
  | None => true
  | Some s => String.eqb s ""
  end.

(** The property [is_logged_in], read when the clock shows [current_time]. *)
Definition is_logged_in (current_time : Q) (s : Session) : bool :=
  if token_missing (access_token s) then false
  else if Qle_bool (access_token_expires s - 300) current_time then false
  else true.

(** *** login *)

(** The [data] object of a successful login reply: the four keys that
    [login] subscripts, with tokens that are strings. *)
Record LoginData : Type := {
  accessToken : string;
  refreshToken : string;
  accessTokenExpiresIn : Q;
  refreshTokenExpiresIn : Q
}.

(** What the POST to /api/login yields: the client raises (no route, time
    out, body that is not JSON), or a reply with an HTTP status, an
    application [code] and [data]. *)
Inductive LoginReply : Type :=
| LoginRaises (e : exn)
| LoginHttp (status : Z) (code : json) (data : LoginData).

(** Everything [login] takes from outside during one call. *)
Record LoginEnv : Type := {
  login_reply : LoginReply;
  (** padding, [base64.urlsafe_b64decode], [decode('utf-8')] and
      [json.loads] applied to the middle segment of the token *)
  b64_json : string -> res json;
  (** outcome of the k-th call of [self.user.get_self_info()].  The call
      goes through [APIClient.request] and [ensure_valid_token]; taking its
      outcome from here leaves out the refresh that the guard starts for a
      token within 300 seconds of its expiry, see [Api.request] *)
  self_info : nat -> res json;
  (** value of the k-th [time.time()] *)
  login_time : nat -> Q
}.

(** How a block of statements ends. *)
Inductive flow : Type :=
| Continue
| Return (r : bool)
| Throw (e : exn).

(** Lines 529-538: the JSON payload of a JWT-shaped token. *)
Definition token_payload (env : LoginEnv) (token : string) : res json :=
  let parts := split_dot token in
  if negb (Nat.eqb (List.length parts) 3) then Raise ValueError
  else b64_json env (nth 1 parts EmptyString).

(** Lines 540-546: the first of [userId], [sub], [user_id] that is present. *)
Definition subject_claim (payload_data : json) : res json :=
  let? has_userId := contains payload_data "userId" in
  if has_userId then subscript payload_data "userId" else
  let? has_sub := contains payload_data "sub" in
  if has_sub then subscript payload_data "sub" else
  let? has_user_id := contains payload_data "user_id" in
  if has_user_id then subscript payload_data "user_id" else Ret JNull.

(** [user_info = await self.user.get_self_info()] and the test that
    follows it; [k] self-info calls were made before. *)
Definition self_info_fallback (env : LoginEnv) (k : nat) (s : Session) : Session * flow :=
  match self_info env k with
  | Raise e => (s, Throw e)
  | Ret user_info =>
      if truthy user_info then
        match get user_info "id" with
        | Raise e => (s, Throw e)
        | Ret i => if truthy i then (set_user_id i s, Continue) else (s, Return false)
        end
      else (s, Return false)
  end.

(** Lines 528-566: the inner [try] and its [except Exception] handler. *)
Definition resolve_user_id (env : LoginEnv) (token : string) (s : Session)
  : Session * flow * list call :=
  let handler (k : nat) (made : list call) :=
    let '(s', f) := self_info_fallback env k s in (s', f, made ++ [GET_user_self]) in
  match (let? payload_data := token_payload env token in subject_claim payload_data) with
  | Raise _ => handler 0%nat []
  | Ret claim =>
      if truthy claim then
        match int claim with
        | Ret n => (set_user_id (JInt n) s, Continue, [])
        | Raise _ => handler 0%nat []
        end
      else
        match self_info_fallback env 0 s with
        | (_, Throw _) => handler 1%nat [GET_user_self]
        | (s', f) => (s', f, [GET_user_self])
        end
  end.

(** [EnhancedBoxIM.login(username, password, terminal)].  Of the three
    instants stored on success, [last_message_time] and
    [_last_connection_time] only feed the status page and are left out;
    they take the clock readings 2 and 3. *)
Definition login (env : LoginEnv) (u p : string) (t : Terminal) (s : Session)
  : Session * bool * list call :=
  let s0 := set_tokens None None (set_credentials t u p s) in
  match login_reply env with
  | LoginRaises _ => (s0, false, [POST_login])
  | LoginHttp status code data =>
      if status =? 200 then
        if eq_int code 200 then
          let s1 := set_tokens (Some (accessToken data)) (Some (refreshToken data)) s0 in
          let s2 := set_expires (login_time env 0 + accessTokenExpiresIn data)
                                (login_time env 1 + refreshTokenExpiresIn data) s1 in
          match resolve_user_id env (accessToken data) s2 with
          | (s3, Continue, calls) =>
              (set_last_token_refresh_time (login_time env 4) s3, true, POST_login :: calls)
          | (s3, Return r, calls) => (s3, r, POST_login :: calls)
          | (s3, Throw _, calls) => (s3, false, POST_login :: calls)
          end
        else (s0, false, [POST_login])
      else (s0, false, [POST_login])
  end.

(** *** refresh_token_if_needed *)

Record RefreshData : Type := {
  r_accessToken : string;
  r_refreshToken : option string;
  r_accessTokenExpiresIn : Q;
  r_refreshTokenExpiresIn : option Q
}.

Inductive RefreshReply : Type :=
| RefreshRaises (e : exn)
| RefreshHttp (status : Z) (code : json) (data : RefreshData).

Record RefreshEnv : Type := {
  refresh_reply : RefreshReply;
  (** value of the k-th [time.time()] of the call *)
  refresh_time : nat -> Q;
  (** what the fallback [login] meets *)
  fallback_login : LoginEnv
}.

(** Lines 420-428: the full login tried when the refresh call was refused. *)
Definition refresh_fallback (env : RefreshEnv) (current_time : Q) (s : Session)
  : Session * bool * list call :=
  let '(s1, ok, calls) := login (fallback_login env) (username s) (password s) PC s in
  if ok then (set_last_token_refresh_time current_time s1, true, calls)
  else (s1, false, calls).

(** [EnhancedBoxIM.refresh_token_if_needed()] *)
Definition refresh_token_if_needed (env : RefreshEnv) (s : Session)
  : Session * bool * list call :=
  let current_time := refresh_time env 0 in
  if _is_refreshing_token s then (s, false, [])
  else if Qle_bool (_token_refresh_cooldown s) (current_time - _last_token_refresh_time s)
  then
    if Qle_bool (access_token_expires s - 300) current_time then
      let s1 := set_is_refreshing_token true s in
      let '(s2, r, calls) :=
        match refresh_reply env with
        | RefreshRaises _ => (s1, false, [POST_refresh])
        | RefreshHttp status code data =>
            if (status =? 200) && eq_int code 200 then
              let s' := set_tokens (Some (r_accessToken data))
                          (match r_refreshToken data with
                           | Some r => Some r
                           | None => refresh_token s1
                           end) s1 in
              let s'' := set_expires (refresh_time env 1 + r_accessTokenExpiresIn data)
                           (match r_refreshTokenExpiresIn data with
                            | Some d => refresh_time env 2 + d
                            | None => refresh_token_expires s'
                            end) s' in
              (set_last_token_refresh_time current_time s'', true, [POST_refresh])
            else
              let '(s', ok, calls) := refresh_fallback env current_time s1 in
              (s', ok, POST_refresh :: calls)
        end in
      (set_is_refreshing_token false s2, r, calls)
    else (s, true, [])
  else (s, true, []).

(** *** The WebSocket supervisor *)

(** The supervisor's log, one constructor per message it writes (and the
    sleep that follows the last one). *)
Inductive event : Type :=
| Connecting (n : Z)                 (* _ws_connect entered, "attempt n" *)
| OpenFailed (attempt : nat) (e : exn)
| Opened (attempt : nat)
| AuthSent
| HandlerFailed (e : exn)
| SystemMessage (msg_data : json)
| ForcedOffline
| StreamClosed
| LoopConnected                      (* _ws_connect returned to _ws_loop *)
| LoopFailed (e : exn) (consecutive_failures : Z)
| Relogin (ok : bool)
| Spawned                            (* connect() created a _ws_loop task *)
| Sleep (delay : Z).

(** Events after which [ws_reconnect_count] is zero: the socket opened,
    [_ws_connect] returned, or a re-login succeeded. *)
Definition resets (e : event) : bool :=
  match e with
  | Opened _ | LoopConnected | Relogin true => true
  | _ => false
  end.

(** The backoff rule read off a log: the sleep before reconnect attempt
    [n + 1] lasts [min(base * 2^(n+1), cap)], where [n] attempts were made
    since the counter was last reset. *)
Fixpoint delays_follow (cfg : BotConfig) (n : Z) (tr : list event) : Prop :=
  match tr with
  | [] => True
  | Sleep d :: rest =>
      d = Z.min (RECONNECT_DELAY cfg * 2 ^ (n + 1)) (MAX_RECONNECT_DELAY cfg)
      /\ delays_follow cfg (n + 1) rest
  | e :: rest => delays_follow cfg (if resets e then 0 else n) rest
  end.

(** The number of reconnect attempts since the last reset, at the end of a
    log that started with [n]. *)
Fixpoint attempts_after (n : Z) (tr : list event) : Z :=
  match tr with
  | [] => n
  | Sleep _ :: rest => attempts_after (n + 1) rest
  | e :: rest => attempts_after (if resets e then 0 else n) rest
  end.

(** Re-login only after [max] failed connections in a row: [n] counts the
    failures logged since the last connection that returned. *)
Fixpoint relogins_justified (max n : Z) (tr : list event) : Prop :=
  match tr with
  | [] => True
  | LoopFailed _ _ :: rest => relogins_justified max (n + 1) rest
  | LoopConnected :: rest => relogins_justified max 0 rest
  | Relogin _ :: rest => max <= n /\ relogins_justified max n rest
  | _ :: rest => relogins_justified max n rest
  end.

Fixpoint failed_in_a_row (n : Z) (tr : list event) : Z :=
  match tr with
  | [] => n
  | LoopFailed _ _ :: rest => failed_in_a_row (n + 1) rest
  | LoopConnected :: rest => failed_in_a_row 0 rest
  | _ :: rest => failed_in_a_row n rest
  end.

(** Whether a log shows a re-login that comes after a failed re-login with
    a single failed connection between the two; [since] is the number of
    failed connections logged since the last failed re-login, if there
    was one. *)
Fixpoint retriggered_after_one (since : option Z) (tr : list event) : bool :=
  match tr with
  | [] => false
  | Relogin ok :: rest =>
      match since with Some 1 => true | _ => false end
      || retriggered_after_one (if ok then None else Some 0) rest
  | LoopFailed _ _ :: rest => retriggered_after_one (option_map Z.succ since) rest
  | LoopConnected :: rest => retriggered_after_one None rest
  | _ :: rest => retriggered_after_one since rest
  end.

(** The events by which the supervisor connects or prepares to. *)
Definition reconnect_activity (e : event) : bool :=
  match e with
  | Connecting _ | OpenFailed _ _ | Opened _ | AuthSent
  | Relogin _ | Spawned | Sleep _ => true
  | _ => false
  end.

(** The events of the receive loop. *)
Definition from_receive (e : event) : bool :=
  match e with
  | HandlerFailed _ | SystemMessage _ | ForcedOffline | StreamClosed => true
  | _ => false
  end.

(** The events of [_ws_connect] before the receive loop. *)
Definition from_connect (e : event) : bool :=
  match e with
  | Connecting _ | OpenFailed _ _ | Opened _ | AuthSent => true
  | _ => false
  end.

Definition is_forced_offline (e : event) : bool :=
  match e with ForcedOffline => true | _ => false end.

Definition is_relogin (e : event) : bool :=
  match e with Relogin _ => true | _ => false end.

Definition is_loop_failed (e : event) : bool :=
  match e with LoopFailed _ _ => true | _ => false end.

(** What one call of [_ws_connect] meets. *)
Record ConnectEnv : Type := {
  (** outcome of [websockets.connect] at attempt 0, 1, 2 *)
  open_outcome : nat -> res unit;
  (** outcome of sending the authentication frame *)
  auth_send : res unit;
  (** the frames received before the stream ends *)
  frames : list Wire.frame;
  (** how the stream ends: exhausted, or the iterator raises *)
  stream_error : option exn
}.

(** What one turn of [_ws_loop] meets. *)
Record IterEnv : Type := {
  connection : ConnectEnv;
  relogin_login : LoginEnv;
  (** the clock when [relogin] calls [connect] *)
  relogin_clock : Q
}.

Section Supervisor.

(** The part of the object the registered handlers work on. *)
Context {App : Type}.

(** The fields of [EnhancedBoxIM] the supervisor's control flow reads.  The
    socket, the task handles and the instants kept for the status page
    ([last_message_time], [_last_connection_time]) are left out, and so is
    the heartbeat task, which runs beside the receive loop and can only
    clear [_ws_connected_flag]. *)
Record Bot : Type := {
  session : Session;
  ws_reconnect_count : Z;
  ws_running : bool;
  _ws_connected_flag : bool;
  app : App
}.

Definition set_session (s : Session) (b : Bot) : Bot :=
  {| session := s; ws_reconnect_count := ws_reconnect_count b;
     ws_running := ws_running b; _ws_connected_flag := _ws_connected_flag b;
     app := app b |}.

Definition set_ws_reconnect_count (n : Z) (b : Bot) : Bot :=
  {| session := session b; ws_reconnect_count := n;
     ws_running := ws_running b; _ws_connected_flag := _ws_connected_flag b;
     app := app b |}.

Definition set_ws_running (r : bool) (b : Bot) : Bot :=
  {| session := session b; ws_reconnect_count := ws_reconnect_count b;
     ws_running := r; _ws_connected_flag := _ws_connected_flag b;
     app := app b |}.

Definition set_ws_connected_flag (f : bool) (b : Bot) : Bot :=
  {| session := session b; ws_reconnect_count := ws_reconnect_count b;
     ws_running := ws_running b; _ws_connected_flag := f;
     app := app b |}.

Definition set_app (a : App) (b : Bot) : Bot :=
  {| session := session b; ws_reconnect_count := ws_reconnect_count b;
     ws_running := ws_running b; _ws_connected_flag := _ws_connected_flag b;
     app := a |}.

(** The fields as [__init__] leaves them. *)
Definition init_bot (u p : string) (a : App) : Bot :=
  {| session := init_session u p; ws_reconnect_count := 0;
     ws_running := false; _ws_connected_flag := false; app := a |}.

(** A registered handler: what it does to the application state, and
    whether it returns or raises. *)
Definition Handler : Type := Wire.Message -> App -> App * res unit.

(** [self.message_handlers] *)
Variable message_handlers : Wire.Category -> list Handler.

(** The [for handler in handlers] loop of [_dispatch_message]. *)
Fixpoint run_handlers (handlers : list Handler) (message : Wire.Message) (a : App)
  : App * list event :=
  match handlers with
  | [] => (a, [])
  | handler :: rest =>
      let '(a1, r) := handler message a in
      let '(a2, evs) := run_handlers rest message a1 in
      match r with
      | Ret _ => (a2, evs)
      | Raise e => (a2, HandlerFailed e :: evs)   (* except Exception as e *)
      end
  end.

(** [EnhancedBoxIM._dispatch_message(message, msg_type)] *)
Definition _dispatch_message (message : Wire.Message) (msg_type : Wire.Category) (b : Bot)
  : Bot * res unit * list event :=
  let handlers := message_handlers msg_type in
  let '(a, evs) := run_handlers handlers message (app b) in
  (set_app a b, Ret tt, evs).

(** [EnhancedBoxIM._handle_ws_message(data)] *)
Definition _handle_ws_message (data : json) (b : Bot) : Bot * res unit * list event :=
  match (let? cmd := get data "cmd" in
         let? msg_data := get_default data "data" (JDict []) in
         Ret (cmd, msg_data)) with
  | Raise e => (b, Raise e, [])
  | Ret (cmd, msg_data) =>
      if eq_int cmd (Wire.WSCommand_value Wire.PRIVATE_MESSAGE) then
        match Wire.Message_init msg_data false with
        | Raise e => (b, Raise e, [])
        | Ret msg => _dispatch_message msg Wire.private b
        end
      else if eq_int cmd (Wire.WSCommand_value Wire.GROUP_MESSAGE) then
        match Wire.Message_init msg_data true with
        | Raise e => (b, Raise e, [])
        | Ret msg => _dispatch_message msg Wire.group b
        end
      else if eq_int cmd (Wire.WSCommand_value Wire.SYSTEM_MESSAGE) then
        (b, Ret tt, [SystemMessage msg_data])
      else if eq_int cmd (Wire.WSCommand_value Wire.HEARTBEAT) then
        (b, Ret tt, [])
      else if eq_int cmd (Wire.WSCommand_value Wire.FORCE_OFFLINE) then
        (set_ws_connected_flag false (set_ws_running false b), Ret tt, [ForcedOffline])
      else (b, Ret tt, [])
  end.

(** [EnhancedBoxIM._ws_receive()]: the [async for] over the socket. *)
Fixpoint _ws_receive (messages : list Wire.frame) (closed : option exn) (b : Bot)
  : Bot * res unit * list event :=
  match messages with
  | [] =>
      match closed with
      | None => (b, Ret tt, [])
      | Some e =>
          (* except websockets.exceptions.ConnectionClosed *)
          if is_ConnectionClosed e
          then (set_ws_connected_flag false b, Ret tt, [StreamClosed])
          else (b, Raise e, [])
      end
  | message :: rest =>
      match Wire.json_loads message with
      | Raise e => (b, Raise e, [])
      | Ret data =>
          match _handle_ws_message data b with
          | (b1, Raise e, evs) => (b1, Raise e, evs)
          | (b1, Ret _, evs) =>
              let '(b2, r, evs') := _ws_receive rest closed b1 in
              (b2, r, evs ++ evs')
          end
      end
  end.

(** The [for attempt in range(3)] loop of [_ws_connect]. *)
Fixpoint connect_attempts (outcome : nat -> res unit) (attempts : list nat)
  : res unit * list event :=
  match attempts with
  | [] => (Ret tt, [])
  | attempt :: rest =>
      match outcome attempt with
      | Ret _ => (Ret tt, [Opened attempt])                      (* break *)
      | Raise e =>
          if Nat.eqb attempt 2 then (Raise e, [OpenFailed attempt e])
          else
            let '(r, evs) := connect_attempts outcome rest in
            (r, OpenFailed attempt e :: evs)
      end
  end.

(** [EnhancedBoxIM._ws_connect()] *)
Definition _ws_connect (env : ConnectEnv) (b : Bot) : Bot * res unit * list event :=
  let entered := Connecting (ws_reconnect_count b + 1) in
  match connect_attempts (open_outcome env) (seq 0 3) with
  | (Raise e, evs) => (b, Raise e, entered :: evs)
  | (Ret _, evs) =>
      let b1 := set_ws_connected_flag true (set_ws_reconnect_count 0 b) in
      match auth_send env with                                   (* _ws_auth *)
      | Raise e => (b1, Raise e, entered :: evs)
      | Ret _ =>
          let '(b2, r, evs') := _ws_receive (frames env) (stream_error env) b1 in
          (* finally *)
          (set_ws_connected_flag false b2, r, entered :: evs ++ AuthSent :: evs')
      end
  end.

(** [EnhancedBoxIM.disconnect()] *)
Definition disconnect (b : Bot) : Bot :=
  set_ws_connected_flag false (set_ws_running false b).

(** [EnhancedBoxIM.connect()], called when the clock shows [now].  The task
    it creates runs beside the caller; here the caller is followed alone,
    up to the first test of the connected flag, and [Tasks] follows every
    task. *)
Definition connect (now : Q) (b : Bot) : Bot * bool * list event :=
  if negb (is_logged_in now (session b)) then (b, false, [])
  else if ws_running b then (b, true, [])
  else (set_ws_running true b, _ws_connected_flag b, [Spawned]).

(** [EnhancedBoxIM.relogin()] *)
Definition relogin (env : IterEnv) (b : Bot) : Bot * bool * list event :=
  let s0 := set_expires 0 0 (set_tokens None None (session b)) in
  let '(s1, success, _) := login (relogin_login env) (username s0) (password s0) PC s0 in
  let b1 := set_session s1 b in
  if success then
    if ws_running b1 then
      let '(b2, _, evs) := connect (relogin_clock env) (disconnect b1) in
      (b2, true, evs)
    else (b1, true, [])
  else (b1, false, []).

(** One turn of the [while self.ws_running] loop of [_ws_loop];
    [consecutive_failures] is the local variable of that name. *)
Definition loop_body (cfg : BotConfig) (env : IterEnv) (consecutive_failures : Z) (b : Bot)
  : Bot * Z * list event :=
  let max_failures := MAX_RECONNECT_ATTEMPTS cfg in
  let '(b1, r, evs1) := _ws_connect (connection env) b in
  let '(b2, failures2, evs2) :=
    match r with
    | Ret _ => (set_ws_reconnect_count 0 b1, 0, [LoopConnected])
    | Raise e => (b1, consecutive_failures + 1, [LoopFailed e (consecutive_failures + 1)])
    end in
  if ws_running b2 && negb (_ws_connected_flag b2) then
    let '(b3, failures3, evs3) :=
      if max_failures <=? failures2 then
        let '(b', ok, evs) := relogin env b2 in
        if ok then (set_ws_reconnect_count 0 b', 0, evs ++ [Relogin true])
        else (b', max_failures - 1, evs ++ [Relogin false])
      else (b2, failures2, []) in
    let b4 := set_ws_reconnect_count (ws_reconnect_count b3 + 1) b3 in
    let delay := Z.min (RECONNECT_DELAY cfg * 2 ^ ws_reconnect_count b4)
                       (MAX_RECONNECT_DELAY cfg) in
    (b4, failures3, evs1 ++ evs2 ++ evs3 ++ [Sleep delay])
  else (b2, failures2, evs1 ++ evs2).

(** The loop, run for as many turns as the environment describes. *)
Fixpoint ws_loop_from (cfg : BotConfig) (envs : list IterEnv) (consecutive_failures : Z)
  (b : Bot) : Bot * Z * list event :=
  match envs with
  | [] => (b, consecutive_failures, [])
  | env :: rest =>
      if ws_running b then
        let '(b1, failures1, evs1) := loop_body cfg env consecutive_failures b in
        let '(b2, failures2, evs2) := ws_loop_from cfg rest failures1 b1 in
        (b2, failures2, evs1 ++ evs2)
      else (b, consecutive_failures, [])
  end.

(** [EnhancedBoxIM._ws_loop()] *)
Definition _ws_loop (cfg : BotConfig) (envs : list IterEnv) (b : Bot) : Bot * list event :=
  let '(b', _, evs) := ws_loop_from cfg envs 0 b in (b', evs).

(** What the receive path leaves alone: the session, the reconnect counter,
    and a cleared run flag. *)
Definition steady (b b' : Bot) : Prop :=
  session b' = session b
  /\ ws_reconnect_count b' = ws_reconnect_count b
  /\ (ws_running b = false -> ws_running b' = false)
  /\ (ws_running b' = true -> ws_running b = true).

(** The state counter and the counter read off the log agree. *)
Definition tracks (cfg : BotConfig) (b : Bot) (evs : list event) (b' : Bot) : Prop :=
  delays_follow cfg (ws_reconnect_count b) evs
  /\ attempts_after (ws_reconnect_count b) evs = ws_reconnect_count b'.

End Supervisor.

Arguments Bot : clear implicits.
Arguments Handler : clear implicits.

End Enhanced.

(* ===================================================================== *)
(** ** app.py: BoxIM                                                      *)
(* ===================================================================== *)

Module Mono.
Import Py.

(** [Message._safe_int] of app.py: a bare [except]. *)
Definition _safe_int (value : json) : res (option Z) :=
  try_except
    (match value with
     | JNull => Ret None
     | _ => let? n := int value in Ret (Some n)
     end)
    (fun _ => true)
    (fun _ => Ret None).

(** [class Message] of app.py *)
Record Message : Type := {
  data : json;
  is_group : bool;
  id : option Z;
  type : option Z;
  content : json;
  send_id : option Z;
  recv_id : option Z;
  group_id : option Z;
  send_time : json;
  sendNickName : json
}.

Definition Message_init (data : json) (is_group : bool) : res Message :=
  let? v_id := get data "id" in
  let? id := _safe_int v_id in
  let? v_type := get_default data "type" (JInt 0) in
  let? type := _safe_int v_type in
  let? content := get_default data "content" (JStr "") in
  let? v_send := get data "sendId" in
  let? send_id := _safe_int v_send in
  let? v_recv := get data "recvId" in
  let? recv_id := _safe_int v_recv in
  let? v_group := get data "groupId" in
  let? group_id := _safe_int v_group in
  let? send_time := get data "sendTime" in
  let? nick := get data "sendNickName" in
  Ret {| data := data; is_group := is_group; id := id; type := type;
         content := content; send_id := send_id; recv_id := recv_id;
         group_id := group_id; send_time := send_time; sendNickName := nick |}.

(** The log of the receive path. *)
Inductive event : Type :=
| HandlerFailed (e : exn)            (* inner except of _dispatch_message *)
| DispatchFailed (e : exn)           (* outer except of _dispatch_message *)
| HandleFailed (e : exn)             (* except of _handle_ws_message *)
| JSONFailed (e : exn)               (* except json.JSONDecodeError *)
| FrameFailed (e : exn)              (* except Exception, per frame *)
| SystemMessage (msg_data : json)
| ForcedOffline
| StreamClosed
| ReceiveFailed (e : exn)
| ReceiveEnded.                      (* finally: still running *)

Section BoxIM.

Context {App : Type}.

Record BoxIM : Type := {
  ws_running : bool;
  app : App
}.

Definition Handler : Type := Message -> App -> App * res unit.

Variable message_handlers : Wire.Category -> list Handler.

Fixpoint run_handlers (handlers : list Handler) (message : Message) (a : App)
  : App * list event :=
  match handlers with
  | [] => (a, [])
  | handler :: rest =>
      let '(a1, r) := handler message a in
      let '(a2, evs) := run_handlers rest message a1 in
      match r with
      | Ret _ => (a2, evs)
      | Raise e => (a2, HandlerFailed e :: evs)
      end
  end.

(** [BoxIM._dispatch_message(message, msg_type)] *)
Definition _dispatch_message (message : Message) (msg_type : Wire.Category) (b : BoxIM)
  : BoxIM * res unit * list event :=
  let '(a, evs) := run_handlers (message_handlers msg_type) message (app b) in
  ({| ws_running := ws_running b; app := a |}, Ret tt, evs).

(** [BoxIM._handle_ws_message(data)] *)
Definition _handle_ws_message (data : json) (b : BoxIM) : BoxIM * res unit * list event :=
  match (let? cmd := get data "cmd" in
         let? msg_data := get_default data "data" (JDict []) in
         Ret (cmd, msg_data)) with
  | Raise e => (b, Raise e, [])
  | Ret (cmd, msg_data) =>
      (* try: ... except Exception as e: logger.error *)
      if eq_int cmd (Wire.WSCommand_value Wire.PRIVATE_MESSAGE) then
        match Message_init msg_data false with
        | Raise e => (b, Ret tt, [HandleFailed e])
        | Ret msg => _dispatch_message msg Wire.private b
        end
      else if eq_int cmd (Wire.WSCommand_value Wire.GROUP_MESSAGE) then
        match Message_init msg_data true with
        | Raise e => (b, Ret tt, [HandleFailed e])
        | Ret msg => _dispatch_message msg Wire.group b
        end
      else if eq_int cmd (Wire.WSCommand_value Wire.SYSTEM_MESSAGE) then
        (b, Ret tt, [SystemMessage msg_data])
      else if eq_int cmd (Wire.WSCommand_value Wire.FORCE_OFFLINE) then
        ({| ws_running := false; app := app b |}, Ret tt, [ForcedOffline])
      else (b, Ret tt, [])
  end.

(** The body of the [async for] of [BoxIM._ws_receive()]: one frame. *)
Definition receive_one (message : Wire.frame) (b : BoxIM) : BoxIM * list event :=
  match Wire.json_loads message with
  | Raise e =>
      if is_JSONDecodeError e then (b, [JSONFailed e])     (* except json.JSONDecodeError *)
      else (b, [FrameFailed e])                            (* except Exception *)
  | Ret data =>
      match _handle_ws_message data b with
      | (b1, Ret _, evs) => (b1, evs)
      | (b1, Raise e, evs) => (b1, evs ++ [FrameFailed e])
      end
  end.

(** [BoxIM._ws_receive()] *)
Fixpoint _ws_receive (messages : list Wire.frame) (closed : option exn) (b : BoxIM)
  : BoxIM * res unit * list event :=
  match messages with
  | [] =>
      let ended := if ws_running b then [ReceiveEnded] else [] in
      match closed with
      | None => (b, Ret tt, ended)
      | Some e =>
          if is_ConnectionClosed e then (b, Ret tt, StreamClosed :: ended)
          else (b, Ret tt, ReceiveFailed e :: ended)
      end
  | message :: rest =>
      let '(b1, evs) := receive_one message b in
      let '(b2, r, evs') := _ws_receive rest closed b1 in
      (b2, r, evs ++ evs')
  end.

End BoxIM.

Arguments BoxIM : clear implicits.
Arguments Handler : clear implicits.

End Mono.

(* ===================================================================== *)
(** ** app.py: LevelSystem, the per-sender rate guard                     *)
(* ===================================================================== *)

Module Level.
Import Py.

(** The seven labels of [LevelSystem.labels], in the order of the table. *)
Inductive Label : Type :=
| Ordinary      (* levels 1-10 *)
| Active        (* 11-20 *)
| Senior        (* 21-30 *)
| Legend        (* 31-35 *)
| Myth          (* 36-45 *)
| Peak          (* 46-99 *)
| Invincible.   (* 100-999, and the fallback *)

Definition labels : list (Label * (Z * Z)) :=
  [ (Ordinary, (1, 10)); (Active, (11, 20)); (Senior, (21, 30)); (Legend, (31, 35));
    (Myth, (36, 45)); (Peak, (46, 99)); (Invincible, (100, 999)) ].

(** [LevelSystem.get_user_label(level)] *)
Fixpoint label_in (table : list (Label * (Z * Z))) (level : Z) : Label :=
  match table with
  | [] => Invincible
  | (label, (min_level, max_level)) :: rest =>
      if (min_level <=? level) && (level <=? max_level) then label
      else label_in rest level
  end.

Definition get_user_label (level : Z) : Label := label_in labels level.

(** A record of [boxim.user_data]. The seven keys every record is created
    with are plain fields; the six keys that [_get_user_data] fills in when
    they are missing are optional. *)
Record UserData : Type := {
  u_exp : Z;
  u_level : Z;
  u_total_messages : Z;
  u_last_message_time : Q;
  u_spam_warnings : Z;
  u_last_warning_time : Q;
  u_current_label : Label;
  u_points : option Z;
  u_last_sign_date : option (option string);
  u_consecutive_days : option Z;
  u_total_sign_days : option Z;
  u_lottery_count : option Z;
  u_lottery_wins : option Z
}.

(** The record a new or reset user gets. *)
Definition default_user_data : UserData :=
  {| u_exp := 0; u_level := 1; u_total_messages := 0; u_last_message_time := 0;
     u_spam_warnings := 0; u_last_warning_time := 0; u_current_label := Ordinary;
     u_points := Some 0; u_last_sign_date := Some None; u_consecutive_days := Some 0;
     u_total_sign_days := Some 0; u_lottery_count := Some 0; u_lottery_wins := Some 0 |}.

Definition or_default {A} (d : A) (o : option A) : option A :=
  match o with Some x => Some x | None => Some d end.

(** The [for key, default_value in defaults.items()] loop. *)
Definition fill_defaults (u : UserData) : UserData :=
  {| u_exp := u_exp u; u_level := u_level u; u_total_messages := u_total_messages u;
     u_last_message_time := u_last_message_time u;
     u_spam_warnings := u_spam_warnings u;
     u_last_warning_time := u_last_warning_time u;
     u_current_label := u_current_label u;
     u_points := or_default 0 (u_points u);
     u_last_sign_date := or_default None (u_last_sign_date u);
     u_consecutive_days := or_default 0 (u_consecutive_days u);
     u_total_sign_days := or_default 0 (u_total_sign_days u);
     u_lottery_count := or_default 0 (u_lottery_count u);
     u_lottery_wins := or_default 0 (u_lottery_wins u) |}.

(** Every key is present. *)
Definition complete (u : UserData) : Prop := fill_defaults u = u.

(** [exp += 1], [total_messages += 1], [last_message_time = current_time] *)
Definition count_message (current_time : Q) (u : UserData) : UserData :=
  {| u_exp := u_exp u + 1; u_level := u_level u;
     u_total_messages := u_total_messages u + 1;
     u_last_message_time := current_time;
     u_spam_warnings := u_spam_warnings u;
     u_last_warning_time := u_last_warning_time u;
     u_current_label := u_current_label u;
     u_points := u_points u; u_last_sign_date := u_last_sign_date u;
     u_consecutive_days := u_consecutive_days u;
     u_total_sign_days := u_total_sign_days u;
     u_lottery_count := u_lottery_count u; u_lottery_wins := u_lottery_wins u |}.

Definition set_level (level : Z) (label : Label) (u : UserData) : UserData :=
  {| u_exp := u_exp u; u_level := level;
     u_total_messages := u_total_messages u;
     u_last_message_time := u_last_message_time u;
     u_spam_warnings := u_spam_warnings u;
     u_last_warning_time := u_last_warning_time u;
     u_current_label := label;
     u_points := u_points u; u_last_sign_date := u_last_sign_date u;
     u_consecutive_days := u_consecutive_days u;
     u_total_sign_days := u_total_sign_days u;
     u_lottery_count := u_lottery_count u; u_lottery_wins := u_lottery_wins u |}.

(** [round(n / 2)] for an integer [n]: halves go to the even neighbour. *)
Definition round_half (n : Z) : Z :=
  if Z.even n then n / 2
  else let k := (n - 1) / 2 in if Z.even k then k else k + 1.

(** The [while True] loop of [_calculate_level_from_exp]; it leaves at the
    latest when [level] passes 999. *)
Fixpoint level_loop (fuel : nat) (exp level total_exp_needed : Z) : Z :=
  match fuel with
  | O => level
  | S fuel' =>
      let next_level_exp := round_half (level * level) in
      let total_exp_needed := total_exp_needed + next_level_exp in
      if total_exp_needed <=? exp then
        let level := level + 1 in
        if 999 <? level then level
        else level_loop fuel' exp level total_exp_needed
      else level
  end.

(** [LevelSystem._calculate_level_from_exp(exp)] *)
Definition _calculate_level_from_exp (exp : Z) : Z := level_loop 999 exp 1 0.

(** Where [_send_warning] sends its text. *)
Inductive target : Type :=
| ToGroup (group_id : Z)
| ToUser (user_id : Z).

Inductive event : Type :=
| FirstOffense (user_id : Z) (to : target)     (* muted for one minute *)
| DataCleared (user_id : Z) (to : target)      (* all data reset *)
| Saved                                        (* boxim._save_data() *)
| LevelUp (user_id : Z) (old_level new_level : Z) (old_label new_label : Label)
| StatsLevel (user_id : Z) (level : Z).        (* real_stats.update_user_level *)

(** The state [LevelSystem] keeps, with [boxim.user_data]. The key of
    [user_data] is [str(user_id)], which determines [user_id]. *)
Record LevelSystem : Type := {
  user_message_times : gmap Z (list Q);
  spam_warnings : gmap Z Z;
  temp_blacklist : gmap Z Q;
  user_data : gmap Z UserData
}.

Definition set_user_message_times (m : gmap Z (list Q)) (s : LevelSystem) : LevelSystem :=
  {| user_message_times := m; spam_warnings := spam_warnings s;
     temp_blacklist := temp_blacklist s; user_data := user_data s |}.

Definition set_spam_warnings (m : gmap Z Z) (s : LevelSystem) : LevelSystem :=
  {| user_message_times := user_message_times s; spam_warnings := m;
     temp_blacklist := temp_blacklist s; user_data := user_data s |}.

Definition set_temp_blacklist (m : gmap Z Q) (s : LevelSystem) : LevelSystem :=
  {| user_message_times := user_message_times s; spam_warnings := spam_warnings s;
     temp_blacklist := m; user_data := user_data s |}.

Definition set_user_data (m : gmap Z UserData) (s : LevelSystem) : LevelSystem :=
  {| user_message_times := user_message_times s; spam_warnings := spam_warnings s;
     temp_blacklist := temp_blacklist s; user_data := m |}.

(** [LevelSystem.__init__], with the user records the bot loaded. *)
Definition init (loaded : gmap Z UserData) : LevelSystem :=
  {| user_message_times := ∅; spam_warnings := ∅; temp_blacklist := ∅;
     user_data := loaded |}.

(** [a < b] on instants. *)
Definition Qlt_bool (a b : Q) : bool := negb (Qle_bool b a).

(** [LevelSystem._get_user_data(user_id)] *)
Definition _get_user_data (user_id : Z) (s : LevelSystem) : LevelSystem * UserData :=
  match user_data s !! user_id with
  | None =>
      (set_user_data (<[user_id := default_user_data]> (user_data s)) s, default_user_data)
  | Some u =>
      let u' := fill_defaults u in
      (set_user_data (<[user_id := u']> (user_data s)) s, u')
  end.

(** [message.is_group and message.group_id] picks the group. *)
Definition warning_target (user_id : Z) (message : Mono.Message) : target :=
  match Mono.is_group message, Mono.group_id message with
  | true, Some g => if g =? 0 then ToUser user_id else ToGroup g
  | _, _ => ToUser user_id
  end.

(** [LevelSystem._reset_user_data(user_id)] *)
Definition _reset_user_data (user_id : Z) (s : LevelSystem) : LevelSystem :=
  set_user_data (<[user_id := default_user_data]> (user_data s)) s.

(** [LevelSystem._handle_spam(user_id, message)]; its [time.time()] gives
    [current_time]. *)
Definition _handle_spam (current_time : Q) (user_id : Z) (message : Mono.Message)
  (s : LevelSystem) : LevelSystem * list event :=
  let warnings := default 0 (spam_warnings s !! user_id) + 1 in
  let s1 := set_spam_warnings (<[user_id := warnings]> (spam_warnings s)) s in
  if warnings =? 1 then
    (set_temp_blacklist (<[user_id := (current_time + 60)%Q]> (temp_blacklist s1)) s1,
     [FirstOffense user_id (warning_target user_id message)])
  else
    let s2 := _reset_user_data user_id s1 in
    let s3 := set_spam_warnings (<[user_id := 0]> (spam_warnings s2)) s2 in
    let s4 := set_temp_blacklist (delete user_id (temp_blacklist s3)) s3 in
    let s5 := set_user_message_times (delete user_id (user_message_times s4)) s4 in
    (s5, [Saved; DataCleared user_id (warning_target user_id message)]).

(** The entries of the sender's window once [current_time] is appended and
    everything not newer than five seconds is dropped. *)
Definition window (current_time : Q) (s : LevelSystem) (user_id : Z) : list Q :=
  let times := default [] (user_message_times s !! user_id) ++ [current_time] in
  let five_seconds_ago := (current_time - 5)%Q in
  List.filter (fun t => Qlt_bool five_seconds_ago t) times.

(** The blacklist test at the head of [add_experience]: [None] when the
    sender is still blocked, else the state with an expired block and its
    warning removed. *)
Definition check_blacklist (current_time : Q) (user_id : Z) (s : LevelSystem)
  : option LevelSystem :=
  match temp_blacklist s !! user_id with
  | Some expiry =>
      if Qlt_bool current_time expiry then None
      else
        let s1 := set_temp_blacklist (delete user_id (temp_blacklist s)) s in
        Some (set_spam_warnings (delete user_id (spam_warnings s1)) s1)
  | None => Some s
  end.

(** The rest of [add_experience], once the sender is known not to be
    blocked: the window is updated, and either the spam path is taken or
    the message is counted in the sender's record [u]. *)
Definition detect_or_count (current_time spam_time : Q) (user_id : Z)
  (message : Mono.Message) (u : UserData) (s1 : LevelSystem)
  : LevelSystem * bool * list event :=
  let recent := window current_time s1 user_id in
  let s2 := set_user_message_times (<[user_id := recent]> (user_message_times s1)) s1 in
  if (5 <=? List.length recent)%nat then
    let '(s3, evs) := _handle_spam spam_time user_id message s2 in
    (s3, false, evs)
  else
    let u1 := count_message current_time u in
    let old_level := u_level u1 in
    let new_level := _calculate_level_from_exp (u_exp u1) in
    let '(u2, evs) :=
      if old_level <? new_level then
        let old_label := u_current_label u1 in
        let new_label := get_user_label new_level in
        (set_level new_level new_label u1,
         [LevelUp user_id old_level new_level old_label new_label])
      else (u1, []) in
    let s3 := set_user_data (<[user_id := u2]> (user_data s2)) s2 in
    (s3, true, evs ++ [Saved; StatsLevel user_id (u_level u2)]).

(** [LevelSystem.add_experience(user_id, message)]; [current_time] is its
    own [time.time()], [spam_time] the one [_handle_spam] takes. *)
Definition add_experience (current_time spam_time : Q) (user_id : Z)
  (message : Mono.Message) (s : LevelSystem) : LevelSystem * bool * list event :=
  let '(s0, u) := _get_user_data user_id s in
  match check_blacklist current_time user_id s0 with
  | None => (s0, false, [])
  | Some s1 => detect_or_count current_time spam_time user_id message u s1
  end.

(** One inbound text message as the handlers pass it on. *)
Record Call : Type := {
  c_time : Q;
  c_spam_time : Q;
  c_user : Z;
  c_message : Mono.Message
}.

(** The guard fed with a sequence of inbound messages. *)
Fixpoint run (calls : list Call) (s : LevelSystem) : LevelSystem * list event :=
  match calls with
  | [] => (s, [])
  | c :: rest =>
      let '(s1, _, evs) :=
        add_experience (c_time c) (c_spam_time c) (c_user c) (c_message c) s in
      let '(s2, evs') := run rest s1 in
      (s2, evs ++ evs')
  end.

(** The states the guard can be in: the initial one, and those one more
    message leads to. *)
Inductive reachable : LevelSystem -> Prop :=
| reach_init (loaded : gmap Z UserData) : reachable (init loaded)
| reach_step (s : LevelSystem) (c : Call) :
    reachable s ->
    reachable (fst (fst (add_experience (c_time c) (c_spam_time c) (c_user c)
                           (c_message c) s))).

(** What holds of every reachable state: a warning counter that is set is
    1 and comes with a block, and a blocked sender has a full record. *)
Definition guard_inv (s : LevelSystem) : Prop :=
  (forall u w, spam_warnings s !! u = Some w ->
     w = 1 /\ is_Some (temp_blacklist s !! u))
  /\ (forall u, is_Some (temp_blacklist s !! u) ->
     exists r, user_data s !! u = Some r /\ complete r).

End Level.

(* ===================================================================== *)
(** ** Scenarios                                                          *)
(* ===================================================================== *)

(** Concrete environments and states the properties are exercised on. *)
Module Scenario.
Import Py Enhanced.

(** A frame whose [id] is a number too large for a double: [json.loads]
    reads [1e999] as the float infinity. *)
Definition overflowing_message : json := JDict [("id"%string, JFloat (FInf false))].

(** A login the endpoint accepts, answered with a token that is not a JWT,
    while the self-info call fails. *)
Definition opaque_token_login : LoginEnv :=
  {| login_reply :=
       LoginHttp 200 (JInt 200)
         {| accessToken := "opaque-token"; refreshToken := "opaque-refresh";
            accessTokenExpiresIn := 3600; refreshTokenExpiresIn := 86400 |};
     b64_json := fun _ => Raise ValueError;
     self_info := fun _ => Raise (RuntimeError "self info unavailable");
     login_time := fun _ => 1000%Q |}.

(** The same, with a JWT whose payload is an object without a subject. *)
Definition claimless_token_login : LoginEnv :=
  {| login_reply :=
       LoginHttp 200 (JInt 200)
         {| accessToken := "e30.e30.sig"; refreshToken := "opaque-refresh";
            accessTokenExpiresIn := 3600; refreshTokenExpiresIn := 86400 |};
     b64_json := fun _ => Ret (JDict []);
     self_info := fun _ => Raise (RuntimeError "self info unavailable");
     login_time := fun _ => 1000%Q |}.

(** A refresh is in flight. *)
Definition refresh_in_flight : Session :=
  set_is_refreshing_token true (init_session "ENLT" "114514").

(** A refresh environment in which every call would succeed. *)
Definition willing_refresh : RefreshEnv :=
  {| refresh_reply :=
       RefreshHttp 200 (JInt 200)
         {| r_accessToken := "fresh"; r_refreshToken := None;
            r_accessTokenExpiresIn := 3600; r_refreshTokenExpiresIn := None |};
     refresh_time := fun _ => 5000%Q;
     fallback_login := opaque_token_login |}.

(** A bot without application state whose supervisor was just started. *)
Definition started : Bot unit :=
  set_ws_running true (init_bot "ENLT" "114514" tt).

Definition no_handlers : Wire.Category -> list (Handler unit) := fun _ => [].

(** The login endpoint answers with application code 500. *)
Definition refused_login : LoginEnv :=
  {| login_reply :=
       LoginHttp 200 (JInt 500)
         {| accessToken := ""; refreshToken := "";
            accessTokenExpiresIn := 0; refreshTokenExpiresIn := 0 |};
     b64_json := fun _ => Raise ValueError;
     self_info := fun _ => Raise (RuntimeError "unauthorised");
     login_time := fun _ => 2000%Q |}.

(** A turn in which the server cannot be reached and the login is refused. *)
Definition unreachable : IterEnv :=
  {| connection :=
       {| open_outcome := fun _ => Raise TimeoutError;
          auth_send := Ret tt; frames := []; stream_error := None |};
     relogin_login := refused_login;
     relogin_clock := 2000%Q |}.

(** A turn in which the server accepts the socket, sends ForceOffline and a
    system message, and closes. *)
Definition kicked : IterEnv :=
  {| connection :=
       {| open_outcome := fun _ => Ret tt;
          auth_send := Ret tt;
          frames := [Wire.envelope Wire.FORCE_OFFLINE (JDict []);
                     Wire.envelope Wire.SYSTEM_MESSAGE (JStr "bye")];
          stream_error := Some ConnectionClosed |};
     relogin_login := refused_login;
     relogin_clock := 2000%Q |}.

(** Two handlers over a counter: the first raises, the second counts. *)
Definition failing {M : Type} : M -> nat -> nat * res unit :=
  fun _ a => (a, Raise (RuntimeError "handler failed")).

Definition counting {M : Type} : M -> nat -> nat * res unit :=
  fun _ a => (S a, Ret tt).

Definition two_handlers : Wire.Category -> list (Handler nat) :=
  fun _ => [failing; counting].

Definition two_mono_handlers : Wire.Category -> list (Mono.Handler nat) :=
  fun _ => [failing; counting].

(** The payload of a private text message, and the message built from it. *)
Definition text_payload : json :=
  JDict [("id"%string, JInt 1); ("type"%string, JInt 0);
         ("content"%string, JStr "hi"); ("sendId"%string, JInt 7)].

Definition text_message : Wire.Message :=
  {| Wire.data := text_payload; Wire.is_group := false; Wire.id := Some 1;
     Wire.type := Some 0; Wire.content := JStr "hi"; Wire.send_id := Some 7;
     Wire.recv_id := None; Wire.group_id := None; Wire.send_time := JNull;
     Wire.sendNickName := JNull; Wire.quote_message := JNull;
     Wire.recalled_message_id := None |}.

Definition mono_text_message : Mono.Message :=
  {| Mono.data := text_payload; Mono.is_group := false; Mono.id := Some 1;
     Mono.type := Some 0; Mono.content := JStr "hi"; Mono.send_id := Some 7;
     Mono.recv_id := None; Mono.group_id := None; Mono.send_time := JNull;
     Mono.sendNickName := JNull |}.

(** Sender 7 writes at the instants 0, 1, 2, 3 and 4. *)
Definition burst_call (t : Z) : Level.Call :=
  {| Level.c_time := inject_Z t; Level.c_spam_time := inject_Z t;
     Level.c_user := 7; Level.c_message := mono_text_message |}.

Definition four_messages : Level.LevelSystem :=
  fst (Level.run (map burst_call [0; 1; 2; 3]) (Level.init ∅)).

Definition five_messages : Level.LevelSystem :=
  fst (Level.run (map burst_call [0; 1; 2; 3; 4]) (Level.init ∅)).

(** A state no run produces: sender 7 carries a warning but no block. *)
Definition warned_unblocked : Level.LevelSystem :=
  Level.set_spam_warnings {[ 7 := 1 ]} (Level.init ∅).

End Scenario.

(* ===================================================================== *)
(** ** bot_core.py: the token guard and the session's life                *)
(* ===================================================================== *)

Module Token.
Import Py Enhanced.

(** [a < b] on instants. *)
Definition Qlt_bool (a b : Q) : bool := negb (Qle_bool b a).

(** [EnhancedBoxIM.ensure_valid_token()], entered when the clock shows
    [current_time]; [env] is what the refresh it may start meets. *)
Definition ensure_valid_token (current_time : Q) (env : RefreshEnv) (s : Session)
  : Session * bool * list call :=
  if Qlt_bool (current_time - _last_token_refresh_time s) 10 then (s, true, [])
  else if token_missing (access_token s)
          || Qle_bool (access_token_expires s - 300) current_time then
    let '(s1, result, calls) := refresh_token_if_needed env s in
    (set_last_token_refresh_time current_time s1, result, calls)
  else (s, true, []).

(** One call of [ensure_valid_token]. *)
Record Probe : Type := {
  p_time : Q;
  p_refresh : RefreshEnv
}.

(** A sequence of calls, as the API client makes one before every request. *)
Fixpoint probe_all (probes : list Probe) (s : Session) : Session * list bool * list call :=
  match probes with
  | [] => (s, [], [])
  | p :: rest =>
      let '(s1, result, calls) := ensure_valid_token (p_time p) (p_refresh p) s in
      let '(s2, results, calls') := probe_all rest s1 in
      (s2, result :: results, calls ++ calls')
  end.

(** Each call reaches the clock reading of [refresh_token_if_needed] less
    than [gap] seconds after the call before it was entered. *)
Fixpoint spaced_within (gap : Q) (previous : Q) (probes : list Probe) : Prop :=
  match probes with
  | [] => True
  | p :: rest =>
      (refresh_time (p_refresh p) 0 - previous < gap)%Q
      /\ spaced_within gap (p_time p) rest
  end.

(** The calls that change the authentication fields. *)
Inductive operation : Type :=
| Login (env : LoginEnv) (u p : string) (t : Terminal)
| Refresh (env : RefreshEnv)
| EnsureValid (current_time : Q) (env : RefreshEnv)
| Relogin (env : IterEnv).

Definition perform (o : operation) (s : Session) : Session :=
  match o with
  | Login env u p t => fst (fst (login env u p t s))
  | Refresh env => fst (fst (refresh_token_if_needed env s))
  | EnsureValid current_time env => fst (fst (ensure_valid_token current_time env s))
  | Relogin env =>
      session (fst (fst (relogin env
        {| session := s; ws_reconnect_count := 0; ws_running := false;
           _ws_connected_flag := false; app := tt |})))
  end.

Definition perform_all (ops : list operation) (s : Session) : Session :=
  fold_left (fun s o => perform o s) ops s.

(** The REST calls of one [login]: the POST, then at most two self-info
    requests. *)
Definition login_calls (calls : list call) : Prop :=
  exists k, (k <= 2)%nat /\ calls = POST_login :: repeat GET_user_self k.

(** The REST calls of one [refresh_token_if_needed]: none, or the refresh
    POST, followed by those of a login when the refresh was refused. *)
Definition refresh_calls (calls : list call) : Prop :=
  calls = [] \/ calls = [POST_refresh]
  \/ exists rest, login_calls rest /\ calls = POST_refresh :: rest.

Definition is_sleep (e : event) : bool :=
  match e with Sleep _ => true | _ => false end.

(** A connection that opens the socket and then fails to send the
    authentication frame. *)
Definition opens_unauthenticated (env : ConnectEnv) : Prop :=
  (exists k, (k < 3)%nat /\ raises (open_outcome env k) = false)
  /\ raises (auth_send env) = true.

(** A connection that never gets to the receive loop. *)
Definition never_receives (env : ConnectEnv) : Prop :=
  (forall k, (k < 3)%nat -> raises (open_outcome env k) = true)
  \/ raises (auth_send env) = true.

(** What [login] and the subject resolution leave alone. *)
Definition keeps_auth_settings (s s' : Session) : Prop :=
  _is_refreshing_token s' = _is_refreshing_token s
  /\ _token_refresh_cooldown s' = _token_refresh_cooldown s.

(** What every session keeps, whatever is called on it. *)
Definition session_inv (s : Session) : Prop :=
  _is_refreshing_token s = false
  /\ _token_refresh_cooldown s = 30%Q.

(** Neither a backoff sleep nor a re-login. *)
Definition quiet (e : event) : bool := negb (is_sleep e) && negb (is_relogin e).

End Token.

(* ===================================================================== *)
(** ** api_client.py: APIClient.request                                   *)
(* ===================================================================== *)

Module Api.
Import Py Enhanced Token.

(** The field of [APIClient] that [request] reads and writes. *)
Record APIClient : Type := {
  _last_token_check : Q
}.

(** How [request] ends when it does not return: with one of the four
    exceptions it raises itself, or with one that passes through it (from
    the HTTP client, [json.loads] or [data.get]). *)
Inductive failure : Type :=
| TokenInvalid
| RefreshTooFrequent
| RefreshFailed
| ApiError (code : json)
| Passed (e : exn).

(** What [session.request] yields: it raises, or a response with a status
    and a body text; reading the text of a response is taken to succeed. *)
Inductive HttpReply : Type :=
| HttpRaises (e : exn)
| Http (status : Z) (body : Wire.frame).

(** What goes over the network: the REST calls of the token guard, and the
    request itself with the [accessToken] header it carries. *)
Inductive traffic : Type :=
| Auth (c : call)
| Request (accessToken : option string).

Definition is_request (t : traffic) : bool :=
  match t with Request _ => true | Auth _ => false end.

(** Everything one call of [request] takes from outside. *)
Record RequestEnv : Type := {
  check_time : Q;                  (* the clock of ensure_valid_token *)
  check_refresh : RefreshEnv;
  reply : HttpReply;
  unauthorized_time : Q;           (* the clock read on a 401 *)
  retry_refresh : RefreshEnv;
  retry_reply : HttpReply
}.

(** [data = json.loads(await response.text())] and the test of its code. *)
Definition read_body (r : HttpReply) : json + failure :=
  match r with
  | HttpRaises e => inr (Passed e)
  | Http _ body =>
      match (let? data := Wire.json_loads body in
             let? code := get data "code" in Ret (data, code)) with
      | Raise e => inr (Passed e)
      | Ret (data, code) =>
          if negb (eq_int code 200) then inr (ApiError code) else inl data
      end
  end.

(** [_get_headers] sets the header only for a token that is truthy. *)
Definition header_token (s : Session) : option string :=
  if token_missing (access_token s) then None else access_token s.

(** [APIClient.request(method, path, **kwargs)] *)
Definition request (path : string) (env : RequestEnv) (c : APIClient) (s : Session)
  : APIClient * Session * (json + failure) * list traffic :=
  let '(s1, valid, calls) :=
    if negb (String.eqb path "/api/login")
    then ensure_valid_token (check_time env) (check_refresh env) s
    else (s, true, []) in
  if negb valid then (c, s1, inr TokenInvalid, map Auth calls)
  else
    let sent := map Auth calls ++ [Request (header_token s1)] in
    match reply env with
    | HttpRaises e => (c, s1, inr (Passed e), sent)
    | Http status body =>
        if status =? 401 then
          let current_time := unauthorized_time env in
          if Token.Qlt_bool (current_time - _last_token_check c) 30
          then (c, s1, inr RefreshTooFrequent, sent)
          else
            let c1 := {| _last_token_check := current_time |} in
            let '(s2, refreshed, calls2) :=
              refresh_token_if_needed (retry_refresh env) s1 in
            if refreshed then
              (c1, s2, read_body (retry_reply env),
               sent ++ map Auth calls2 ++ [Request (access_token s2)])
            else (c1, s2, inr RefreshFailed, sent ++ map Auth calls2)
        else (c, s1, read_body (Http status body), sent)
    end.

(** The number of times the request itself went out. *)
Definition sends (tr : list traffic) : nat := List.length (List.filter is_request tr).

End Api.

(* ===================================================================== *)
(** ** bot_core.py: the heartbeat task                                    *)
(* ===================================================================== *)

Module Heartbeat.
Import Py Enhanced.

Definition is_TimeoutError (e : exn) : bool :=
  match e with TimeoutError => true | _ => false end.

Definition max_consecutive_failures : Z := 3.

(** The log of the task: one entry per send, and the sleeps between. *)
Inductive event : Type :=
| Sent                                  (* the send returned *)
| SendFailed (e : exn)                  (* the send raised *)
| Slept (seconds : Z).

Definition is_send (e : event) : bool :=
  match e with Sent | SendFailed _ => true | Slept _ => false end.

Section Task.

Context {App : Type}.

(** The [while self.ws_running and self._ws_connected_flag] loop of
    [EnhancedBoxIM._ws_heartbeat()]: [sends] gives the outcome of each
    [asyncio.wait_for(self.ws_connection.send(...), timeout=3.0)] the task
    gets to, [interval] is [BotConfig.HEARTBEAT_INTERVAL].  The task is
    followed on its own: what the receive loop does to the two flags while
    it sleeps is not part of the model. *)
Fixpoint heartbeat_loop (interval : Z) (sends : list (res unit))
  (consecutive_failures : Z) (b : Bot App) : Bot App * list event :=
  match sends with
  | [] => (b, [])
  | outcome :: rest =>
      if ws_running b && _ws_connected_flag b then
        match outcome with
        | Ret _ =>
            let '(b', evs) := heartbeat_loop interval rest 0 b in
            (b', Sent :: Slept interval :: evs)
        | Raise e =>
            if is_TimeoutError e then               (* except asyncio.TimeoutError *)
              let consecutive_failures := consecutive_failures + 1 in
              if max_consecutive_failures <=? consecutive_failures
              then (set_ws_connected_flag false b, [SendFailed e])
              else
                let '(b', evs) := heartbeat_loop interval rest consecutive_failures b in
                (b', SendFailed e :: evs)
            else if is_ConnectionClosed e then      (* except ConnectionClosed *)
              (set_ws_connected_flag false b, [SendFailed e])
            else                                    (* except Exception *)
              let consecutive_failures := consecutive_failures + 1 in
              if max_consecutive_failures <=? consecutive_failures
              then (set_ws_connected_flag false b, [SendFailed e])
              else
                let '(b', evs) := heartbeat_loop interval rest consecutive_failures b in
                (b', SendFailed e :: Slept 2 :: evs)
        end
      else (b, [])
  end.

(** [EnhancedBoxIM._ws_heartbeat()] *)
Definition _ws_heartbeat (interval : Z) (sends : list (res unit)) (b : Bot App)
  : Bot App * list event :=
  heartbeat_loop interval sends 0 b.

End Task.

(** A send that ends the task at once. *)
Definition closed (outcome : res unit) : bool :=
  match outcome with Raise e => is_ConnectionClosed e | Ret _ => false end.

(** Whether three entries in a row are set. *)
Fixpoint three_in_a_row (l : list bool) : bool :=
  match l with
  | [] => false
  | a :: t =>
      (a && match t with b :: c :: _ => b && c | _ => false end) || three_in_a_row t
  end.

(** No send meets a closed connection, and no three sends in a row fail. *)
Definition tolerable (sends : list (res unit)) : Prop :=
  existsb closed sends = false /\ three_in_a_row (map raises sends) = false.

(** The counter of the loop, as the number of failed sends just before. *)
Definition behind (c : nat) (sends : list (res unit)) : list bool :=
  repeat true c ++ map raises sends.

End Heartbeat.

(* ===================================================================== *)
(** ** bot_core.py: MessageModule, the table of muted groups              *)
(* ===================================================================== *)

Module Mute.
Import Py.

(** A value of [group_mute_status]: [{'muted': ..., 'detected_time': ...}]. *)
Record MuteStatus : Type := {
  muted : bool;
  detected_time : Q
}.

(** [self.group_mute_status]: a dict, as its items in insertion order. *)
Definition Table : Type := list (Z * MuteStatus).

(** [d.get(k)] *)
Fixpoint lookup (group_id : Z) (d : Table) : option MuteStatus :=
  match d with
  | [] => None
  | (g, status) :: rest => if g =? group_id then Some status else lookup group_id rest
  end.

(** [d[k] = v]: an existing key keeps its place, a new one goes last. *)
Fixpoint assign (group_id : Z) (status : MuteStatus) (d : Table) : Table :=
  match d with
  | [] => [(group_id, status)]
  | (g, st) :: rest =>
      if g =? group_id then (g, status) :: rest
      else (g, st) :: assign group_id status rest
  end.

(** [del d[k]] for a key that is present, nothing otherwise. *)
Fixpoint remove (group_id : Z) (d : Table) : Table :=
  match d with
  | [] => []
  | (g, st) :: rest =>
      if g =? group_id then rest else (g, st) :: remove group_id rest
  end.

(** [self.mute_check_interval] *)
Definition mute_check_interval : Q := 3600.

(** [MessageModule._set_group_muted(group_id, muted)]; [now] is the
    [time.time()] of the first branch. *)
Definition _set_group_muted (now : Q) (group_id : Z) (m : bool) (d : Table) : Table :=
  if m then assign group_id {| muted := true; detected_time := now |} d
  else remove group_id d.

(** [MessageModule._is_group_muted(group_id)] *)
Definition _is_group_muted (now : Q) (group_id : Z) (d : Table) : Table * bool :=
  match lookup group_id d with
  | None => (d, false)
  | Some status =>
      if negb (muted status) then (d, false)
      else if negb (Qle_bool (now - detected_time status) mute_check_interval)
      then (_set_group_muted now group_id false d, false)
      else (d, true)
  end.

(** The [for group_id, status in self.group_mute_status.items()] loop of
    [get_muted_groups]: [items] is what the iterator has not yet produced,
    [d] the dict.  Removing an entry changes the size of the dict, and the
    iterator's next step, even the one that would end the loop, then raises
    RuntimeError. *)
Fixpoint scan (now : Q) (items : Table) (d : Table) (muted_groups : list Z)
  : Table * res (list Z) :=
  match items with
  | [] => (d, Ret muted_groups)
  | (group_id, status) :: rest =>
      if muted status then
        if Qle_bool (now - detected_time status) mute_check_interval
        then scan now rest d (muted_groups ++ [group_id])
        else (_set_group_muted now group_id false d,
              Raise (RuntimeError "dictionary changed size during iteration"))
      else scan now rest d muted_groups
  end.

(** [MessageModule.get_muted_groups()] *)
Definition get_muted_groups (now : Q) (d : Table) : Table * res (list Z) :=
  scan now d d [].

(** An entry whose mute has run out at [now]. *)
Definition expired (now : Q) (entry : Z * MuteStatus) : bool :=
  muted (snd entry) && negb (Qle_bool (now - detected_time (snd entry)) mute_check_interval).

(** A dict has each key once. *)
Definition keys_unique (d : Table) : Prop := List.NoDup (map fst d).

(** The groups whose entry says muted, in the order of the dict. *)
Definition flagged (d : Table) : list Z :=
  map fst (List.filter (fun entry => muted (snd entry)) d).

End Mute.

(* ===================================================================== *)
(** ** app.py: LevelSystem, levels and labels                             *)
(* ===================================================================== *)

Module Progress.
Import Py Level.

(** [range(a, b)] *)
Definition range (a b : Z) : list Z :=
  map (fun i => a + Z.of_nat i) (seq 0 (Z.to_nat (b - a))).

(** [LevelSystem._calculate_exp_for_level(level)].  Python computes
    [round((lvl * lvl) / 2)] on a double; [round_half] is that value as long
    as the square stays below 2^53, and the properties below are stated for
    the levels 1 to 1000 of the level loop. *)
Definition _calculate_exp_for_level (level : Z) : Z :=
  if level <=? 1 then 0
  else fold_left (fun total_exp lvl => total_exp + round_half (lvl * lvl))
         (range 1 level) 0.

(** [LevelSystem._calculate_exp_for_next_level(current_level)], with the
    same reading of [round((l * l) / 2)]. *)
Definition _calculate_exp_for_next_level (current_level : Z) : Z :=
  if current_level <? 1 then 0
  else round_half (current_level * current_level).

(** The place of a label in the table of [LevelSystem.labels]. *)
Definition label_rank (l : Label) : Z :=
  match l with
  | Ordinary => 0 | Active => 1 | Senior => 2 | Legend => 3
  | Myth => 4 | Peak => 5 | Invincible => 6
  end.

End Progress.

(* ===================================================================== *)
(** ** app.py: LevelSystem, sign-in, exchange and lottery                 *)
(* ===================================================================== *)

Module Points.
Import Py Level.

(** A Python [float] that is a positive normal double, as the rational it
    denotes: the result of an operation is the exact result rounded to 53
    significant bits, ties to even. *)
Definition round_half_even (x : Q) : Z :=
  let f := Qfloor x in
  match Qcompare (x - inject_Z f) (1 # 2) with
  | Lt => f
  | Gt => f + 1
  | Eq => if Z.even f then f else f + 1
  end.

(** The [e] with [2^e <= x < 2^(e+1)], for [x > 0]. *)
Definition binary_exponent (x : Q) : Z :=
  let e := Z.log2 (Qnum x) - Z.log2 (Z.pos (Qden x)) in
  if Qle_bool (Qpower 2 e) x then e else e - 1.

Definition to_double (x : Q) : Q :=
  if Qle_bool x 0 then 0
  else
    let e := binary_exponent x in
    Qred (inject_Z (round_half_even (x * Qpower 2 (52 - e))) * Qpower 2 (e - 52)).

(** [a + b] on floats. *)
Definition float_add (a b : Q) : Q := to_double (a + b).

(** One entry of [lottery_config]; the name is left out. *)
Record Prize : Type := {
  prize_points : Z;
  probability : Q
}.

(** [lottery_config]: the probabilities are the doubles the literals
    0.01, 0.02, 0.05, 0.10, 0.15, 0.20 and 0.47 denote. *)
Definition lottery_config : list Prize :=
  [ {| prize_points := 50; probability := to_double (1 # 100) |};
    {| prize_points := 20; probability := to_double (2 # 100) |};
    {| prize_points := 10; probability := to_double (5 # 100) |};
    {| prize_points := 5; probability := to_double (10 # 100) |};
    {| prize_points := 2; probability := to_double (15 # 100) |};
    {| prize_points := 1; probability := to_double (20 # 100) |};
    {| prize_points := 0; probability := to_double (47 # 100) |} ].

(** The [for prize in lottery_config] loop: the first prize whose running
    sum of probabilities reaches [rand]. *)
Fixpoint pick (rand cumulative_prob : Q) (config : list Prize) : option Prize :=
  match config with
  | [] => None
  | prize :: rest =>
      let cumulative_prob := float_add cumulative_prob (probability prize) in
      if Qle_bool rand cumulative_prob then Some prize
      else pick rand cumulative_prob rest
  end.

(** The running sums the loop compares [rand] with. *)
Fixpoint running_sums (cumulative_prob : Q) (config : list Prize) : list Q :=
  match config with
  | [] => []
  | prize :: rest =>
      let cumulative_prob := float_add cumulative_prob (probability prize) in
      cumulative_prob :: running_sums cumulative_prob rest
  end.

(** Updates of single keys of a record. *)
Definition set_exp (exp : Z) (u : UserData) : UserData :=
  {| u_exp := exp; u_level := u_level u;
     u_total_messages := u_total_messages u;
     u_last_message_time := u_last_message_time u;
     u_spam_warnings := u_spam_warnings u;
     u_last_warning_time := u_last_warning_time u;
     u_current_label := u_current_label u;
     u_points := u_points u; u_last_sign_date := u_last_sign_date u;
     u_consecutive_days := u_consecutive_days u;
     u_total_sign_days := u_total_sign_days u;
     u_lottery_count := u_lottery_count u; u_lottery_wins := u_lottery_wins u |}.

Definition set_points (points : Z) (u : UserData) : UserData :=
  {| u_exp := u_exp u; u_level := u_level u;
     u_total_messages := u_total_messages u;
     u_last_message_time := u_last_message_time u;
     u_spam_warnings := u_spam_warnings u;
     u_last_warning_time := u_last_warning_time u;
     u_current_label := u_current_label u;
     u_points := Some points; u_last_sign_date := u_last_sign_date u;
     u_consecutive_days := u_consecutive_days u;
     u_total_sign_days := u_total_sign_days u;
     u_lottery_count := u_lottery_count u; u_lottery_wins := u_lottery_wins u |}.

Definition set_sign (date : string) (consecutive_days total_sign_days : Z)
  (u : UserData) : UserData :=
  {| u_exp := u_exp u; u_level := u_level u;
     u_total_messages := u_total_messages u;
     u_last_message_time := u_last_message_time u;
     u_spam_warnings := u_spam_warnings u;
     u_last_warning_time := u_last_warning_time u;
     u_current_label := u_current_label u;
     u_points := u_points u; u_last_sign_date := Some (Some date);
     u_consecutive_days := Some consecutive_days;
     u_total_sign_days := Some total_sign_days;
     u_lottery_count := u_lottery_count u; u_lottery_wins := u_lottery_wins u |}.

Definition set_lottery (lottery_count lottery_wins : Z) (u : UserData) : UserData :=
  {| u_exp := u_exp u; u_level := u_level u;
     u_total_messages := u_total_messages u;
     u_last_message_time := u_last_message_time u;
     u_spam_warnings := u_spam_warnings u;
     u_last_warning_time := u_last_warning_time u;
     u_current_label := u_current_label u;
     u_points := u_points u; u_last_sign_date := u_last_sign_date u;
     u_consecutive_days := u_consecutive_days u;
     u_total_sign_days := u_total_sign_days u;
     u_lottery_count := Some lottery_count; u_lottery_wins := Some lottery_wins |}.

(** [user_data.get("points", 0)] and the like. *)
Definition points_of (u : UserData) : Z := default 0 (u_points u).
Definition consecutive_days_of (u : UserData) : Z := default 0 (u_consecutive_days u).
Definition total_sign_days_of (u : UserData) : Z := default 0 (u_total_sign_days u).
Definition lottery_count_of (u : UserData) : Z := default 0 (u_lottery_count u).
Definition lottery_wins_of (u : UserData) : Z := default 0 (u_lottery_wins u).

(** [user_data.get("last_sign_date") == date] *)
Definition signed_on (date : string) (u : UserData) : bool :=
  match u_last_sign_date u with
  | Some (Some d) => String.eqb d date
  | _ => false
  end.

(** What the functions tell the user through [send_reply], which never
    raises; the user name in the text is not part of the model. *)
Inductive reply : Type :=
| AlreadySigned
| SignedIn (total_points base_points consecutive_bonus : Z)
| AmountNotPositive
| PointsShort (current_points : Z)
| Exchanged (amount exp_gained points new_level : Z) (level_up : bool)
| DrawRefused (current_points : Z)
| Drawn (points_won points : Z).

Inductive event : Type :=
| SavedData                               (* boxim._save_data() *)
| Replied (r : reply).

Definition store (user_id : Z) (u : UserData) (s : LevelSystem) : LevelSystem :=
  set_user_data (<[user_id := u]> (user_data s)) s.

(** [LevelSystem.daily_sign(user_id, message)]: [current_date] and
    [yesterday] are the two formatted dates, [base_points] the value of
    [random.randint(5, 15)]. *)
Definition daily_sign (current_date yesterday : string) (base_points : Z)
  (user_id : Z) (s : LevelSystem) : LevelSystem * bool * list event :=
  let '(s0, u) := _get_user_data user_id s in
  if signed_on current_date u then (s0, false, [])
  else
    let consecutive_days :=
      if signed_on yesterday u then consecutive_days_of u + 1 else 1 in
    let consecutive_bonus := Z.min (consecutive_days * 2) 20 in
    let total_points := base_points + consecutive_bonus in
    let u1 := set_points (points_of u + total_points)
                (set_sign current_date consecutive_days (total_sign_days_of u + 1) u) in
    (store user_id u1 s0, true,
     [SavedData; Replied (SignedIn total_points base_points consecutive_bonus)]).

(** [LevelSystem.exchange_points(user_id, amount, message)] *)
Definition exchange_points (user_id amount : Z) (s : LevelSystem)
  : LevelSystem * bool * list event :=
  let '(s0, u) := _get_user_data user_id s in
  let current_points := points_of u in
  if amount <=? 0 then (s0, false, [Replied AmountNotPositive])
  else if current_points <? amount then (s0, false, [Replied (PointsShort current_points)])
  else
    let exp_gained := amount * 10 in
    let u1 := set_exp (u_exp u + exp_gained) (set_points (current_points - amount) u) in
    let old_level := u_level u1 in
    let new_level := _calculate_level_from_exp (u_exp u1) in
    let level_up := old_level <? new_level in
    let u2 := if level_up then set_level new_level (get_user_label new_level) u1 else u1 in
    (store user_id u2 s0, true,
     [SavedData; Replied (Exchanged amount exp_gained (points_of u2) new_level level_up)]).

(** [LevelSystem.lottery_draw(user_id, message)]: [rand] is the value of
    [random.random()].  When the loop finds no prize, [result] is [None]
    and [result["points"]] raises TypeError. *)
Definition lottery_draw (rand : Q) (user_id : Z) (s : LevelSystem)
  : LevelSystem * res bool * list event :=
  let '(s0, u) := _get_user_data user_id s in
  let current_points := points_of u in
  if current_points <? 2 then (s0, Ret false, [Replied (DrawRefused current_points)])
  else
    let u1 := set_lottery (lottery_count_of u + 1) (lottery_wins_of u)
                (set_points (current_points - 2) u) in
    match pick rand 0 lottery_config with
    | None => (store user_id u1 s0, Raise TypeError, [])
    | Some result =>
        let points_won := prize_points result in
        let u2 :=
          if 0 <? points_won
          then set_lottery (lottery_count_of u1) (lottery_wins_of u1 + 1)
                 (set_points (points_of u1 + points_won) u1)
          else u1 in
        (store user_id u2 s0, Ret true,
         [SavedData; Replied (Drawn points_won (points_of u2))])
    end.

(** The calls that change the user table. *)
Inductive command : Type :=
| Chat (c : Call)
| Sign (current_date yesterday : string) (base_points : Z) (user_id : Z)
| Exchange (user_id amount : Z)
| Draw (rand : Q) (user_id : Z).

Definition perform (c : command) (s : LevelSystem) : LevelSystem :=
  match c with
  | Chat c => fst (fst (add_experience (c_time c) (c_spam_time c) (c_user c)
                             (c_message c) s))
  | Sign current_date yesterday base_points user_id =>
      fst (fst (daily_sign current_date yesterday base_points user_id s))
  | Exchange user_id amount => fst (fst (exchange_points user_id amount s))
  | Draw rand user_id => fst (fst (lottery_draw rand user_id s))
  end.

Definition perform_all (cs : list command) (s : LevelSystem) : LevelSystem :=
  fold_left (fun s c => perform c s) cs s.

(** The inputs the callers can produce: [random.randint(5, 15)] for a
    sign-in, [random.random()] for a draw. *)
Definition admissible (c : command) : Prop :=
  match c with
  | Sign _ _ base_points _ => 5 <= base_points <= 15
  | Draw rand _ => (0 <= rand /\ rand < 1)%Q
  | _ => True
  end.

(** A record with a balance and a streak that are not negative and no more
    wins than draws. *)
Definition sound (u : UserData) : Prop :=
  0 <= points_of u /\ 0 <= consecutive_days_of u
  /\ 0 <= lottery_wins_of u <= lottery_count_of u.

Definition all_sound (s : LevelSystem) : Prop :=
  forall user_id u, user_data s !! user_id = Some u -> sound u.

End Points.

(* ===================================================================== *)
(** ** app.py: BoxIM, the reconnect loop                                  *)
(* ===================================================================== *)

Module MonoLoop.
Import Py.

(** [class Config] of app.py, the settings the loop reads. *)
Record Config : Type := {
  RECONNECT_DELAY : Z;
  MAX_RECONNECT_DELAY : Z
}.

Definition default_config : Config :=
  {| RECONNECT_DELAY := 2; MAX_RECONNECT_DELAY := 300 |}.

(** The log of the loop; the events of the receive path are those of
    [Mono]. *)
Inductive event : Type :=
| Connecting (n : Z)                 (* _ws_connect entered, "attempt n" *)
| Opened
| AuthSent
| ConnectFailed (e : exn)            (* except Exception of _ws_connect *)
| Receive (e : Mono.event)
| LoopFailed (e : exn)               (* except Exception of _ws_loop *)
| Sleep (delay : Z).

Definition is_receive (e : event) : bool :=
  match e with Receive _ => true | _ => false end.

Definition is_kick (e : event) : bool :=
  match e with Receive Mono.ForcedOffline => true | _ => false end.

(** What one call of [_ws_connect] meets. *)
Record ConnectEnv : Type := {
  open_outcome : res unit;           (* websockets.connect *)
  auth_send : res unit;              (* the send of _ws_auth *)
  frames : list Wire.frame;
  stream_error : option exn
}.

(** The backoff rule read off a log: [n] attempts were made since the
    socket last opened. *)
Fixpoint delays_follow (cfg : Config) (n : Z) (tr : list event) : Prop :=
  match tr with
  | [] => True
  | Sleep d :: rest =>
      d = Z.min (RECONNECT_DELAY cfg * 2 ^ (n + 1)) (MAX_RECONNECT_DELAY cfg)
      /\ delays_follow cfg (n + 1) rest
  | Opened :: rest => delays_follow cfg 0 rest
  | _ :: rest => delays_follow cfg n rest
  end.

Fixpoint attempts_after (n : Z) (tr : list event) : Z :=
  match tr with
  | [] => n
  | Sleep _ :: rest => attempts_after (n + 1) rest
  | Opened :: rest => attempts_after 0 rest
  | _ :: rest => attempts_after n rest
  end.

(** What a log holds behind its first ForceOffline, if it has one. *)
Fixpoint after_kick (tr : list event) : option (list event) :=
  match tr with
  | [] => None
  | e :: rest => if is_kick e then Some rest else after_kick rest
  end.

Section Reconnect.

Context {App : Type}.

(** The fields of [BoxIM] the loop reads and writes. *)
Record Supervised : Type := {
  boxim : Mono.BoxIM App;
  ws_reconnect_count : Z
}.

Variable message_handlers : Wire.Category -> list (Mono.Handler App).

(** [BoxIM._ws_connect()] *)
Definition _ws_connect (env : ConnectEnv) (b : Supervised)
  : Supervised * res unit * list event :=
  let entered := Connecting (ws_reconnect_count b + 1) in
  match open_outcome env with
  | Raise e => (b, Raise e, [entered; ConnectFailed e])
  | Ret _ =>
      let b1 := {| boxim := boxim b; ws_reconnect_count := 0 |} in
      match auth_send env with
      | Raise e => (b1, Raise e, [entered; Opened; ConnectFailed e])
      | Ret _ =>
          let '(x, r, evs) :=
            Mono._ws_receive message_handlers (frames env) (stream_error env) (boxim b1) in
          match r with
          | Ret _ =>
              ({| boxim := x; ws_reconnect_count := 0 |}, Ret tt,
               entered :: Opened :: AuthSent :: map Receive evs)
          | Raise e =>
              ({| boxim := x; ws_reconnect_count := 0 |}, Raise e,
               entered :: Opened :: AuthSent :: map Receive evs ++ [ConnectFailed e])
          end
      end
  end.

(** One turn of the [while self.ws_running] loop of [BoxIM._ws_loop()]. *)
Definition loop_body (cfg : Config) (env : ConnectEnv) (b : Supervised)
  : Supervised * list event :=
  let '(b1, r, evs1) := _ws_connect env b in
  let evs2 := match r with Ret _ => [] | Raise e => [LoopFailed e] end in
  if Mono.ws_running (boxim b1) then
    let b2 := {| boxim := boxim b1; ws_reconnect_count := ws_reconnect_count b1 + 1 |} in
    let delay := Z.min (RECONNECT_DELAY cfg * 2 ^ ws_reconnect_count b2)
                       (MAX_RECONNECT_DELAY cfg) in
    (b2, evs1 ++ evs2 ++ [Sleep delay])
  else (b1, evs1 ++ evs2).                                   (* break *)

(** [BoxIM._ws_loop()], run for as many turns as the environment
    describes. *)
Fixpoint _ws_loop (cfg : Config) (envs : list ConnectEnv) (b : Supervised)
  : Supervised * list event :=
  match envs with
  | [] => (b, [])
  | env :: rest =>
      if Mono.ws_running (boxim b) then
        let '(b1, evs1) := loop_body cfg env b in
        let '(b2, evs2) := _ws_loop cfg rest b1 in
        (b2, evs1 ++ evs2)
      else (b, [])
  end.

End Reconnect.

Arguments Supervised : clear implicits.

End MonoLoop.

(* ===================================================================== *)
(** ** message_handlers.py and app.py: payloads                           *)
(* ===================================================================== *)

Module Payload.
Import Py.

(** A value other than the two infinite floats. *)
Definition finite (v : json) : bool :=
  match v with JFloat (FInf _) => false | _ => true end.

Definition is_dict (v : json) : bool :=
  match v with JDict _ => true | _ => false end.

End Payload.

(* ===================================================================== *)
(** ** bot_core.py: the tasks of the supervisor                           *)
(* ===================================================================== *)

(** [connect] starts [_ws_loop] as an asyncio task, and [relogin], which
    [_ws_loop] awaits, calls [disconnect] and [connect] again.  The task
    that [disconnect] cancels is the one in [self.ws_task]: when that is the
    caller itself, the [CancelledError] is raised at its own
    [await self.ws_task] and caught there, so the caller goes on and a
    second [_ws_loop] runs beside it on the same object.  This module
    follows all the tasks the object creates: a task runs from one [await]
    to the next without interruption, and the schedule says which task is
    resumed next and what the awaited operation yields.

    [login] is awaited as a whole, and a handler runs to its end when it is
    called, as in [Enhanced].  [robust_start], which calls the first
    [connect], afterwards only reads the run flag once a second: it is not a
    task of the model, and neither is what its caller does with the object
    when it returns. *)
Module Tasks.
Import Py Enhanced.

(** Where a task running [_ws_loop] is suspended: one constructor per
    [await] of [_ws_loop] and of the coroutines it awaits.  [failures] is
    the local [consecutive_failures]; [socket] is the connection that
    [self.ws_connection] held when the [async for] was entered. *)
Inductive point : Type :=
| Start                                        (* created by create_task, not yet run *)
| Opening (failures : Z) (attempt : nat)       (* 653: wait_for(websockets.connect) *)
| OpenRetry (failures : Z) (attempt : nat)     (* 671, 676: sleep(2) *)
| AuthSending (failures : Z)                   (* 707: wait_for(send(auth_msg)) *)
| AuthWait (failures : Z)                      (* 710: sleep(1) *)
| Receiving (failures : Z) (socket : nat)      (* 753: async for message *)
| FinallyWait (failures : Z) (r : res unit)    (* 695: await self.heartbeat_task *)
| ConnectedWait (failures : Z)                 (* 618: sleep(1) *)
| ReloginLogin (failures : Z)                  (* 802: await self.login *)
| Closing (failures : Z)                       (* 821: await self.ws_connection.close() *)
| AwaitTask (failures : Z) (target : nat)      (* 826: await self.ws_task *)
| AwaitHeartbeat (failures : Z)                (* 832: await self.heartbeat_task *)
| ReloginSleep (failures : Z)                  (* 809: sleep(2) *)
| ConnectPoll (failures : Z) (polls : nat)     (* 601: sleep(0.5) *)
| BackoffSleep (failures : Z).                 (* 641: sleep(delay) *)

(** Where a task running [_ws_heartbeat] is suspended. *)
Inductive beat : Type :=
| BeatStart
| BeatSending (consecutive_failures : Z)       (* 723: wait_for(send(heartbeat_msg)) *)
| BeatSleep (consecutive_failures : Z).        (* 726, 747: sleep *)

Inductive code : Type :=
| Loop (p : point)
| Beat (p : beat)
| Finished.

(** A task: where it is, and whether [cancel()] was called on it since it
    was suspended. *)
Record Task : Type := {
  position : code;
  must_cancel : bool
}.

Definition suspended (c : code) : Task := {| position := c; must_cancel := false |}.

(** What the operation a task awaits yields when the task is resumed. *)
Inductive input : Type :=
| Wake                                  (* a sleep ran out, the awaited task is done *)
| WakeAt (now : Q)                      (* the same, where the clock is read next *)
| Yields (r : res unit)                 (* websockets.connect or send returned or raised *)
| Frame (message : Wire.frame)          (* the stream delivers a frame *)
| StreamEnds (closed : option exn)      (* the stream is exhausted or raises *)
| LoginMeets (env : LoginEnv).          (* login ran to its end in this environment *)

Section Machine.

Context {App : Type}.

(** The object and its tasks.  Sockets are numbered in the order in which
    they were opened. *)
Record System : Type := {
  boxim : Bot App;
  ws_connection : option nat;
  ws_task : option nat;
  heartbeat_task : option nat;
  tasks : list Task;
  sockets : nat
}.

Definition set_boxim (b : Bot App) (sys : System) : System :=
  {| boxim := b; ws_connection := ws_connection sys; ws_task := ws_task sys;
     heartbeat_task := heartbeat_task sys; tasks := tasks sys; sockets := sockets sys |}.

Definition set_ws_connection (c : option nat) (sys : System) : System :=
  {| boxim := boxim sys; ws_connection := c; ws_task := ws_task sys;
     heartbeat_task := heartbeat_task sys; tasks := tasks sys; sockets := sockets sys |}.

Definition set_ws_task (t : option nat) (sys : System) : System :=
  {| boxim := boxim sys; ws_connection := ws_connection sys; ws_task := t;
     heartbeat_task := heartbeat_task sys; tasks := tasks sys; sockets := sockets sys |}.

Definition set_heartbeat_task (t : option nat) (sys : System) : System :=
  {| boxim := boxim sys; ws_connection := ws_connection sys; ws_task := ws_task sys;
     heartbeat_task := t; tasks := tasks sys; sockets := sockets sys |}.

Definition set_tasks (l : list Task) (sys : System) : System :=
  {| boxim := boxim sys; ws_connection := ws_connection sys; ws_task := ws_task sys;
     heartbeat_task := heartbeat_task sys; tasks := l; sockets := sockets sys |}.

Definition set_sockets (n : nat) (sys : System) : System :=
  {| boxim := boxim sys; ws_connection := ws_connection sys; ws_task := ws_task sys;
     heartbeat_task := heartbeat_task sys; tasks := tasks sys; sockets := n |}.

(** The object when [robust_start] has logged in and [connect] has created
    the first [_ws_loop] task. *)
Definition boot (b : Bot App) : System :=
  {| boxim := set_ws_running true b; ws_connection := None; ws_task := Some 0%nat;
     heartbeat_task := None; tasks := [suspended (Loop Start)]; sockets := 0 |}.

Definition position_of (sys : System) (t : nat) : code :=
  match tasks sys !! t with
  | Some task => position task
  | None => Finished
  end.

(** [task.done()] *)
Definition done (sys : System) (t : nat) : bool :=
  match position_of sys t with Finished => true | _ => false end.

(** [self.x and not self.x.done()] for a task handle [x]. *)
Definition live (sys : System) (handle : option nat) : bool :=
  match handle with
  | Some t => negb (done sys t)
  | None => false
  end.

Definition put (t : nat) (task : Task) (sys : System) : System :=
  set_tasks (<[t := task]> (tasks sys)) sys.

(** [asyncio.create_task]: the new task and the system that holds it. *)
Definition create_task (c : code) (sys : System) : nat * System :=
  (List.length (tasks sys), set_tasks (tasks sys ++ [suspended c]) sys).

(** [self.heartbeat_task.cancel()] when the task is not done.  The
    [CancelledError] is raised at the [await] the heartbeat task is
    suspended in; no handler of [_ws_heartbeat] catches it, so the task
    ends without writing anything more. *)
Definition cancel_heartbeat (sys : System) : System :=
  match heartbeat_task sys with
  | Some h => if done sys h then sys else put h (suspended Finished) sys
  | None => sys
  end.

(** [task.cancel()] on the task [t] of another caller.  A task that awaits
    a task inside [try ... except asyncio.CancelledError: pass] (lines 695,
    826, 832) passes the request on to the task it awaits and catches the
    [CancelledError] that comes back: it goes on as if the awaited task had
    ended.  Any other task has the error raised at its [await] when it is
    resumed next. *)
Fixpoint request_cancel (fuel : nat) (t : nat) (sys : System) : System :=
  match tasks sys !! t with
  | None => sys
  | Some task =>
      match position task with
      | Finished => sys
      | Beat _ => put t (suspended Finished) sys
      | Loop (FinallyWait _ _) | Loop (AwaitHeartbeat _) => sys
      | Loop (AwaitTask _ target) =>
          if Nat.eqb target t then sys
          else match fuel with
               | O => sys
               | S fuel' => request_cancel fuel' target sys
               end
      | Loop _ => put t {| position := position task; must_cancel := true |} sys
      end
  end.

(** A [CancelledError] raised at the [await] of [p]: no [except Exception]
    catches it, and the only [finally] on its way out of [_ws_loop] is the
    one around [_ws_receive] (lines 690-697). *)
Definition thrown (p : point) (sys : System) : System :=
  match p with
  | Receiving _ _ =>
      cancel_heartbeat (set_boxim (set_ws_connected_flag false (boxim sys)) sys)
  | _ => sys
  end.

(** What a task has done when it is suspended again: the system, where the
    task is now, and what it logged. *)
Definition result : Type := System * code * list event.

Variable message_handlers : Wire.Category -> list (Handler App).
Variable cfg : BotConfig.

(** Lines 636-641: the reconnect sleep. *)
Definition backoff (failures : Z) (sys : System) : result :=
  let b := boxim sys in
  let b1 := set_ws_reconnect_count (ws_reconnect_count b + 1) b in
  let delay := Z.min (RECONNECT_DELAY cfg * 2 ^ ws_reconnect_count b1)
                     (MAX_RECONNECT_DELAY cfg) in
  (set_boxim b1 sys, Loop (BackoffSleep failures), [Sleep delay]).

(** Lines 609-611 and 649-653: the test of the [while], and [_ws_connect]
    up to its first attempt to open the socket. *)
Definition loop_test (failures : Z) (sys : System) : result :=
  if ws_running (boxim sys) then
    (sys, Loop (Opening failures 0), [Connecting (ws_reconnect_count (boxim sys) + 1)])
  else (sys, Finished, []).

(** Lines 628 and 796-802: [relogin] up to the login it awaits. *)
Definition relogin_begin (failures : Z) (sys : System) : result :=
  let b := boxim sys in
  let s0 := set_expires 0 0 (set_tokens None None (session b)) in
  (set_boxim (set_session s0 b) sys, Loop (ReloginLogin failures), []).

(** Lines 625-641. *)
Definition after_try (failures : Z) (sys : System) : result :=
  if ws_running (boxim sys) && negb (_ws_connected_flag (boxim sys)) then
    if MAX_RECONNECT_ATTEMPTS cfg <=? failures then relogin_begin failures sys
    else backoff failures sys
  else loop_test failures sys.

(** Lines 620-623: [except Exception as e]. *)
Definition failed (failures : Z) (e : exn) (sys : System) : result :=
  let '(sys1, c, evs) := after_try (failures + 1) sys in
  (sys1, c, LoopFailed e (failures + 1) :: evs).

(** Lines 617-618. *)
Definition connected_wait (failures : Z) (sys : System) : result :=
  if _ws_connected_flag (boxim sys) && ws_running (boxim sys)
  then (sys, Loop (ConnectedWait failures), [])
  else after_try failures sys.

(** [_ws_connect] has ended with [r]: lines 612-618, or the handler. *)
Definition after_connect (failures : Z) (r : res unit) (sys : System) : result :=
  match r with
  | Ret _ =>
      let sys1 := set_boxim (set_ws_reconnect_count 0 (boxim sys)) sys in
      let '(sys2, c, evs) := connected_wait 0 sys1 in
      (sys2, c, LoopConnected :: evs)
  | Raise e => failed failures e sys
  end.

(** Lines 690-697: the [finally] around [_ws_receive], which ended with
    [r]. *)
Definition leave_receive (failures : Z) (r : res unit) (sys : System) : result :=
  let sys1 := set_boxim (set_ws_connected_flag false (boxim sys)) sys in
  if live sys1 (heartbeat_task sys1)
  then (cancel_heartbeat sys1, Loop (FinallyWait failures r), [])
  else after_connect failures r sys1.

(** Lines 754-756: the body of the [async for], for one frame. *)
Definition receive_frame (message : Wire.frame) (b : Bot App)
  : Bot App * res unit * list event :=
  match Wire.json_loads message with
  | Raise e => (b, Raise e, [])
  | Ret data => _handle_ws_message message_handlers data b
  end.

(** Lines 753 and 757-759: the end of the [async for]. *)
Definition receive_end (closed : option exn) (b : Bot App)
  : Bot App * res unit * list event :=
  match closed with
  | None => (b, Ret tt, [])
  | Some e =>
      if is_ConnectionClosed e
      then (set_ws_connected_flag false b, Ret tt, [StreamClosed])
      else (b, Raise e, [])
  end.

(** Lines 683-689 and 751-753: the heartbeat task is replaced and the
    receive loop entered.  [async for] over [None] raises [TypeError]. *)
Definition start_receive (failures : Z) (sys : System) : result :=
  let '(h, sys1) := create_task (Beat BeatStart) (cancel_heartbeat sys) in
  let sys2 := set_heartbeat_task (Some h) sys1 in
  match ws_connection sys2 with
  | Some socket => (sys2, Loop (Receiving failures socket), [])
  | None => leave_receive failures (Raise TypeError) sys2
  end.

(** Back in [_ws_loop] with the result of [relogin]: lines 628-634, then
    the reconnect sleep. *)
Definition relogin_done (ok : bool) (sys : System) : result :=
  if ok then
    let '(sys1, c, evs) :=
      backoff 0 (set_boxim (set_ws_reconnect_count 0 (boxim sys)) sys) in
    (sys1, c, Relogin true :: evs)
  else
    let '(sys1, c, evs) := backoff (MAX_RECONNECT_ATTEMPTS cfg - 1) sys in
    (sys1, c, Relogin false :: evs).

(** Lines 598-602: the test of the flag before the next [sleep(0.5)], when
    [polls] sleeps are over; [relogin] does not look at what [connect]
    returns. *)
Definition connect_poll (failures : Z) (polls : nat) (sys : System) : result :=
  if (10 <=? polls)%nat then relogin_done true sys
  else if _ws_connected_flag (boxim sys) then relogin_done true sys
  else (sys, Loop (ConnectPoll failures (S polls)), []).

(** Lines 810 and 587-602: [connect], entered when the clock shows [now],
    and the return of [relogin] when it starts no task. *)
Definition connect_again (failures : Z) (now : Q) (sys : System) : result :=
  if negb (is_logged_in now (session (boxim sys))) then relogin_done true sys
  else if ws_running (boxim sys) then relogin_done true sys
  else
    let '(t, sys1) :=
      create_task (Loop Start) (set_boxim (set_ws_running true (boxim sys)) sys) in
    let '(sys2, c, evs) := connect_poll failures 0 (set_ws_task (Some t) sys1) in
    (sys2, c, Spawned :: evs).

(** Lines 829-834 of [disconnect], and [relogin] up to its [sleep(2)]. *)
Definition disconnect_heartbeat (failures : Z) (sys : System) : result :=
  if live sys (heartbeat_task sys)
  then (cancel_heartbeat sys, Loop (AwaitHeartbeat failures), [])
  else (sys, Loop (ReloginSleep failures), []).

(** Lines 823-828 of [disconnect], called by the task [me].  When
    [self.ws_task] is the caller, [cancel()] marks the caller, the
    [CancelledError] is raised at [await self.ws_task] and caught by the
    [except] of line 827. *)
Definition disconnect_task (me : nat) (failures : Z) (sys : System) : result :=
  match ws_task sys with
  | Some t =>
      if done sys t then disconnect_heartbeat failures sys
      else if Nat.eqb t me then (sys, Loop (AwaitTask failures t), [])
      else (request_cancel (List.length (tasks sys)) t sys, Loop (AwaitTask failures t), [])
  | None => disconnect_heartbeat failures sys
  end.

(** Lines 802-808 and 818-821: [login] has ended; [env] is what it met. *)
Definition login_returned (me : nat) (failures : Z) (env : LoginEnv) (sys : System)
  : result :=
  let s := session (boxim sys) in
  let '(s1, success, _) := login env (username s) (password s) PC s in
  let sys1 := set_boxim (set_session s1 (boxim sys)) sys in
  if success then
    if ws_running (boxim sys1) then
      let sys2 := set_boxim (disconnect (boxim sys1)) sys1 in
      match ws_connection sys2 with
      | Some _ => (sys2, Loop (Closing failures), [])
      | None => disconnect_task me failures sys2
      end
    else relogin_done true sys1
  else relogin_done false sys1.

(** The task [me], suspended at [p], is resumed with [i].  [None]: the
    awaited operation cannot yield [i], or is not over. *)
Definition resume (me : nat) (p : point) (i : input) (sys : System) : option result :=
  match p, i with
  | Start, Wake => Some (loop_test 0 sys)
  | Opening failures attempt, Yields (Ret _) =>
      (* lines 665-666 and 678-681, 701-707 *)
      let b := set_ws_connected_flag true (set_ws_reconnect_count 0 (boxim sys)) in
      let sys1 := set_sockets (S (sockets sys))
                    (set_ws_connection (Some (sockets sys)) (set_boxim b sys)) in
      Some (sys1, Loop (AuthSending failures), [Opened attempt])
  | Opening failures attempt, Yields (Raise e) =>
      (* lines 667-676 *)
      if Nat.eqb attempt 2 then
        let '(sys1, c, evs) := failed failures e sys in
        Some (sys1, c, OpenFailed attempt e :: evs)
      else Some (sys, Loop (OpenRetry failures attempt), [OpenFailed attempt e])
  | OpenRetry failures attempt, Wake => Some (sys, Loop (Opening failures (S attempt)), [])
  | AuthSending failures, Yields (Ret _) => Some (sys, Loop (AuthWait failures), [AuthSent])
  | AuthSending failures, Yields (Raise e) => Some (failed failures e sys)
  | AuthWait failures, Wake => Some (start_receive failures sys)
  | Receiving failures socket, Frame message =>
      let '(b, r, evs) := receive_frame message (boxim sys) in
      match r with
      | Ret _ => Some (set_boxim b sys, Loop (Receiving failures socket), evs)
      | Raise e =>
          let '(sys1, c, evs1) := leave_receive failures (Raise e) (set_boxim b sys) in
          Some (sys1, c, evs ++ evs1)
      end
  | Receiving failures _, StreamEnds closed =>
      let '(b, r, evs) := receive_end closed (boxim sys) in
      let '(sys1, c, evs1) := leave_receive failures r (set_boxim b sys) in
      Some (sys1, c, evs ++ evs1)
  | FinallyWait failures r, Wake => Some (after_connect failures r sys)
  | ConnectedWait failures, Wake => Some (connected_wait failures sys)
  | ReloginLogin failures, LoginMeets env => Some (login_returned me failures env sys)
  | Closing failures, Wake =>
      Some (disconnect_task me failures (set_ws_connection None sys))
  | AwaitTask failures target, Wake =>
      if Nat.eqb target me || done sys target
      then Some (disconnect_heartbeat failures sys)
      else None
  | AwaitHeartbeat failures, Wake => Some (sys, Loop (ReloginSleep failures), [])
  | ReloginSleep failures, WakeAt now => Some (connect_again failures now sys)
  | ConnectPoll failures polls, Wake => Some (connect_poll failures polls sys)
  | BackoffSleep failures, Wake => Some (loop_test failures sys)
  | _, _ => None
  end.

(** [_ws_heartbeat], lines 741-747: a send that failed with an exception
    that is neither a timeout nor [ConnectionClosed]. *)
Definition beat_failed (consecutive_failures : Z) (sys : System) : System * code :=
  let consecutive_failures := consecutive_failures + 1 in
  if Heartbeat.max_consecutive_failures <=? consecutive_failures
  then (set_boxim (set_ws_connected_flag false (boxim sys)) sys, Finished)
  else (sys, Beat (BeatSleep consecutive_failures)).

(** Lines 717-723: the test of the [while] and the send.  With no socket,
    [self.ws_connection.send] raises [AttributeError]. *)
Definition beat_test (consecutive_failures : Z) (sys : System) : System * code :=
  if ws_running (boxim sys) && _ws_connected_flag (boxim sys) then
    match ws_connection sys with
    | Some _ => (sys, Beat (BeatSending consecutive_failures))
    | None => beat_failed consecutive_failures sys
    end
  else (sys, Finished).

(** A heartbeat task is resumed. *)
Definition beat_resume (p : beat) (i : input) (sys : System) : option (System * code) :=
  match p, i with
  | BeatStart, Wake => Some (beat_test 0 sys)
  | BeatSending _, Yields (Ret _) => Some (sys, Beat (BeatSleep 0))
  | BeatSending consecutive_failures, Yields (Raise e) =>
      if Heartbeat.is_TimeoutError e then
        let consecutive_failures := consecutive_failures + 1 in
        if Heartbeat.max_consecutive_failures <=? consecutive_failures
        then Some (set_boxim (set_ws_connected_flag false (boxim sys)) sys, Finished)
        else Some (beat_test consecutive_failures sys)
      else if is_ConnectionClosed e then
        Some (set_boxim (set_ws_connected_flag false (boxim sys)) sys, Finished)
      else Some (beat_failed consecutive_failures sys)
  | BeatSleep consecutive_failures, Wake => Some (beat_test consecutive_failures sys)
  | _, _ => None
  end.

(** One step of the event loop: the task [me] is resumed with [i] and runs
    to its next [await] or to its end.  The log names the task. *)
Definition step (me : nat) (i : input) (sys : System)
  : option (System * list (nat * event)) :=
  match tasks sys !! me with
  | None => None
  | Some task =>
      match position task with
      | Finished => None
      | Loop p =>
          if must_cancel task then
            Some (put me (suspended Finished) (thrown p sys), [])
          else
            match resume me p i sys with
            | Some (sys1, c, evs) => Some (put me (suspended c) sys1, map (pair me) evs)
            | None => None
            end
      | Beat p =>
          match beat_resume p i sys with
          | Some (sys1, c) => Some (put me (suspended c) sys1, [])
          | None => None
          end
      end
  end.

(** A schedule, run from its first step to its last. *)
Fixpoint run (schedule : list (nat * input)) (sys : System)
  : option (System * list (nat * event)) :=
  match schedule with
  | [] => Some (sys, [])
  | (t, i) :: rest =>
      match step t i sys with
      | None => None
      | Some (sys1, evs1) =>
          match run rest sys1 with
          | None => None
          | Some (sys2, evs2) => Some (sys2, evs1 ++ evs2)
          end
      end
  end.

End Machine.

Arguments System : clear implicits.


(** What a log shows behind its first ForceOffline. *)
Fixpoint following_kick (log : list (nat * event)) : list (nat * event) :=
  match log with
  | [] => []
  | entry :: rest =>
      if is_forced_offline (snd entry) then rest else following_kick rest
  end.

(** The log without the names of the tasks. *)
Definition events (log : list (nat * event)) : list event := map snd log.

(** The part of the log written by the task [t]. *)
Definition events_of (t : nat) (log : list (nat * event)) : list event :=
  map snd (List.filter (fun entry => Nat.eqb (fst entry) t) log).

End Tasks.

(* ===================================================================== *)
(** ** More scenarios                                                     *)
(* ===================================================================== *)

(** Environments and states for the token guard. *)
Module TokenCases.
Import Py Enhanced Token.

(** A login answered with a JWT whose payload carries the claim [sub]. *)
Definition jwt_login (lifetime : Q) : LoginEnv :=
  {| login_reply :=
       LoginHttp 200 (JInt 200)
         {| accessToken := "head.body.sig"; refreshToken := "refresh";
            accessTokenExpiresIn := lifetime; refreshTokenExpiresIn := 86400 |};
     b64_json := fun segment =>
       if String.eqb segment "body" then Ret (JDict [("sub"%string, JStr "35896")])
       else Raise ValueError;
     self_info := fun _ => Raise (RuntimeError "not asked");
     login_time := fun _ => 1000%Q |}.

Definition new_session : Session := init_session "ENLT" "114514".

(** A call of [ensure_valid_token] at [t], with the refresh clock one second
    behind it. *)
Definition probe_at (t : Q) : Probe :=
  {| p_time := t;
     p_refresh :=
       {| refresh_reply := refresh_reply Scenario.willing_refresh;
          refresh_time := fun _ => (t + 1)%Q;
          fallback_login := fallback_login Scenario.willing_refresh |} |}.

(** A turn whose re-login gets a token that lives for two minutes. *)
Definition short_lived : IterEnv :=
  {| connection := connection Scenario.unreachable;
     relogin_login := jwt_login 120;
     relogin_clock := 1002%Q |}.

(** A turn in which the socket opens and the authentication frame cannot
    be sent. *)
Definition unauthenticated : IterEnv :=
  {| connection :=
       {| open_outcome := fun _ => Ret tt;
          auth_send := Raise TimeoutError; frames := []; stream_error := None |};
     relogin_login := Scenario.refused_login;
     relogin_clock := 2000%Q |}.

End TokenCases.

(** Inputs for the heartbeat task and the table of muted groups. *)
Module BotCases.
Import Py Enhanced.

(** A bot whose supervisor runs and whose socket is open. *)
Definition connected : Bot unit :=
  set_ws_connected_flag true Scenario.started.

(** Sends that fail now and then, never three times in a row. *)
Definition flaky_sends : list (res unit) :=
  [Ret tt; Raise TimeoutError; Raise (RuntimeError "send failed"); Ret tt;
   Raise TimeoutError; Ret tt].

(** Group 1 muted at instant 100, group 2 at instant 4000. *)
Definition two_muted : Mute.Table :=
  Mute._set_group_muted 4000 2 true (Mute._set_group_muted 100 1 true []).

End BotCases.

(** Users and calls for the points system. *)
Module PointsCases.
Import Py Level Points.

(** User 7 signs in on the second of January. *)
Definition signed_in : LevelSystem :=
  fst (fst (daily_sign "2025-01-02" "2025-01-01" 10 7 (init ∅))).

(** A sign-in, an exchange of 5 points and three draws. *)
Definition evening : list command :=
  [Sign "2025-01-02" "2025-01-01" 10 7; Exchange 7 5;
   Draw (1 # 2) 7; Draw 0 7; Draw (999 # 1000) 7].

End PointsCases.

(** Inputs for the loop of app.py. *)
Module MonoCases.
Import Py MonoLoop.

(** A [BoxIM] without application state whose loop was just started. *)
Definition mono_started : Supervised unit :=
  {| boxim := {| Mono.ws_running := true; Mono.app := tt |};
     ws_reconnect_count := 0 |}.

Definition no_mono_handlers : Wire.Category -> list (Mono.Handler unit) := fun _ => [].

(** The server accepts the socket, sends ForceOffline and a system
    message, and closes. *)
Definition mono_kicked : ConnectEnv :=
  {| open_outcome := Ret tt; auth_send := Ret tt;
     frames := [Wire.envelope Wire.FORCE_OFFLINE (JDict []);
                Wire.envelope Wire.SYSTEM_MESSAGE (JStr "bye")];
     stream_error := Some ConnectionClosed |}.

Definition mono_unreachable : ConnectEnv :=
  {| open_outcome := Raise TimeoutError; auth_send := Ret tt;
     frames := []; stream_error := None |}.

End MonoCases.

(** Schedules for the tasks of the supervisor. *)
Module TaskCases.
Import Py Enhanced Tasks.

(** A login at the instant [now], answered with a JWT that names its
    subject and lives for an hour. *)
Definition login_at (now : Q) : LoginEnv :=
  {| login_reply := login_reply (TokenCases.jwt_login 3600);
     b64_json := b64_json (TokenCases.jwt_login 3600);
     self_info := self_info (TokenCases.jwt_login 3600);
     login_time := fun _ => now |}.

(** The object, without application state, when [robust_start] has logged
    in at the instant 0. *)
Definition logged_in : Bot unit :=
  set_session
    (fst (fst (login (login_at 0) "ENLT" "114514" PC (init_session "ENLT" "114514"))))
    (init_bot "ENLT" "114514" tt).

Definition opens : input := Yields (Ret tt).
Definition sent : input := Yields (Ret tt).
Definition refused : input := Yields (Raise (RuntimeError "server rejected the handshake")).
Definition timed_out : input := Yields (Raise TimeoutError).

(** The inputs [l], all for the task [t]. *)
Definition of_task (t : nat) (l : list input) : list (nat * input) := map (pair t) l.

(** One call of [_ws_connect] by the task [t] in which the three attempts
    to open the socket end with [i]. *)
Definition failed_turn (t : nat) (i : input) : list (nat * input) :=
  of_task t [i; Wake; i; Wake; i].

(** [n] failed turns of the task [t], with the reconnect sleeps between
    them. *)
Fixpoint failed_turns (n : nat) (t : nat) (i : input) : list (nat * input) :=
  match n with
  | O => []
  | S O => failed_turn t i
  | S n' => failed_turn t i ++ of_task t [Wake] ++ failed_turns n' t i
  end.

(** The first task fails twice to reach the server, then opens the socket,
    authenticates and receives until the server closes the stream; its
    heartbeat task, 1, sends once. *)
Definition two_failures : list (nat * input) :=
  of_task 0 [Wake] ++ failed_turns 2 0 timed_out ++ of_task 0 [Wake].

Definition then_connected : list (nat * input) :=
  of_task 0 [opens; sent; Wake] ++ of_task 1 [Wake; sent]
  ++ of_task 0 [StreamEnds (Some ConnectionClosed); Wake].

(** The turns of [two_failures] and [then_connected], as one loop alone
    meets them. *)
Definition closed_by_server : IterEnv :=
  {| connection :=
       {| open_outcome := fun _ => Ret tt; auth_send := Ret tt;
          frames := []; stream_error := Some ConnectionClosed |};
     relogin_login := Scenario.refused_login;
     relogin_clock := 2000%Q |}.

(** Task 0 cannot reach the server ten times and logs in again: it
    disconnects, finds itself in [self.ws_task], sleeps two seconds, and
    [connect] starts task 1. *)
Definition until_second_loop : list (nat * input) :=
  of_task 0 [Wake] ++ failed_turns 10 0 timed_out
  ++ of_task 0 [LoginMeets (login_at 1000); Wake; WakeAt 1002].

(** Task 1 opens socket 0 and authenticates; the poll of [connect] in task
    0 sees the connected flag, [relogin] returns, task 0 sleeps six seconds
    and begins to open a socket of its own.  Task 2 is the heartbeat task
    of socket 0.  Then the server sends ForceOffline on socket 0. *)
Definition kicked_beside_opening : list (nat * input) :=
  until_second_loop
  ++ of_task 1 [Wake; opens; sent] ++ of_task 0 [Wake] ++ of_task 1 [Wake]
  ++ of_task 2 [Wake; sent] ++ of_task 0 [Wake]
  ++ of_task 1 [Frame (Wire.envelope Wire.FORCE_OFFLINE (JDict []))].

(** The first attempt of task 0 times out; after two seconds the second
    one opens socket 1, and task 0 authenticates and receives.  Its
    heartbeat task, 3, ends at once. *)
Definition opening_goes_on : list (nat * input) :=
  of_task 0 [timed_out; Wake; opens; sent; Wake] ++ of_task 3 [Wake].

(** The server closes both sockets. *)
Definition both_closed : list (nat * input) :=
  of_task 1 [StreamEnds (Some ConnectionClosed)]
  ++ of_task 0 [StreamEnds (Some ConnectionClosed)].

(** The handshake of task 1 is slow: the poll of [connect] in task 0 runs
    out after five seconds, task 0 sleeps, opens socket 0 and receives, and
    only then has task 1 opened socket 1.  The server closes socket 1 and
    rejects the following ten calls of task 1, which logs in again and
    enters [disconnect].  Tasks 2 and 3 are the heartbeat tasks. *)
Definition until_disconnect : list (nat * input) :=
  until_second_loop
  ++ of_task 1 [Wake]
  ++ of_task 0 (repeat Wake 10)
  ++ of_task 0 [Wake; opens; sent; Wake] ++ of_task 2 [Wake; sent]
  ++ of_task 1 [opens; sent; Wake] ++ of_task 3 [Wake; sent]
  ++ of_task 1 [StreamEnds (Some ConnectionClosed); Wake; Wake]
  ++ failed_turns 10 1 refused
  ++ of_task 1 [LoginMeets (login_at 2000)].

(** Task 1 closes socket 1, awaits [self.ws_task], which is itself, and
    begins the two-second sleep of [relogin]. *)
Definition until_kick : list (nat * input) :=
  until_disconnect ++ of_task 1 [Wake; Wake].

(** On socket 0, which task 0 still reads, the server sends ForceOffline. *)
Definition the_kick : nat * input :=
  (0%nat, Frame (Wire.envelope Wire.FORCE_OFFLINE (JDict []))).

(** The sleep of [relogin] in task 1 runs out and [connect] starts task 4,
    which opens socket 2 and authenticates; the server closes socket 0. *)
Definition after_kick : list (nat * input) :=
  of_task 1 [WakeAt 2003] ++ of_task 4 [Wake; opens; sent] ++ of_task 1 [Wake]
  ++ of_task 0 [StreamEnds (Some ConnectionClosed); Wake].


End TaskCases.

(* ===================================================================== *)
(** ** Properties                                                         *)
(* ===================================================================== *)

Import Py.

(** *** Id-like fields of a message *)

Section SafeInt.
Import Scenario.

(** The builtins on a few inputs. *)
Example int_of_str_spaces_and_underscore : int_of_str " 12_0 " = Some 120.
Proof. reflexivity. Qed.

Example int_of_str_negative : int_of_str "-7" = Some (-7).
Proof. reflexivity. Qed.

Example int_of_str_rejects :
  map int_of_str [""; "+-3"; "1__0"; "_1"; "1_"; "3.5"; "0x10"; "none"]%string
  = [None; None; None; None; None; None; None; None].
Proof. reflexivity. Qed.

Example lower_mixed_case : lower "NuLL" = "null"%string.
Proof. reflexivity. Qed.

Example split_dot_jwt : split_dot "a.b.c" = ["a"; "b"; "c"]%string.
Proof. reflexivity. Qed.

Example split_dot_no_dot : split_dot "opaque-token" = ["opaque-token"]%string.
Proof. reflexivity. Qed.

Example safe_int_values :
  map Wire._safe_int
    [JNull; JStr "Undefined"; JStr "42"; JStr "abc"; JInt 5; JBool true;
     JFloat (FFinite (-7 # 2)); JFloat FNaN; JList []]
  = map Ret [None; None; Some 42; None; Some 5; Some 1; Some (-3); None; None].
Proof. reflexivity. Qed.

Lemma lower_absent_word (s : string) :
  let w := lower s in
  String.eqb w "none" || String.eqb w "null" || String.eqb w "undefined" = true ->
  Wire._safe_int (JStr s) = Ret None.
Proof. intros w H. unfold Wire._safe_int. fold w. rewrite H. reflexivity. Qed.

(** Away from the two infinite floats the conversion always returns. *)
Lemma safe_int_returns (v : json) :
  (forall negative, v <> JFloat (FInf negative)) ->
  exists o, Wire._safe_int v = Ret o.
Proof.
  intros Hfin. unfold Wire._safe_int.
  destruct v as [ | b | z | f | s | l | d ]; simpl; eauto.
  - destruct f as [ q | negative | ]; simpl; eauto.
    exfalso. apply (Hfin negative). reflexivity.
  - destruct (String.eqb (lower s) "none" || String.eqb (lower s) "null"
              || String.eqb (lower s) "undefined"); simpl; eauto.
    destruct (int_of_str s); simpl; eauto.
Qed.

(** The conversion of app.py returns on every value. *)
Lemma mono_safe_int_returns (v : json) : exists o, Mono._safe_int v = Ret o.
Proof.
  unfold Mono._safe_int.
  destruct v as [ | b | z | f | s | l | d ]; simpl; eauto.
  - destruct f; simpl; eauto.
  - destruct (int_of_str s); simpl; eauto.
Qed.

(** C9: [_safe_int] of message_handlers.py lets the [OverflowError] of
    [int(float('inf'))] escape, so building a [Message] from a payload whose
    [id] is an infinite number raises instead of yielding a null id. *)
Theorem C9_safe_int_overflow_escapes :
  Wire._safe_int (JFloat (FInf false)) = Raise OverflowError
  /\ Wire._safe_int (JFloat (FInf true)) = Raise OverflowError
  /\ Wire.Message_init overflowing_message false = Raise OverflowError
  /\ Mono._safe_int (JFloat (FInf false)) = Ret None.
Proof. repeat split; reflexivity. Qed.

End SafeInt.

(** *** Malformed frames *)

Section Malformed.

Context {App : Type}.
Variable enhanced_handlers : Wire.Category -> list (Enhanced.Handler App).
Variable mono_handlers : Wire.Category -> list (Mono.Handler App).

(** In app.py the frame is logged and the loop goes on with the next one,
    the state untouched. *)
Lemma mono_receive_skips_malformed (text : string) (rest : list Wire.frame)
  (closed : option exn) (b : Mono.BoxIM App) :
  Mono._ws_receive mono_handlers (Wire.Malformed text :: rest) closed b =
  let '(b', r, evs) := Mono._ws_receive mono_handlers rest closed b in
  (b', r, Mono.JSONFailed JSONDecodeError :: evs).
Proof.
  simpl. destruct (Mono._ws_receive mono_handlers rest closed b) as [[b' r] evs].
  reflexivity.
Qed.

(** C3: in bot_core.py a frame that is not JSON ends the receive loop with
    the [JSONDecodeError]: the frames behind it are not read, and
    [_ws_connect] leaves with that exception and the connected flag cleared,
    which [_ws_loop] counts as a failed connection. *)
Theorem C3_enhanced_receive_aborts_on_malformed (text : string)
  (rest : list Wire.frame) (closed : option exn) (b : Enhanced.Bot App) :
  Enhanced._ws_receive enhanced_handlers (Wire.Malformed text :: rest) closed b
  = (b, Raise JSONDecodeError, [])
  /\ Enhanced._ws_connect enhanced_handlers
       {| Enhanced.open_outcome := fun _ => Ret tt;
          Enhanced.auth_send := Ret tt;
          Enhanced.frames := Wire.Malformed text :: rest;
          Enhanced.stream_error := closed |} b
     = (Enhanced.set_ws_connected_flag false
          (Enhanced.set_ws_connected_flag true (Enhanced.set_ws_reconnect_count 0 b)),
        Raise JSONDecodeError,
        [Enhanced.Connecting (Enhanced.ws_reconnect_count b + 1);
         Enhanced.Opened 0; Enhanced.AuthSent]).
Proof. split; reflexivity. Qed.

End Malformed.

(** *** Login and token refresh *)

Section Auth.
Import Enhanced Scenario.

(** When the endpoint refuses the login, the session holds no token. *)
Lemma login_refused_not_logged_in (env : LoginEnv) (u p : string) (t : Terminal)
  (s : Session) (now : Q) :
  match login_reply env with
  | LoginRaises _ => True
  | LoginHttp status code _ => status <> 200 \/ eq_int code 200 = false
  end ->
  let '(s', ok, _) := login env u p t s in
  ok = false /\ is_logged_in now s' = false.
Proof.
  unfold login. destruct (login_reply env) as [e | status code data].
  - intros _. split; reflexivity.
  - intros [Hs | Hc].
    + apply Z.eqb_neq in Hs. rewrite Hs. split; reflexivity.
    + rewrite Hc. destruct (status =? 200); split; reflexivity.
Qed.

(** A login the endpoint accepted keeps the tokens of the reply, whether
    the subject is resolved or not. *)
Lemma accepted_login_keeps_token (env : LoginEnv) (u p : string) (t : Terminal)
  (s : Session) (code : json) (data : LoginData) :
  login_reply env = LoginHttp 200 code data ->
  eq_int code 200 = true ->
  let s' := fst (fst (login env u p t s)) in
  access_token s' = Some (accessToken data)
  /\ access_token_expires s' = (login_time env 0 + accessTokenExpiresIn data)%Q.
Proof.
  intros Hreply Hcode. cbv zeta. unfold login. rewrite Hreply, Hcode. simpl.
  unfold resolve_user_id.
  destruct (let? payload_data := token_payload env (accessToken data) in
            subject_claim payload_data) as [claim|e]; simpl.
  - destruct (truthy claim).
    + destruct (int claim) as [n|e]; simpl; [auto|].
      unfold self_info_fallback. destruct (self_info env 0) as [info|e']; simpl; [|auto].
      destruct (truthy info); simpl; [|auto].
      destruct (get info "id") as [i|e']; simpl; [|auto].
      destruct (truthy i); simpl; auto.
    + unfold self_info_fallback.
      destruct (self_info env 0) as [info|e']; simpl.
      * destruct (truthy info); simpl; [|auto].
        destruct (get info "id") as [i|e']; simpl.
        { destruct (truthy i); simpl; auto. }
        destruct (self_info env 1) as [info1|e1]; simpl; [|auto].
        destruct (truthy info1); simpl; [|auto].
        destruct (get info1 "id") as [i1|e1]; simpl; [|auto].
        destruct (truthy i1); simpl; auto.
      * destruct (self_info env 1) as [info1|e1]; simpl; [|auto].
        destruct (truthy info1); simpl; [|auto].
        destruct (get info1 "id") as [i1|e1]; simpl; [|auto].
        destruct (truthy i1); simpl; auto.
  - unfold self_info_fallback. destruct (self_info env 0) as [info|e']; simpl; [|auto].
    destruct (truthy info); simpl; [|auto].
    destruct (get info "id") as [i|e']; simpl; [|auto].
    destruct (truthy i); simpl; auto.
Qed.

(** C4: [login] returns failure when the subject cannot be resolved, but
    the tokens of the accepted reply stay in the session, so [is_logged_in]
    is true afterwards; and when the token decodes to an object without a
    subject claim, a self-info call that raises is made a second time. *)
Theorem C4_failed_login_leaves_session_logged_in :
  (let '(s, ok, calls) :=
     login opaque_token_login "ENLT" "114514" PC (init_session "ENLT" "114514") in
   ok = false
   /\ calls = [POST_login; GET_user_self]
   /\ access_token s = Some "opaque-token"%string
   /\ is_logged_in 1001 s = true)
  /\
  (let '(s, ok, calls) :=
     login claimless_token_login "ENLT" "114514" PC (init_session "ENLT" "114514") in
   ok = false
   /\ calls = [POST_login; GET_user_self; GET_user_self]
   /\ is_logged_in 1001 s = true).
Proof. split; vm_compute; repeat split; reflexivity. Qed.

(** Within the cooldown the answer is the "still valid" one, without a call. *)
Lemma refresh_cooldown_assumes_valid (env : RefreshEnv) (s : Session) :
  _is_refreshing_token s = false ->
  (refresh_time env 0 - _last_token_refresh_time s < _token_refresh_cooldown s)%Q ->
  refresh_token_if_needed env s = (s, true, []).
Proof.
  intros Hflag Hcool. unfold refresh_token_if_needed. rewrite Hflag.
  destruct (Qle_bool (_token_refresh_cooldown s)
              (refresh_time env 0 - _last_token_refresh_time s)) eqn:E; [|reflexivity].
  apply Qle_bool_iff in E. exfalso. apply (Qlt_not_le _ _ Hcool E).
Qed.

(** C5, as the code has it: while a refresh is in flight a further call
    returns at once, issues no request, leaves the session alone, and its
    answer is the failure one. *)
Theorem C5_refresh_in_flight_returns_failure (env : RefreshEnv) (s : Session) :
  _is_refreshing_token s = true ->
  refresh_token_if_needed env s = (s, false, []).
Proof. intros H. unfold refresh_token_if_needed. rewrite H. reflexivity. Qed.

Lemma C5_refresh_in_flight_witness :
  _is_refreshing_token refresh_in_flight = true
  /\ refresh_token_if_needed willing_refresh refresh_in_flight
     = (refresh_in_flight, false, []).
Proof.
  split; [reflexivity|].
  apply (C5_refresh_in_flight_returns_failure willing_refresh refresh_in_flight).
  reflexivity.
Defined.

(** The claim, that a call made while a refresh is in flight answers
    "still valid", fails on [refresh_in_flight]. *)
Lemma C5_in_flight_is_not_assumed_valid :
  ~ (forall (env : RefreshEnv) (s : Session),
       _is_refreshing_token s = true ->
       snd (fst (refresh_token_if_needed env s)) = true).
Proof.
  intros H. specialize (H willing_refresh refresh_in_flight eq_refl).
  vm_compute in H. discriminate H.
Qed.

End Auth.

(** *** Handler isolation *)

Section Dispatch.

Context {App : Type}.
Variable enhanced_handlers : Wire.Category -> list (Enhanced.Handler App).
Variable mono_handlers : Wire.Category -> list (Mono.Handler App).

Lemma enhanced_run_handlers_spec (handlers : list (Enhanced.Handler App))
  (message : Wire.Message) (a : App) :
  Enhanced.run_handlers handlers message a
  = (Wire.all_ran handlers message a, map Enhanced.HandlerFailed (Wire.raised handlers message a)).
Proof.
  revert a. induction handlers as [|h hs IH]; intros a; simpl; [reflexivity|].
  destruct (h message a) as [a1 r] eqn:Eh. simpl.
  rewrite IH. destruct r; reflexivity.
Qed.

Lemma mono_run_handlers_spec (handlers : list (Mono.Handler App))
  (message : Mono.Message) (a : App) :
  Mono.run_handlers handlers message a
  = (Wire.all_ran handlers message a, map Mono.HandlerFailed (Wire.raised handlers message a)).
Proof.
  revert a. induction handlers as [|h hs IH]; intros a; simpl; [reflexivity|].
  destruct (h message a) as [a1 r] eqn:Eh. simpl.
  rewrite IH. destruct r; reflexivity.
Qed.

(** A handler registered behind one that raises still runs on the event. *)
Lemma all_ran_after_raise {M : Type} (before after : list (M -> App -> App * res unit))
  (h : M -> App -> App * res unit) (message : M) (a : App) :
  Wire.all_ran (before ++ h :: after) message a
  = Wire.all_ran after message (fst (h message (Wire.all_ran before message a))).
Proof. unfold Wire.all_ran. rewrite fold_left_app. reflexivity. Qed.

(** C8: [_dispatch_message] never raises: every handler of the category
    runs, in registration order, on the same message, each exception is
    logged on its own, and the receive loop goes on with the next frame. *)
Theorem C8_handler_failures_are_isolated (c : Wire.Category) :
  (forall (message : Wire.Message) (b : Enhanced.Bot App),
     Enhanced._dispatch_message enhanced_handlers message c b
     = (Enhanced.set_app (Wire.all_ran (enhanced_handlers c) message (Enhanced.app b)) b,
        Ret tt,
        map Enhanced.HandlerFailed (Wire.raised (enhanced_handlers c) message (Enhanced.app b))))
  /\ (forall (message : Mono.Message) (b : Mono.BoxIM App),
     Mono._dispatch_message mono_handlers message c b
     = ({| Mono.ws_running := Mono.ws_running b;
           Mono.app := Wire.all_ran (mono_handlers c) message (Mono.app b) |},
        Ret tt,
        map Mono.HandlerFailed (Wire.raised (mono_handlers c) message (Mono.app b))))
  /\ (forall (payload : json) (message : Wire.Message) (rest : list Wire.frame)
        (closed : option exn) (b : Enhanced.Bot App),
     Wire.Message_init payload (Wire.Category_is_group c) = Ret message ->
     Enhanced._ws_receive enhanced_handlers
       (Wire.envelope (Wire.Category_command c) payload :: rest) closed b
     = let b1 := Enhanced.set_app
                   (Wire.all_ran (enhanced_handlers c) message (Enhanced.app b)) b in
       let '(b2, r, evs) := Enhanced._ws_receive enhanced_handlers rest closed b1 in
       (b2, r,
        map Enhanced.HandlerFailed (Wire.raised (enhanced_handlers c) message (Enhanced.app b))
        ++ evs))
  /\ (forall (payload : json) (message : Mono.Message) (rest : list Wire.frame)
        (closed : option exn) (b : Mono.BoxIM App),
     Mono.Message_init payload (Wire.Category_is_group c) = Ret message ->
     Mono._ws_receive mono_handlers
       (Wire.envelope (Wire.Category_command c) payload :: rest) closed b
     = let b1 := {| Mono.ws_running := Mono.ws_running b;
                    Mono.app := Wire.all_ran (mono_handlers c) message (Mono.app b) |} in
       let '(b2, r, evs) := Mono._ws_receive mono_handlers rest closed b1 in
       (b2, r,
        map Mono.HandlerFailed (Wire.raised (mono_handlers c) message (Mono.app b)) ++ evs)).
Proof.
  assert (He : forall message b,
     Enhanced._dispatch_message enhanced_handlers message c b
     = (Enhanced.set_app (Wire.all_ran (enhanced_handlers c) message (Enhanced.app b)) b,
        Ret tt,
        map Enhanced.HandlerFailed (Wire.raised (enhanced_handlers c) message (Enhanced.app b)))).
  { intros message b. unfold Enhanced._dispatch_message.
    rewrite enhanced_run_handlers_spec. reflexivity. }
  assert (Hm : forall message b,
     Mono._dispatch_message mono_handlers message c b
     = ({| Mono.ws_running := Mono.ws_running b;
           Mono.app := Wire.all_ran (mono_handlers c) message (Mono.app b) |},
        Ret tt,
        map Mono.HandlerFailed (Wire.raised (mono_handlers c) message (Mono.app b)))).
  { intros message b. unfold Mono._dispatch_message.
    rewrite mono_run_handlers_spec. reflexivity. }
  split; [exact He|]. split; [exact Hm|]. split.
  - intros payload message rest closed b Hinit.
    unfold Wire.envelope. cbn [Enhanced._ws_receive Wire.json_loads].
    assert (Hh : Enhanced._handle_ws_message enhanced_handlers
              (JDict [("cmd"%string, JInt (Wire.WSCommand_value (Wire.Category_command c)));
                      ("data"%string, payload)]) b
            = Enhanced._dispatch_message enhanced_handlers message c b).
    { unfold Enhanced._handle_ws_message.
      destruct c; simpl in *;
        (change (dict_get_default _ "data" (JDict [])) with payload);
        rewrite Hinit; reflexivity. }
    rewrite Hh, He. reflexivity.
  - intros payload message rest closed b Hinit.
    unfold Wire.envelope. cbn [Mono._ws_receive Mono.receive_one Wire.json_loads].
    assert (Hh : Mono._handle_ws_message mono_handlers
              (JDict [("cmd"%string, JInt (Wire.WSCommand_value (Wire.Category_command c)));
                      ("data"%string, payload)]) b
            = Mono._dispatch_message mono_handlers message c b).
    { unfold Mono._handle_ws_message.
      destruct c; simpl in *;
        (change (dict_get_default _ "data" (JDict [])) with payload);
        rewrite Hinit; reflexivity. }
    rewrite Hh, Hm.
    destruct (Mono._ws_receive mono_handlers rest closed _) as [[b2 r] evs].
    reflexivity.
Qed.

End Dispatch.

(** *** The supervisor loop *)

Section Loop.
Import Enhanced.

Context {App : Type}.
Variable handlers : Wire.Category -> list (Handler App).

Lemma steady_refl (b : Bot App) : steady b b.
Proof. unfold steady. auto. Qed.

Lemma steady_trans (b1 b2 b3 : Bot App) : steady b1 b2 -> steady b2 b3 -> steady b1 b3.
Proof.
  unfold steady. intros (Hs1 & Hc1 & Hr1 & Hq1) (Hs2 & Hc2 & Hr2 & Hq2).
  repeat split; try congruence; auto.
Qed.

Lemma run_handlers_events (hs : list (Handler App)) (m : Wire.Message) (a : App) :
  Forall (fun e => from_receive e = true /\ e <> ForcedOffline) (snd (run_handlers hs m a)).
Proof.
  revert a. induction hs as [|h hs IH]; intros a; simpl; [constructor|].
  destruct (h m a) as [a1 r]. specialize (IH a1).
  destruct (run_handlers hs m a1) as [a2 evs]. simpl in IH.
  destruct r; simpl; [exact IH|].
  constructor; [split; [reflexivity | discriminate] | exact IH].
Qed.

Lemma dispatch_facts (m : Wire.Message) (c : Wire.Category) (b : Bot App) :
  let '(b', r, evs) := _dispatch_message handlers m c b in
  r = Ret tt /\ steady b b' /\ _ws_connected_flag b' = _ws_connected_flag b
  /\ Forall (fun e => from_receive e = true /\ e <> ForcedOffline) evs.
Proof.
  unfold _dispatch_message.
  pose proof (run_handlers_events (handlers c) m (app b)) as H.
  destruct (run_handlers (handlers c) m (app b)) as [a evs]. simpl in H.
  repeat split; auto.
Qed.

(** Closes the facts about a step that logs nothing of interest. *)
Local Ltac quiet_step :=
  split; [unfold steady; simpl; repeat split; (auto || discriminate)|];
  split; [repeat (constructor; try reflexivity)|];
  split; [simpl; auto|];
  simpl; first [tauto | intros [H|[]]; discriminate H | intros _; auto].

(** One frame: either it is the kick, which clears both flags, or the
    flags stay as they are. *)
Lemma handle_facts (data : json) (b : Bot App) :
  let '(b', r, evs) := _handle_ws_message handlers data b in
  steady b b'
  /\ Forall (fun e => from_receive e = true) evs
  /\ (_ws_connected_flag b = false -> _ws_connected_flag b' = false)
  /\ (In ForcedOffline evs -> ws_running b' = false /\ _ws_connected_flag b' = false).
Proof.
  unfold _handle_ws_message.
  destruct (let? cmd := get data "cmd" in
            let? msg_data := get_default data "data" (JDict []) in Ret (cmd, msg_data))
    as [[cmd msg_data]|e]; [|quiet_step].
  assert (Hd : forall m c,
    let '(b', r, evs) := _dispatch_message handlers m c b in
    steady b b'
    /\ Forall (fun e => from_receive e = true) evs
    /\ (_ws_connected_flag b = false -> _ws_connected_flag b' = false)
    /\ (In ForcedOffline evs -> ws_running b' = false /\ _ws_connected_flag b' = false)).
  { intros m c. pose proof (dispatch_facts m c b) as H.
    destruct (_dispatch_message handlers m c b) as [[b' r] evs].
    destruct H as (_ & Hst & Hfl & Hev).
    split; [exact Hst|]. split.
    { eapply List.Forall_impl; [|exact Hev]. intros e [He _]. exact He. }
    split; [congruence|].
    intros Hin. exfalso. rewrite List.Forall_forall in Hev.
    destruct (Hev _ Hin) as [_ Hne]. congruence. }
  destruct (eq_int cmd (Wire.WSCommand_value Wire.PRIVATE_MESSAGE)).
  { destruct (Wire.Message_init msg_data false) as [m|e]; [apply Hd|quiet_step]. }
  destruct (eq_int cmd (Wire.WSCommand_value Wire.GROUP_MESSAGE)).
  { destruct (Wire.Message_init msg_data true) as [m|e]; [apply Hd|quiet_step]. }
  destruct (eq_int cmd (Wire.WSCommand_value Wire.SYSTEM_MESSAGE)); [quiet_step|].
  destruct (eq_int cmd (Wire.WSCommand_value Wire.HEARTBEAT)); [quiet_step|].
  destruct (eq_int cmd (Wire.WSCommand_value Wire.FORCE_OFFLINE)); quiet_step.
Qed.

Lemma receive_facts (messages : list Wire.frame) (closed : option exn) (b : Bot App) :
  let '(b', r, evs) := _ws_receive handlers messages closed b in
  steady b b'
  /\ Forall (fun e => from_receive e = true) evs
  /\ (_ws_connected_flag b = false -> _ws_connected_flag b' = false)
  /\ (In ForcedOffline evs -> ws_running b' = false).
Proof.
  revert b. induction messages as [|message rest IH]; intros b; simpl.
  - destruct closed as [e|]; [destruct (is_ConnectionClosed e)|]; quiet_step.
  - destruct (Wire.json_loads message) as [data|e]; [|quiet_step].
    pose proof (handle_facts data b) as H1.
    destruct (_handle_ws_message handlers data b) as [[b1 r1] evs1].
    destruct H1 as (Hst1 & Hev1 & Hfl1 & Hfo1).
    destruct r1 as [[]|e].
    2:{ repeat split; try apply Hst1; auto. intros H. apply Hfo1, H. }
    specialize (IH b1).
    destruct (_ws_receive handlers rest closed b1) as [[b2 r2] evs2].
    destruct IH as (Hst2 & Hev2 & Hfl2 & Hfo2).
    split; [eapply steady_trans; eassumption|].
    split; [apply List.Forall_app; split; assumption|].
    split; [auto|].
    intros H. apply in_app_or in H. destruct H as [H|H].
    + destruct Hst2 as (_ & _ & Hr & _). apply Hr. apply Hfo1, H.
    + apply Hfo2, H.
Qed.

(** **** Reading a log *)

Lemma delays_follow_app (cfg : BotConfig) (tr1 tr2 : list event) (n : Z) :
  delays_follow cfg n (tr1 ++ tr2)
  <-> delays_follow cfg n tr1 /\ delays_follow cfg (attempts_after n tr1) tr2.
Proof.
  revert n. induction tr1 as [|e tr1 IH]; intros n; simpl; [tauto|].
  destruct e; simpl; rewrite ?IH; tauto.
Qed.

Lemma attempts_after_app (tr1 tr2 : list event) (n : Z) :
  attempts_after n (tr1 ++ tr2) = attempts_after (attempts_after n tr1) tr2.
Proof.
  revert n. induction tr1 as [|e tr1 IH]; intros n; simpl; [reflexivity|].
  destruct e; simpl; apply IH.
Qed.

Lemma relogins_justified_app (max : Z) (tr1 tr2 : list event) (n : Z) :
  relogins_justified max n (tr1 ++ tr2)
  <-> relogins_justified max n tr1 /\ relogins_justified max (failed_in_a_row n tr1) tr2.
Proof.
  revert n. induction tr1 as [|e tr1 IH]; intros n; simpl; [tauto|].
  destruct e; simpl; rewrite ?IH; tauto.
Qed.

Lemma failed_in_a_row_app (tr1 tr2 : list event) (n : Z) :
  failed_in_a_row n (tr1 ++ tr2) = failed_in_a_row (failed_in_a_row n tr1) tr2.
Proof.
  revert n. induction tr1 as [|e tr1 IH]; intros n; simpl; [reflexivity|].
  destruct e; simpl; apply IH.
Qed.

(** The events of the receive loop tell nothing about backoff or re-login. *)
Lemma receive_events_neutral (cfg : BotConfig) (max n m : Z) (evs : list event) :
  Forall (fun e => from_receive e = true) evs ->
  delays_follow cfg n evs /\ attempts_after n evs = n
  /\ relogins_justified max m evs /\ failed_in_a_row m evs = m
  /\ Forall (fun e => reconnect_activity e = false) evs.
Proof.
  induction 1 as [|e evs He _ IH]; simpl; [auto|].
  destruct IH as (H1 & H2 & H3 & H4 & H5).
  destruct e; try discriminate He; simpl; repeat split; auto.
Qed.

(** The events before the receive loop: no sleep, no re-login. *)
Lemma connect_events_neutral (cfg : BotConfig) (max n m : Z) (evs : list event) :
  Forall (fun e => from_connect e = true) evs ->
  delays_follow cfg n evs
  /\ (attempts_after n evs = if existsb resets evs then 0 else n)
  /\ relogins_justified max m evs /\ failed_in_a_row m evs = m
  /\ existsb is_forced_offline evs = false.
Proof.
  intros H. revert n. induction H as [|e evs He _ IH]; intros n; simpl; [auto|].
  destruct e; try discriminate He; simpl;
    [ destruct (IH n) as (H1 & H2 & H3 & H4 & H5)
    | destruct (IH n) as (H1 & H2 & H3 & H4 & H5)
    | destruct (IH 0) as (H1 & H2 & H3 & H4 & H5)
    | destruct (IH n) as (H1 & H2 & H3 & H4 & H5) ];
    repeat split; auto.
  rewrite H2. destruct (existsb resets evs); reflexivity.
Qed.

(** A kick that lies in the tail of a log has only tail events behind it. *)
Lemma behind_kick (P : event -> Prop) (h t pre post : list event) :
  existsb is_forced_offline h = false ->
  Forall P t ->
  h ++ t = pre ++ ForcedOffline :: post ->
  Forall P post.
Proof.
  revert pre. induction h as [|x h IH]; intros pre Hh Ht E; simpl in *.
  - subst t. apply List.Forall_app in Ht. destruct Ht as [_ Ht].
    inversion Ht; assumption.
  - apply orb_false_elim in Hh. destruct Hh as [Hx Hh].
    destruct pre as [|y pre]; simpl in E; inversion E; subst.
    + discriminate Hx.
    + eapply IH; eauto.
Qed.

Lemma kick_not_in (h t pre post : list event) :
  existsb is_forced_offline h = false ->
  h ++ t = pre ++ ForcedOffline :: post ->
  exists pre', t = pre' ++ ForcedOffline :: post.
Proof.
  revert pre. induction h as [|x h IH]; intros pre Hh E; simpl in *.
  - exists pre. exact E.
  - apply orb_false_elim in Hh. destruct Hh as [Hx Hh].
    destruct pre as [|y pre]; simpl in E; inversion E; subst.
    + discriminate Hx.
    + eapply IH; eauto.
Qed.

Lemma kick_found (evs : list event) :
  existsb is_forced_offline evs = true <-> In ForcedOffline evs.
Proof.
  rewrite existsb_exists. split.
  - intros (e & Hin & He). destruct e; try discriminate He. exact Hin.
  - intros Hin. exists ForcedOffline. split; [exact Hin | reflexivity].
Qed.

(** **** One connection *)

Lemma connect_attempts_facts (outcome : nat -> res unit) :
  let '(r, evs) := connect_attempts outcome (seq 0 3) in
  Forall (fun e => from_connect e = true) evs
  /\ existsb resets evs = negb (raises r).
Proof.
  simpl. destruct (outcome 0%nat); simpl; [repeat constructor|].
  destruct (outcome 1%nat); simpl; [repeat constructor|].
  destruct (outcome 2%nat); simpl; repeat constructor.
Qed.

Lemma connect_facts (env : ConnectEnv) (b : Bot App) :
  let '(b', r, evs) := _ws_connect handlers env b in
  exists h q, evs = h ++ q
    /\ Forall (fun e => from_connect e = true) h
    /\ Forall (fun e => from_receive e = true) q
    /\ session b' = session b
    /\ ws_reconnect_count b' = (if existsb resets h then 0 else ws_reconnect_count b)
    /\ (ws_running b = false -> ws_running b' = false)
    /\ (ws_running b' = true -> ws_running b = true)
    /\ (In ForcedOffline q -> ws_running b' = false /\ _ws_connected_flag b' = false)
    /\ (r = Ret tt -> _ws_connected_flag b' = false)
    /\ (existsb resets h = false -> b' = b /\ raises r = true).
Proof.
  unfold _ws_connect.
  pose proof (connect_attempts_facts (open_outcome env)) as Ho.
  destruct (connect_attempts (open_outcome env) (seq 0 3)) as [ro opens].
  destruct Ho as [Hopens Hres].
  destruct ro as [[]|e]; simpl in Hres.
  - destruct (auth_send env) as [[]|e].
    + pose proof (receive_facts (frames env) (stream_error env)
                    (set_ws_connected_flag true (set_ws_reconnect_count 0 b))) as Hr.
      destruct (_ws_receive handlers (frames env) (stream_error env) _) as [[b2 r] evs'].
      destruct Hr as ((Hs & Hc & Hr1 & Hr2) & Hev & _ & Hfo).
      exists (Connecting (ws_reconnect_count b + 1) :: opens ++ [AuthSent]), evs'.
      split; [simpl; rewrite <- app_assoc; reflexivity|].
      split; [constructor; [reflexivity|];
              apply List.Forall_app; split; [exact Hopens | repeat constructor]|].
      split; [exact Hev|].
      simpl. rewrite existsb_app, Hres. simpl.
      repeat split; auto; discriminate.
    + exists (Connecting (ws_reconnect_count b + 1) :: opens), [].
      split; [rewrite app_nil_r; reflexivity|].
      split; [constructor; [reflexivity | exact Hopens]|].
      split; [constructor|].
      simpl. rewrite Hres.
    repeat split; intros; simpl in *; auto; try discriminate; try contradiction.
  - exists (Connecting (ws_reconnect_count b + 1) :: opens), [].
    split; [rewrite app_nil_r; reflexivity|].
    split; [constructor; [reflexivity | exact Hopens]|].
    split; [constructor|].
    simpl. rewrite Hres.
    repeat split; intros; simpl in *; auto; try discriminate; try contradiction.
Qed.

(** **** One turn of the loop *)

Lemma relogin_facts (env : IterEnv) (b : Bot App) :
  let '(b', ok, evs) := relogin env b in
  ws_reconnect_count b' = ws_reconnect_count b
  /\ (evs = [] \/ evs = [Spawned])
  /\ (ok = false ->
      ws_running b' = ws_running b /\ _ws_connected_flag b' = _ws_connected_flag b).
Proof.
  unfold relogin.
  destruct (login (relogin_login env) _ _ PC _) as [[s1 success] calls].
  destruct success; simpl.
  - destruct (ws_running b); simpl; [|intuition discriminate].
    unfold connect, disconnect. simpl.
    destruct (is_logged_in (relogin_clock env) s1); simpl; intuition discriminate.
  - intuition.
Qed.

Lemma tracks_app (cfg : BotConfig) (b1 b2 b3 : Bot App) (e1 e2 : list event) :
  tracks cfg b1 e1 b2 -> tracks cfg b2 e2 b3 -> tracks cfg b1 (e1 ++ e2) b3.
Proof.
  unfold tracks. intros [H1 H2] [H3 H4].
  rewrite delays_follow_app, attempts_after_app, H2. auto.
Qed.

Lemma connect_tracks (cfg : BotConfig) (env : ConnectEnv) (b : Bot App) :
  let '(b', _, evs) := _ws_connect handlers env b in tracks cfg b evs b'.
Proof.
  pose proof (connect_facts env b) as H.
  destruct (_ws_connect handlers env b) as [[b' r] evs].
  destruct H as (h & q & -> & Hh & Hq & _ & Hc & _).
  destruct (connect_events_neutral cfg 0 (ws_reconnect_count b) 0 h Hh)
    as (D1 & A1 & _).
  destruct (receive_events_neutral cfg 0 (attempts_after (ws_reconnect_count b) h) 0 q Hq)
    as (D2 & A2 & _).
  unfold tracks. rewrite delays_follow_app, attempts_after_app, A2, Hc.
  rewrite A1 in D2 |- *. repeat split; auto.
Qed.

Lemma loop_body_tracks (cfg : BotConfig) (env : IterEnv) (failures : Z) (b : Bot App) :
  let '(b', _, evs) := loop_body handlers cfg env failures b in tracks cfg b evs b'.
Proof.
  unfold loop_body.
  pose proof (connect_tracks cfg (connection env) b) as H1.
  destruct (_ws_connect handlers (connection env) b) as [[b1 r] evs1].
  set (step2 := match r with
                | Ret _ => (set_ws_reconnect_count 0 b1, 0, [LoopConnected])
                | Raise e => (b1, failures + 1, [LoopFailed e (failures + 1)])
                end).
  assert (H2 : tracks cfg b1 (snd step2) (fst (fst step2))).
  { subst step2. destruct r; unfold tracks; simpl; auto. }
  destruct step2 as [[b2 failures2] evs2]. simpl in H2.
  destruct (ws_running b2 && negb (_ws_connected_flag b2)).
  2:{ eapply tracks_app; eassumption. }
  set (step3 := if MAX_RECONNECT_ATTEMPTS cfg <=? failures2
                then let '(b', ok, evs) := relogin env b2 in
                     if ok then (set_ws_reconnect_count 0 b', 0, evs ++ [Relogin true])
                     else (b', MAX_RECONNECT_ATTEMPTS cfg - 1, evs ++ [Relogin false])
                else (b2, failures2, [])).
  assert (H3 : tracks cfg b2 (snd step3) (fst (fst step3))).
  { subst step3. destruct (MAX_RECONNECT_ATTEMPTS cfg <=? failures2).
    - pose proof (relogin_facts env b2) as Hr.
      destruct (relogin env b2) as [[b' ok] evs].
      destruct Hr as (Hc & Hevs & _).
      destruct ok, Hevs as [-> | ->]; unfold tracks; simpl; auto.
    - unfold tracks; simpl; auto. }
  destruct step3 as [[b3 failures3] evs3]. simpl in H3.
  eapply tracks_app; [exact H1|].
  eapply tracks_app; [exact H2|].
  eapply tracks_app; [exact H3|].
  unfold tracks. simpl. auto.
Qed.

Lemma ws_loop_from_tracks (cfg : BotConfig) (envs : list IterEnv) (failures : Z)
  (b : Bot App) :
  let '(b', _, evs) := ws_loop_from handlers cfg envs failures b in tracks cfg b evs b'.
Proof.
  revert failures b. induction envs as [|env rest IH]; intros failures b; simpl.
  - unfold tracks. simpl. auto.
  - destruct (ws_running b); [|unfold tracks; simpl; auto].
    pose proof (loop_body_tracks cfg env failures b) as H1.
    destruct (loop_body handlers cfg env failures b) as [[b1 failures1] evs1].
    specialize (IH failures1 b1).
    destruct (ws_loop_from handlers cfg rest failures1 b1) as [[b2 failures2] evs2].
    eapply tracks_app; eassumption.
Qed.

Lemma attempts_after_nonneg (tr : list event) (n : Z) :
  0 <= n -> 0 <= attempts_after n tr.
Proof.
  revert n. induction tr as [|e tr IH]; intros n Hn; simpl; [exact Hn|].
  destruct e; try (apply IH; simpl; lia).
  apply IH. simpl. destruct ok; lia.
Qed.

Lemma opened_resets (env : ConnectEnv) (b : Bot App) :
  let '(b', _, evs) := _ws_connect handlers env b in
  forall attempt, In (Opened attempt) evs -> ws_reconnect_count b' = 0.
Proof.
  pose proof (connect_facts env b) as H.
  destruct (_ws_connect handlers env b) as [[b' r] evs].
  destruct H as (h & q & -> & Hh & Hq & _ & Hc & _).
  intros attempt Hin. rewrite Hc.
  apply in_app_or in Hin. destruct Hin as [Hin|Hin].
  - replace (existsb resets h) with true; [reflexivity|].
    symmetry. apply existsb_exists. exists (Opened attempt). auto.
  - rewrite List.Forall_forall in Hq. specialize (Hq _ Hin). discriminate Hq.
Qed.

(** One loop followed on its own, from its first turn to its last: each
    reconnect sleep lasts [min(base * 2^n, cap)], [n] being the number of
    the reconnect attempt it precedes, counted from the last reset; the
    counter of the state is the one read off the log, and it is zero as
    soon as the socket has opened. *)
Lemma loop_backoff (cfg : BotConfig) (envs : list IterEnv) (b : Bot App) :
  0 <= ws_reconnect_count b ->
  let b' := fst (_ws_loop handlers cfg envs b) in
  let tr := snd (_ws_loop handlers cfg envs b) in
  delays_follow cfg (ws_reconnect_count b) tr
  /\ ws_reconnect_count b' = attempts_after (ws_reconnect_count b) tr
  /\ 0 <= ws_reconnect_count b'
  /\ (forall (env : ConnectEnv) (attempt : nat),
      In (Opened attempt) (snd (_ws_connect handlers env b)) ->
      ws_reconnect_count (fst (fst (_ws_connect handlers env b))) = 0).
Proof.
  intros Hn. cbv zeta. unfold _ws_loop.
  pose proof (ws_loop_from_tracks cfg envs 0 b) as H.
  destruct (ws_loop_from handlers cfg envs 0 b) as [[b' failures] tr].
  destruct H as [H1 H2]. simpl. rewrite <- H2.
  repeat split; auto; [apply attempts_after_nonneg, Hn|].
  intros env attempt. pose proof (opened_resets env b) as Ho.
  destruct (_ws_connect handlers env b) as [[b1 r] evs]. simpl. apply Ho.
Qed.

(** **** Re-login *)

Lemma failed_in_a_row_nonneg (tr : list event) (n : Z) :
  0 <= n -> 0 <= failed_in_a_row n tr.
Proof.
  revert n. induction tr as [|e tr IH]; intros n Hn; simpl; [exact Hn|].
  destruct e; apply IH; lia.
Qed.

Lemma loop_body_justified (cfg : BotConfig) (env : IterEnv) (failures n : Z) (b : Bot App) :
  0 <= n -> failures <= n ->
  let '(_, failures', evs) := loop_body handlers cfg env failures b in
  relogins_justified (MAX_RECONNECT_ATTEMPTS cfg) n evs
  /\ failures' <= failed_in_a_row n evs.
Proof.
  intros Hn Hle. unfold loop_body.
  pose proof (connect_facts (connection env) b) as H1.
  destruct (_ws_connect handlers (connection env) b) as [[b1 r] evs1].
  destruct H1 as (h & q & -> & Hh & Hq & _).
  set (max := MAX_RECONNECT_ATTEMPTS cfg).
  destruct (connect_events_neutral cfg max 0 n h Hh) as (_ & _ & J1 & F1 & _).
  destruct (receive_events_neutral cfg max 0 n q Hq) as (_ & _ & J2 & F2 & _).
  assert (J12 : relogins_justified max n (h ++ q) /\ failed_in_a_row n (h ++ q) = n).
  { rewrite relogins_justified_app, failed_in_a_row_app, F1, F2. auto. }
  destruct J12 as [J12 F12].
  destruct r as [[]|e]; simpl.
  - destruct (ws_running b1 && negb (_ws_connected_flag b1)).
    + destruct (max <=? 0) eqn:Emax.
      * apply Z.leb_le in Emax.
        pose proof (relogin_facts env (set_ws_reconnect_count 0 b1)) as Hr.
        destruct (relogin env (set_ws_reconnect_count 0 b1)) as [[b' ok] evs].
        destruct Hr as (_ & Hevs & _).
        destruct ok, Hevs as [-> | ->]; simpl;
          rewrite (relogins_justified_app max (h ++ q)), (failed_in_a_row_app (h ++ q)), F12; simpl;
          repeat split; auto; lia.
      * simpl. rewrite (relogins_justified_app max (h ++ q)), (failed_in_a_row_app (h ++ q)), F12. simpl.
        repeat split; auto; lia.
    + rewrite (relogins_justified_app max (h ++ q)), (failed_in_a_row_app (h ++ q)), F12. simpl.
      repeat split; auto; lia.
  - destruct (ws_running b1 && negb (_ws_connected_flag b1)).
    + destruct (max <=? failures + 1) eqn:Emax.
      * apply Z.leb_le in Emax.
        pose proof (relogin_facts env b1) as Hr.
        destruct (relogin env b1) as [[b' ok] evs].
        destruct Hr as (_ & Hevs & _).
        destruct ok, Hevs as [-> | ->]; simpl;
          rewrite (relogins_justified_app max (h ++ q)), (failed_in_a_row_app (h ++ q)), F12; simpl;
          repeat split; auto; lia.
      * simpl. rewrite (relogins_justified_app max (h ++ q)), (failed_in_a_row_app (h ++ q)), F12. simpl.
        repeat split; auto; lia.
    + rewrite (relogins_justified_app max (h ++ q)), (failed_in_a_row_app (h ++ q)), F12. simpl.
      repeat split; auto; lia.
Qed.

Lemma ws_loop_from_justified (cfg : BotConfig) (envs : list IterEnv) (failures n : Z)
  (b : Bot App) :
  0 <= n -> failures <= n ->
  let '(_, _, evs) := ws_loop_from handlers cfg envs failures b in
  relogins_justified (MAX_RECONNECT_ATTEMPTS cfg) n evs.
Proof.
  revert failures n b. induction envs as [|env rest IH]; intros failures n b Hn Hle; simpl.
  - exact I.
  - destruct (ws_running b); [|exact I].
    pose proof (loop_body_justified cfg env failures n b Hn Hle) as H1.
    destruct (loop_body handlers cfg env failures b) as [[b1 failures1] evs1].
    destruct H1 as [J1 F1].
    specialize (IH failures1 (failed_in_a_row n evs1) b1
                  (failed_in_a_row_nonneg evs1 n Hn) F1).
    destruct (ws_loop_from handlers cfg rest failures1 b1) as [[b2 failures2] evs2].
    rewrite relogins_justified_app. auto.
Qed.

Lemma no_relogin_inside (evs : list event) (ok : bool) :
  Forall (fun e => from_connect e = true \/ from_receive e = true) evs ->
  ~ In (Relogin ok) evs.
Proof.
  intros H Hin. rewrite List.Forall_forall in H.
  destruct (H _ Hin) as [E|E]; discriminate E.
Qed.

Lemma connect_no_relogin (env : ConnectEnv) (b : Bot App) (ok : bool) :
  let '(_, _, evs) := _ws_connect handlers env b in ~ In (Relogin ok) evs.
Proof.
  pose proof (connect_facts env b) as H.
  destruct (_ws_connect handlers env b) as [[b' r] evs].
  destruct H as (h & q & -> & Hh & Hq & _).
  apply no_relogin_inside, List.Forall_app. split.
  - eapply List.Forall_impl; [|exact Hh]. auto.
  - eapply List.Forall_impl; [|exact Hq]. auto.
Qed.

(** A turn in which the re-login fails pins the counter one below the
    threshold, keeps the loop running, and ends in the reconnect sleep. *)
Lemma relogin_failure_pins (cfg : BotConfig) (env : IterEnv) (failures : Z) (b : Bot App) :
  let '(b', failures', evs) := loop_body handlers cfg env failures b in
  In (Relogin false) evs ->
  failures' = MAX_RECONNECT_ATTEMPTS cfg - 1
  /\ ws_running b' = true /\ _ws_connected_flag b' = false
  /\ exists pre d, evs = pre ++ [Relogin false; Sleep d].
Proof.
  unfold loop_body.
  pose proof (connect_no_relogin (connection env) b false) as Hno.
  destruct (_ws_connect handlers (connection env) b) as [[b1 r] evs1].
  set (step2 := match r with
                | Ret _ => (set_ws_reconnect_count 0 b1, 0, [LoopConnected])
                | Raise e => (b1, failures + 1, [LoopFailed e (failures + 1)])
                end).
  assert (Hno2 : ~ In (Relogin false) (snd step2)).
  { subst step2. destruct r; simpl; intros [H|[]]; discriminate H. }
  destruct step2 as [[b2 failures2] evs2]. simpl in Hno2.
  destruct (ws_running b2 && negb (_ws_connected_flag b2)) eqn:Econd.
  2:{ intros Hin. exfalso. apply in_app_or in Hin. tauto. }
  apply andb_prop in Econd. destruct Econd as [Hrun Hflag].
  apply negb_true_iff in Hflag.
  destruct (MAX_RECONNECT_ATTEMPTS cfg <=? failures2).
  2:{ intros Hin. exfalso.
      apply in_app_or in Hin. destruct Hin as [Hin|Hin]; [tauto|].
      apply in_app_or in Hin. destruct Hin as [Hin|Hin]; [tauto|].
      simpl in Hin. destruct Hin as [Hin|[]]. discriminate Hin. }
  pose proof (relogin_facts env b2) as Hr.
  destruct (relogin env b2) as [[b' ok] evs].
  destruct Hr as (_ & Hevs & Hfail).
  destruct ok.
  - intros Hin. exfalso.
    apply in_app_or in Hin. destruct Hin as [Hin|Hin]; [tauto|].
    apply in_app_or in Hin. destruct Hin as [Hin|Hin]; [tauto|].
    destruct Hevs as [-> | ->]; simpl in Hin;
      repeat (destruct Hin as [Hin|Hin]; [discriminate Hin|]); exact Hin.
  - intros _. destruct (Hfail eq_refl) as [Hrun' Hflag'].
    simpl. repeat split; try congruence.
    eexists (evs1 ++ evs2 ++ evs), _.
    rewrite <- !app_assoc. reflexivity.
Qed.

(** With the counter pinned, one more failed connection is enough for the
    next re-login. *)
Lemma pinned_counter_retriggers (cfg : BotConfig) (env : IterEnv) (b : Bot App) :
  let '(b1, r, _) := _ws_connect handlers (connection env) b in
  raises r = true -> ws_running b1 = true -> _ws_connected_flag b1 = false ->
  let '(_, _, evs) := loop_body handlers cfg env (MAX_RECONNECT_ATTEMPTS cfg - 1) b in
  exists ok, In (Relogin ok) evs.
Proof.
  unfold loop_body.
  destruct (_ws_connect handlers (connection env) b) as [[b1 r] evs1].
  intros Hr Hrun Hflag. destruct r as [[]|e]; [discriminate Hr|].
  rewrite Hrun, Hflag. simpl.
  replace (MAX_RECONNECT_ATTEMPTS cfg <=? MAX_RECONNECT_ATTEMPTS cfg - 1 + 1) with true
    by (symmetry; apply Z.leb_le; lia).
  destruct (relogin env b1) as [[b' ok] evs].
  destruct ok; [exists true | exists false];
    apply in_or_app; right; simpl; right;
    apply in_or_app; left; apply in_or_app; right; simpl; auto.
Qed.

(** **** The kick *)

Lemma stopped_loop_is_silent (cfg : BotConfig) (envs : list IterEnv) (failures : Z)
  (b : Bot App) :
  ws_running b = false ->
  ws_loop_from handlers cfg envs failures b = (b, failures, []).
Proof. intros H. destruct envs; simpl; [|rewrite H]; reflexivity. Qed.

Lemma loop_body_kick (cfg : BotConfig) (env : IterEnv) (failures : Z) (b : Bot App) :
  let '(b', _, evs) := loop_body handlers cfg env failures b in
  existsb is_forced_offline evs = true ->
  ws_running b' = false /\ _ws_connected_flag b' = false
  /\ forall pre post, evs = pre ++ ForcedOffline :: post ->
       Forall (fun e => reconnect_activity e = false) post.
Proof.
  unfold loop_body.
  pose proof (connect_facts (connection env) b) as H1.
  destruct (_ws_connect handlers (connection env) b) as [[b1 r] evs1].
  destruct H1 as (h & q & -> & Hh & Hq & _ & _ & _ & _ & Hfo & _).
  destruct (connect_events_neutral cfg 0 0 0 h Hh) as (_ & _ & _ & _ & Kh).
  destruct (receive_events_neutral cfg 0 0 0 q Hq) as (_ & _ & _ & _ & Aq).
  set (step2 := match r with
                | Ret _ => (set_ws_reconnect_count 0 b1, 0, [LoopConnected])
                | Raise e => (b1, failures + 1, [LoopFailed e (failures + 1)])
                end).
  assert (H2 : ws_running (fst (fst step2)) = ws_running b1
               /\ _ws_connected_flag (fst (fst step2)) = _ws_connected_flag b1
               /\ existsb is_forced_offline (snd step2) = false
               /\ Forall (fun e => reconnect_activity e = false) (snd step2)).
  { subst step2. destruct r; simpl; repeat split; repeat constructor. }
  destruct step2 as [[b2 failures2] evs2]. simpl in H2.
  destruct H2 as (Hrun2 & Hflag2 & K2 & A2).
  destruct (existsb is_forced_offline q) eqn:Kq.
  - apply kick_found in Kq. destruct (Hfo Kq) as [Hrun Hflag].
    rewrite Hrun2, Hrun. simpl. intros _.
    split; [congruence|]. split; [congruence|].
    intros pre post E. rewrite <- app_assoc in E.
    eapply behind_kick; [exact Kh| |exact E].
    apply List.Forall_app. split; assumption.
  - destruct (ws_running b2 && negb (_ws_connected_flag b2)).
    + set (step3 := if MAX_RECONNECT_ATTEMPTS cfg <=? failures2
                    then let '(b', ok, evs) := relogin env b2 in
                         if ok then (set_ws_reconnect_count 0 b', 0, evs ++ [Relogin true])
                         else (b', MAX_RECONNECT_ATTEMPTS cfg - 1, evs ++ [Relogin false])
                    else (b2, failures2, [])).
      assert (K3 : existsb is_forced_offline (snd step3) = false).
      { subst step3. destruct (MAX_RECONNECT_ATTEMPTS cfg <=? failures2); [|reflexivity].
        pose proof (relogin_facts env b2) as Hr.
        destruct (relogin env b2) as [[b' ok] evs].
        destruct Hr as (_ & Hevs & _).
        destruct ok, Hevs as [-> | ->]; reflexivity. }
      destruct step3 as [[b3 failures3] evs3]. simpl in K3.
      rewrite !existsb_app, Kh, Kq, K2, K3. simpl. discriminate.
    + rewrite !existsb_app, Kh, Kq, K2. simpl. discriminate.
Qed.

Lemma ws_loop_from_kick (cfg : BotConfig) (envs : list IterEnv) (failures : Z)
  (b : Bot App) :
  let '(b', _, tr) := ws_loop_from handlers cfg envs failures b in
  forall pre post, tr = pre ++ ForcedOffline :: post ->
    ws_running b' = false /\ _ws_connected_flag b' = false
    /\ Forall (fun e => reconnect_activity e = false) post.
Proof.
  revert failures b. induction envs as [|env rest IH]; intros failures b; simpl.
  - intros [|x pre] post E; discriminate E.
  - destruct (ws_running b); [|intros [|x pre] post E; discriminate E].
    pose proof (loop_body_kick cfg env failures b) as H1.
    destruct (loop_body handlers cfg env failures b) as [[b1 failures1] evs1].
    destruct (existsb is_forced_offline evs1) eqn:K1.
    + destruct (H1 eq_refl) as (Hrun & Hflag & Hpost).
      rewrite (stopped_loop_is_silent cfg rest failures1 b1 Hrun).
      rewrite app_nil_r. intros pre post E. eauto.
    + specialize (IH failures1 b1).
      destruct (ws_loop_from handlers cfg rest failures1 b1) as [[b2 failures2] evs2].
      intros pre post E.
      destruct (kick_not_in evs1 evs2 pre post K1 E) as [pre' E'].
      eapply IH, E'.
Qed.

Lemma eq_int_unique (v : json) (n m : Z) :
  eq_int v n = true -> n <> m -> eq_int v m = false.
Proof.
  destruct v as [ | c | z | f | t | l | d ]; simpl; try discriminate.
  - intros H Hne. apply Z.eqb_eq in H. apply Z.eqb_neq. congruence.
  - intros H Hne. apply Z.eqb_eq in H. apply Z.eqb_neq. congruence.
  - destruct f as [q| |]; try discriminate.
    intros H Hne. destruct (Qeq_bool q (inject_Z m)) eqn:E; [exfalso|reflexivity].
    apply Qeq_bool_iff in H, E.
    apply Hne, inject_Z_injective. rewrite <- H. exact E.
Qed.

(** **** The claims about the loop *)

(** A frame whose command is ForceOffline clears the run flag and the
    connected flag, and in the log of a loop followed on its own nothing
    that belongs to a reconnect (connecting, opening, authenticating,
    re-login, sleeping) follows the kick: that loop has left with both
    flags cleared.  What the tasks started by [connect] do beside it is
    the subject of [Tasks]. *)
Lemma kick_stops_the_loop (cfg : BotConfig) :
  (forall (d : list (string * json)) (b : Bot App),
     eq_int (dict_get d "cmd") (Wire.WSCommand_value Wire.FORCE_OFFLINE) = true ->
     _handle_ws_message handlers (JDict d) b
     = (set_ws_connected_flag false (set_ws_running false b), Ret tt, [ForcedOffline]))
  /\ (forall (envs : list IterEnv) (b : Bot App) (pre post : list event),
     snd (_ws_loop handlers cfg envs b) = pre ++ ForcedOffline :: post ->
     ws_running (fst (_ws_loop handlers cfg envs b)) = false
     /\ _ws_connected_flag (fst (_ws_loop handlers cfg envs b)) = false
     /\ Forall (fun e => reconnect_activity e = false) post).
Proof.
  split.
  - intros d b H. unfold _handle_ws_message. simpl in *.
    rewrite (eq_int_unique _ _ 3 H), (eq_int_unique _ _ 4 H),
            (eq_int_unique _ _ 5 H), (eq_int_unique _ _ 1 H) by discriminate.
    rewrite H. reflexivity.
  - intros envs b pre post. unfold _ws_loop.
    pose proof (ws_loop_from_kick cfg envs 0 b) as H.
    destruct (ws_loop_from handlers cfg envs 0 b) as [[b' failures] tr].
    simpl. apply H.
Qed.

(** C1, as the code has it: a re-login is attempted only when at least
    [MAX_RECONNECT_ATTEMPTS] connections in a row have failed; when it fails
    the failure counter is set to one below that threshold and the loop
    stays running and goes to its reconnect sleep; with the counter there,
    the next connection that fails with the connected flag cleared is
    followed by a re-login again. *)
Theorem C1_relogin_threshold_and_pinned_counter (cfg : BotConfig) :
  (forall (envs : list IterEnv) (b : Bot App),
     relogins_justified (MAX_RECONNECT_ATTEMPTS cfg) 0
       (snd (_ws_loop handlers cfg envs b)))
  /\ (forall (env : IterEnv) (failures : Z) (b : Bot App),
     In (Relogin false) (snd (loop_body handlers cfg env failures b)) ->
     snd (fst (loop_body handlers cfg env failures b)) = MAX_RECONNECT_ATTEMPTS cfg - 1
     /\ ws_running (fst (fst (loop_body handlers cfg env failures b))) = true
     /\ _ws_connected_flag (fst (fst (loop_body handlers cfg env failures b))) = false
     /\ exists pre d,
          snd (loop_body handlers cfg env failures b) = pre ++ [Relogin false; Sleep d])
  /\ (forall (env : IterEnv) (b : Bot App),
     raises (snd (fst (_ws_connect handlers (connection env) b))) = true ->
     ws_running (fst (fst (_ws_connect handlers (connection env) b))) = true ->
     _ws_connected_flag (fst (fst (_ws_connect handlers (connection env) b))) = false ->
     exists ok,
       In (Relogin ok)
          (snd (loop_body handlers cfg env (MAX_RECONNECT_ATTEMPTS cfg - 1) b))).
Proof.
  split; [|split].
  - intros envs b. unfold _ws_loop.
    pose proof (ws_loop_from_justified cfg envs 0 0 b (Z.le_refl 0) (Z.le_refl 0)) as H.
    destruct (ws_loop_from handlers cfg envs 0 b) as [[b' failures] tr]. exact H.
  - intros env failures b.
    pose proof (relogin_failure_pins cfg env failures b) as H.
    destruct (loop_body handlers cfg env failures b) as [[b' failures'] evs]. exact H.
  - intros env b.
    pose proof (pinned_counter_retriggers cfg env b) as H.
    destruct (_ws_connect handlers (connection env) b) as [[b1 r] evs1].
    destruct (loop_body handlers cfg env (MAX_RECONNECT_ATTEMPTS cfg - 1) b)
      as [[b' failures'] evs].
    exact H.
Qed.

End Loop.

(** *** The claims at concrete inputs *)

Section Concrete.
Import Enhanced Scenario.

Example kick_stops_the_loop_at_kicked :
  eq_int (dict_get [("cmd"%string, JInt 2)] "cmd")
         (Wire.WSCommand_value Wire.FORCE_OFFLINE) = true
  /\ snd (_ws_loop no_handlers default_config [kicked; unreachable] started)
     = [Connecting 1; Opened 0; AuthSent]
       ++ ForcedOffline :: [SystemMessage (JStr "bye"); StreamClosed; LoopConnected]
  /\ _handle_ws_message no_handlers (JDict [("cmd"%string, JInt 2)]) started
     = (set_ws_connected_flag false (set_ws_running false started), Ret tt, [ForcedOffline])
  /\ ws_running (fst (_ws_loop no_handlers default_config [kicked; unreachable] started))
     = false.
Proof.
  split; [reflexivity|]. split; [reflexivity|].
  destruct (kick_stops_the_loop no_handlers default_config) as [H1 H2].
  split.
  - apply H1. reflexivity.
  - apply (H2 [kicked; unreachable] started
              [Connecting 1; Opened 0; AuthSent]
              [SystemMessage (JStr "bye"); StreamClosed; LoopConnected]).
    reflexivity.
Qed.

Example loop_backoff_unreachable :
  0 <= ws_reconnect_count started
  /\ delays_follow default_config 0
       (snd (_ws_loop no_handlers default_config (repeat unreachable 3) started))
  /\ List.filter (fun e => match e with Sleep _ => true | _ => false end)
       (snd (_ws_loop no_handlers default_config (repeat unreachable 3) started))
     = [Sleep 6; Sleep 12; Sleep 24].
Proof.
  assert (H : 0 <= ws_reconnect_count started) by (simpl; lia).
  split; [exact H|]. split; [|reflexivity].
  exact (proj1 (loop_backoff no_handlers default_config
                  (repeat unreachable 3) started H)).
Qed.

Lemma C1_relogin_witness :
  In (Relogin false) (snd (loop_body no_handlers default_config unreachable 9 started))
  /\ snd (fst (loop_body no_handlers default_config unreachable 9 started)) = 9
  /\ exists ok,
       In (Relogin ok) (snd (loop_body no_handlers default_config unreachable 9 started)).
Proof.
  destruct (C1_relogin_threshold_and_pinned_counter no_handlers default_config)
    as (_ & H2 & H3).
  assert (Hin : In (Relogin false)
                  (snd (loop_body no_handlers default_config unreachable 9 started))).
  { vm_compute. tauto. }
  split; [exact Hin|]. split.
  - exact (proj1 (H2 unreachable 9 started Hin)).
  - apply (H3 unreachable started); reflexivity.
Defined.

(** Twelve turns against a server that cannot be reached: ten failures
    lead to the first re-login, and each of the two failures after it to
    another one. *)
Example twelve_failed_turns :
  List.filter (fun e => is_relogin e || is_loop_failed e)
    (snd (_ws_loop no_handlers default_config (repeat unreachable 12) started))
  = [LoopFailed TimeoutError 1; LoopFailed TimeoutError 2; LoopFailed TimeoutError 3;
     LoopFailed TimeoutError 4; LoopFailed TimeoutError 5; LoopFailed TimeoutError 6;
     LoopFailed TimeoutError 7; LoopFailed TimeoutError 8; LoopFailed TimeoutError 9;
     LoopFailed TimeoutError 10; Relogin false;
     LoopFailed TimeoutError 10; Relogin false;
     LoopFailed TimeoutError 10; Relogin false].
Proof. vm_compute. reflexivity. Qed.

(** The claim, that after a failed re-login a single further failure does
    not bring the next re-login, fails on those twelve turns. *)
Lemma C1_relogin_retriggered_by_single_failure :
  ~ (forall (envs : list IterEnv) (b : Bot unit),
       retriggered_after_one None
         (snd (_ws_loop no_handlers default_config envs b)) = false).
Proof.
  intros H. specialize (H (repeat unreachable 12) started).
  vm_compute in H. discriminate H.
Qed.

Lemma C8_handler_isolation_witness :
  Wire.Message_init text_payload false = Ret text_message
  /\ Mono.Message_init text_payload false = Ret mono_text_message
  /\ _ws_receive two_handlers
       [Wire.envelope Wire.PRIVATE_MESSAGE text_payload;
        Wire.envelope Wire.PRIVATE_MESSAGE text_payload] None
       (init_bot "ENLT" "114514" 0%nat)
     = (set_app 2%nat (init_bot "ENLT" "114514" 0%nat), Ret tt,
        [HandlerFailed (RuntimeError "handler failed");
         HandlerFailed (RuntimeError "handler failed")])
  /\ Mono._ws_receive two_mono_handlers
       [Wire.envelope Wire.PRIVATE_MESSAGE text_payload] None
       {| Mono.ws_running := true; Mono.app := 0%nat |}
     = ({| Mono.ws_running := true; Mono.app := 1%nat |}, Ret tt,
        [Mono.HandlerFailed (RuntimeError "handler failed"); Mono.ReceiveEnded]).
Proof.
  destruct (C8_handler_failures_are_isolated two_handlers two_mono_handlers Wire.private)
    as (_ & _ & H3 & H4).
  assert (Hw : Wire.Message_init text_payload false = Ret text_message) by reflexivity.
  assert (Hm : Mono.Message_init text_payload false = Ret mono_text_message) by reflexivity.
  split; [exact Hw|]. split; [exact Hm|]. split.
  - change (Wire.envelope Wire.PRIVATE_MESSAGE)
      with (Wire.envelope (Wire.Category_command Wire.private)).
    rewrite (H3 text_payload text_message _ None _ Hw). cbv zeta.
    rewrite (H3 text_payload text_message _ None _ Hw). reflexivity.
  - change (Wire.envelope Wire.PRIVATE_MESSAGE)
      with (Wire.envelope (Wire.Category_command Wire.private)).
    rewrite (H4 text_payload mono_text_message _ None _ Hm). reflexivity.
Defined.

End Concrete.

(** *** The rate guard *)

Section RateGuard.
Import Level.

Lemma Qlt_bool_iff (a b : Q) : Qlt_bool a b = true <-> (a < b)%Q.
Proof.
  unfold Qlt_bool. rewrite negb_true_iff. split.
  - intros H. apply Qnot_le_lt. intros Hle. apply Qle_bool_iff in Hle. congruence.
  - intros H. destruct (Qle_bool b a) eqn:E; [|reflexivity].
    apply Qle_bool_iff in E. exfalso. exact (Qlt_not_le _ _ H E).
Qed.

Lemma fill_defaults_complete (r : UserData) : complete (fill_defaults r).
Proof.
  unfold complete, fill_defaults. destruct r as [? ? ? ? ? ? ? p d c t lc lw]. simpl.
  destruct p, d, c, t, lc, lw; reflexivity.
Qed.

Lemma default_complete : complete default_user_data.
Proof. reflexivity. Qed.

Lemma count_message_complete (t : Q) (r : UserData) :
  complete r -> complete (count_message t r).
Proof.
  unfold complete, fill_defaults, count_message. destruct r; simpl.
  intros H. injection H as -> -> -> -> -> ->. reflexivity.
Qed.

Lemma set_level_complete (l : Z) (lb : Label) (r : UserData) :
  complete r -> complete (set_level l lb r).
Proof.
  unfold complete, fill_defaults, set_level. destruct r; simpl.
  intros H. injection H as -> -> -> -> -> ->. reflexivity.
Qed.

(** The get-or-create read: afterwards the sender has a full record, and
    nothing else has changed. *)
Lemma get_user_data_facts (u : Z) (s : LevelSystem) :
  let '(s0, r) := _get_user_data u s in
  user_data s0 !! u = Some r /\ complete r
  /\ user_message_times s0 = user_message_times s
  /\ spam_warnings s0 = spam_warnings s
  /\ temp_blacklist s0 = temp_blacklist s
  /\ (forall v, v <> u -> user_data s0 !! v = user_data s !! v)
  /\ (forall r0, user_data s !! u = Some r0 -> complete r0 -> s0 = s).
Proof.
  unfold _get_user_data. destruct (user_data s !! u) as [r0|] eqn:E; simpl.
  - repeat split; auto.
    + apply lookup_insert_eq.
    + apply fill_defaults_complete.
    + intros v Hv. apply lookup_insert_ne. congruence.
    + intros r1 [= <-] Hc. rewrite Hc. rewrite insert_id by exact E.
      destruct s; reflexivity.
  - repeat split; auto.
    + apply lookup_insert_eq.
    + intros v Hv. apply lookup_insert_ne. congruence.
    + intros r0 H. discriminate H.
Qed.

Example round_half_values :
  map Level.round_half [1; 4; 9; 25; 49] = [0; 2; 4; 12; 24].
Proof. reflexivity. Qed.

Example level_of_exp_values :
  map _calculate_level_from_exp [0; 1; 2; 5; 6; 100] = [2; 2; 3; 3; 4; 9].
Proof. vm_compute. reflexivity. Qed.

(** The loop of [_calculate_level_from_exp] is over within the 999 turns
    it is given: more turns change nothing. *)
Lemma level_loop_fuel (fuel extra : nat) (exp level total : Z) :
  1 <= level <= 999 -> (Z.to_nat (1000 - level) <= fuel)%nat ->
  level_loop (fuel + extra) exp level total = level_loop fuel exp level total.
Proof.
  revert level total. induction fuel as [|fuel IH]; intros level total Hl Hf.
  - exfalso. lia.
  - simpl. destruct (total + round_half (level * level) <=? exp); [|reflexivity].
    destruct (999 <? level + 1) eqn:E; [reflexivity|].
    apply Z.ltb_ge in E. apply IH; lia.
Qed.

Lemma calculate_level_terminates (extra : nat) (exp : Z) :
  level_loop (999 + extra) exp 1 0 = _calculate_level_from_exp exp.
Proof. apply level_loop_fuel; simpl; lia. Qed.

Lemma get_user_data_inv (u : Z) (s : LevelSystem) :
  guard_inv s -> guard_inv (fst (_get_user_data u s)).
Proof.
  intros [I1 I2]. pose proof (get_user_data_facts u s) as H.
  destruct (_get_user_data u s) as [s0 r]. simpl.
  destruct H as (Hu & Hc & Ht & Hw & Hb & Hother & _).
  split.
  - intros v w. rewrite Hw, Hb. apply I1.
  - intros v. rewrite Hb. intros Hv. destruct (decide (v = u)) as [->|Hne].
    + eauto.
    + rewrite (Hother v Hne). apply I2, Hv.
Qed.

(** The blacklist test: the sender is still blocked, or the state goes on
    without a block and without a warning for the sender. *)
Lemma check_blacklist_facts (now : Q) (u : Z) (s : LevelSystem) :
  guard_inv s ->
  match check_blacklist now u s with
  | None => exists e, temp_blacklist s !! u = Some e /\ (now < e)%Q
  | Some s1 =>
      guard_inv s1
      /\ (forall e, temp_blacklist s !! u = Some e -> (e <= now)%Q)
      /\ temp_blacklist s1 !! u = None /\ spam_warnings s1 !! u = None
      /\ user_data s1 = user_data s
      /\ user_message_times s1 = user_message_times s
  end.
Proof.
  intros [I1 I2]. unfold check_blacklist.
  destruct (temp_blacklist s !! u) as [e|] eqn:E.
  - destruct (Qlt_bool now e) eqn:Hq.
    + exists e. split; [reflexivity|]. apply Qlt_bool_iff, Hq.
    + simpl. split; [split|].
      * intros v w Hv. simpl in *. destruct (decide (v = u)) as [->|Hne].
        { rewrite lookup_delete_eq in Hv. discriminate Hv. }
        rewrite lookup_delete_ne in Hv by congruence.
        destruct (I1 v w Hv) as [-> Hb]. split; [reflexivity|].
        rewrite lookup_delete_ne by congruence. exact Hb.
      * intros v Hv. simpl in *. destruct (decide (v = u)) as [->|Hne].
        { rewrite lookup_delete_eq in Hv. destruct Hv as [x Hx]. discriminate Hx. }
        rewrite lookup_delete_ne in Hv by congruence. apply I2, Hv.
      * split; [|rewrite !lookup_delete_eq; auto].
        intros e' [= <-]. apply Qnot_lt_le. intros Hlt.
        apply Qlt_bool_iff in Hlt. congruence.
  - split; [split; assumption|].
    split; [intros e' H; discriminate H|].
    split; [exact E|]. split; [|auto].
    destruct (spam_warnings s !! u) as [w|] eqn:W; [|reflexivity].
    destruct (I1 _ _ W) as [_ [x Hx]]. congruence.
Qed.

(** Past the blacklist test: the invariant is kept, the reset branch is not
    taken, and a full window brings the first-offense block. *)
Lemma detect_or_count_facts (now t2 : Q) (u : Z) (m : Mono.Message) (r : UserData)
  (s1 : LevelSystem) :
  guard_inv s1 ->
  temp_blacklist s1 !! u = None -> spam_warnings s1 !! u = None ->
  user_data s1 !! u = Some r -> complete r ->
  let '(s', ok, evs) := detect_or_count now t2 u m r s1 in
  guard_inv s'
  /\ (forall v t, ~ In (DataCleared v t) evs)
  /\ ((5 <= List.length (window now s1 u))%nat ->
      ok = false
      /\ temp_blacklist s' !! u = Some (t2 + 60)%Q
      /\ spam_warnings s' !! u = Some 1
      /\ evs = [FirstOffense u (warning_target u m)]
      /\ user_data s' = user_data s1).
Proof.
  intros [I1 I2] Hb Hw Hr Hc. unfold detect_or_count.
  destruct (5 <=? List.length (window now s1 u))%nat eqn:Hlen.
  - unfold _handle_spam. simpl. rewrite Hw. simpl.
    split; [split|].
    + intros v w Hv. simpl in *. destruct (decide (v = u)) as [->|Hne].
      * rewrite lookup_insert_eq in Hv. injection Hv as <-.
        split; [reflexivity|]. rewrite lookup_insert_eq. eauto.
      * rewrite lookup_insert_ne in Hv by congruence.
        destruct (I1 v w Hv) as [-> Hbv]. split; [reflexivity|].
        rewrite lookup_insert_ne by congruence. exact Hbv.
    + intros v Hv. simpl in *. destruct (decide (v = u)) as [->|Hne]; [eauto|].
      rewrite lookup_insert_ne in Hv by congruence. apply I2, Hv.
    + split.
      * intros v t [H|[]]. discriminate H.
      * intros _. simpl. rewrite !lookup_insert_eq. auto.
  - set (u1 := count_message now r).
    set (step := if u_level u1 <? _calculate_level_from_exp (u_exp u1)
                 then (set_level (_calculate_level_from_exp (u_exp u1))
                         (get_user_label (_calculate_level_from_exp (u_exp u1))) u1,
                       [LevelUp u (u_level u1) (_calculate_level_from_exp (u_exp u1))
                          (u_current_label u1)
                          (get_user_label (_calculate_level_from_exp (u_exp u1)))])
                 else (u1, [])).
    assert (Hstep : complete (fst step)
                    /\ forall v t, ~ In (DataCleared v t) (snd step)).
    { subst step. destruct (u_level u1 <? _); simpl.
      - split; [apply set_level_complete, count_message_complete, Hc|].
        intros v t [H|[]]. discriminate H.
      - split; [apply count_message_complete, Hc|]. intros v t []. }
    destruct step as [u2 evs]. simpl in Hstep. destruct Hstep as [Hc2 Hev].
    split; [split|].
    + intros v w Hv. simpl in *. apply I1, Hv.
    + intros v Hv. simpl in *. destruct (decide (v = u)) as [->|Hne].
      * rewrite Hb in Hv. destruct Hv as [x Hx]. discriminate Hx.
      * rewrite lookup_insert_ne by congruence. apply I2, Hv.
    + split.
      * intros v t Hin. apply in_app_or in Hin. destruct Hin as [Hin|Hin].
        { exact (Hev v t Hin). }
        simpl in Hin. destruct Hin as [H|[H|[]]]; discriminate H.
      * intros Hge. apply Nat.leb_le in Hge. congruence.
Qed.

(** One message keeps the invariant and never takes the reset branch. *)
Lemma add_experience_inv (now t2 : Q) (u : Z) (m : Mono.Message) (s : LevelSystem) :
  guard_inv s ->
  let '(s', _, evs) := add_experience now t2 u m s in
  guard_inv s' /\ forall v t, ~ In (DataCleared v t) evs.
Proof.
  intros Hinv. unfold add_experience.
  pose proof (get_user_data_inv u s Hinv) as Hinv0.
  pose proof (get_user_data_facts u s) as Hg.
  destruct (_get_user_data u s) as [s0 r]. simpl in Hinv0.
  destruct Hg as (Hu & Hc & _).
  pose proof (check_blacklist_facts now u s0 Hinv0) as Hchk.
  destruct (check_blacklist now u s0) as [s1|].
  - destruct Hchk as (Hinv1 & _ & Hb & Hw & Hud & _).
    assert (Hr : user_data s1 !! u = Some r) by (rewrite Hud; exact Hu).
    pose proof (detect_or_count_facts now t2 u m r s1 Hinv1 Hb Hw Hr Hc) as Hd.
    destruct (detect_or_count now t2 u m r s1) as [[s' ok] evs].
    destruct Hd as (H1 & H2 & _). auto.
  - split; [exact Hinv0|]. intros v t [].
Qed.

Lemma init_inv (loaded : gmap Z UserData) : guard_inv (init loaded).
Proof.
  split.
  - intros u w H. simpl in H. rewrite lookup_empty in H. discriminate H.
  - intros u [x H]. simpl in H. rewrite lookup_empty in H. discriminate H.
Qed.

Lemma reachable_inv (s : LevelSystem) : reachable s -> guard_inv s.
Proof.
  induction 1 as [loaded | s c _ IH]; [apply init_inv|].
  pose proof (add_experience_inv (c_time c) (c_spam_time c) (c_user c) (c_message c) s IH)
    as H.
  destruct (add_experience _ _ _ _ s) as [[s' ok] evs]. simpl. apply H.
Qed.

Lemma run_inv (calls : list Call) (s : LevelSystem) :
  guard_inv s ->
  guard_inv (fst (run calls s))
  /\ forall v t, ~ In (DataCleared v t) (snd (run calls s)).
Proof.
  revert s. induction calls as [|c rest IH]; intros s Hinv; simpl.
  - split; [exact Hinv|]. intros v t [].
  - pose proof (add_experience_inv (c_time c) (c_spam_time c) (c_user c)
                  (c_message c) s Hinv) as H.
    destruct (add_experience _ _ _ _ s) as [[s1 ok] evs]. destruct H as [H1 H2].
    specialize (IH s1 H1). destruct (run rest s1) as [s2 evs']. simpl in *.
    destruct IH as [H3 H4]. split; [exact H3|].
    intros v t Hin. apply in_app_or in Hin. destruct Hin as [Hin|Hin].
    + exact (H2 v t Hin).
    + exact (H4 v t Hin).
Qed.

Lemma run_reachable (calls : list Call) (s : LevelSystem) :
  reachable s -> reachable (fst (run calls s)).
Proof.
  revert s. induction calls as [|c rest IH]; intros s Hs; simpl; [exact Hs|].
  pose proof (reach_step s c Hs) as H.
  destruct (add_experience _ _ _ _ s) as [[s1 ok] evs]. simpl in H.
  specialize (IH s1 H). destruct (run rest s1) as [s2 evs']. exact IH.
Qed.

Lemma window_ext (now : Q) (u : Z) (a b : LevelSystem) :
  user_message_times a = user_message_times b -> window now a u = window now b u.
Proof. intros H. unfold window. rewrite H. reflexivity. Qed.

(** C10: whatever messages arrive, the reset branch of [_handle_spam] is
    never taken, and a warning counter that is set is 1 and belongs to a
    sender who is blocked. *)
Theorem C10_reset_branch_unreachable (loaded : gmap Z UserData) (calls : list Call) :
  (forall u t, ~ In (DataCleared u t) (snd (run calls (init loaded))))
  /\ (forall u w,
      spam_warnings (fst (run calls (init loaded))) !! u = Some w ->
      w = 1 /\ is_Some (temp_blacklist (fst (run calls (init loaded))) !! u)).
Proof.
  destruct (run_inv calls (init loaded) (init_inv loaded)) as [[I1 _] Hno].
  split; [exact Hno | exact I1].
Qed.

(** A full window while no block is in force: the first-offense block. *)
Lemma first_offense_blocks (now spam_now : Q) (u : Z) (m : Mono.Message) (s : LevelSystem) :
  guard_inv s ->
  (forall e, temp_blacklist s !! u = Some e -> (e <= now)%Q) ->
  (5 <= List.length (window now s u))%nat ->
  let s' := fst (fst (add_experience now spam_now u m s)) in
  snd (fst (add_experience now spam_now u m s)) = false
  /\ temp_blacklist s' !! u = Some (spam_now + 60)%Q
  /\ spam_warnings s' !! u = Some 1
  /\ snd (add_experience now spam_now u m s) = [FirstOffense u (warning_target u m)].
Proof.
  intros Hinv Hfree Hfull. cbv zeta. unfold add_experience.
  pose proof (get_user_data_inv u s Hinv) as Hinv0.
  pose proof (get_user_data_facts u s) as Hg.
  destruct (_get_user_data u s) as [s0 r]. simpl in Hinv0.
  destruct Hg as (Hu & Hc & Ht & _ & Hbl & _).
  pose proof (check_blacklist_facts now u s0 Hinv0) as Hchk.
  destruct (check_blacklist now u s0) as [s1|].
  - destruct Hchk as (Hinv1 & _ & Hb & Hw & Hud & Htimes).
    assert (Hr : user_data s1 !! u = Some r) by (rewrite Hud; exact Hu).
    pose proof (detect_or_count_facts now spam_now u m r s1 Hinv1 Hb Hw Hr Hc) as Hd.
    destruct (detect_or_count now spam_now u m r s1) as [[s' ok] evs].
    destruct Hd as (_ & _ & Hd).
    rewrite (window_ext now u s1 s) in Hd by congruence.
    destruct (Hd Hfull) as (H1 & H2 & H3 & H4 & _). simpl. auto.
  - exfalso. destruct Hchk as (e & He & Hlt). rewrite Hbl in He.
    exact (Qlt_not_le _ _ Hlt (Hfree e He)).
Qed.

(** A window that is not full while no block is in force: the window is
    stored and the sender stays unblocked. *)
Lemma short_window_counts (now spam_now : Q) (u : Z) (m : Mono.Message) (s : LevelSystem) :
  guard_inv s ->
  (forall e, temp_blacklist s !! u = Some e -> (e <= now)%Q) ->
  (List.length (window now s u) < 5)%nat ->
  let s' := fst (fst (add_experience now spam_now u m s)) in
  snd (fst (add_experience now spam_now u m s)) = true
  /\ user_message_times s' !! u = Some (window now s u)
  /\ temp_blacklist s' !! u = None.
Proof.
  intros Hinv Hfree Hshort. cbv zeta. unfold add_experience.
  pose proof (get_user_data_inv u s Hinv) as Hinv0.
  pose proof (get_user_data_facts u s) as Hg.
  destruct (_get_user_data u s) as [s0 r]. simpl in Hinv0.
  destruct Hg as (Hu & Hc & Ht & _ & Hbl & _).
  pose proof (check_blacklist_facts now u s0 Hinv0) as Hchk.
  destruct (check_blacklist now u s0) as [s1|].
  - destruct Hchk as (Hinv1 & _ & Hb & Hw & Hud & Htimes).
    unfold detect_or_count.
    rewrite (window_ext now u s1 s) by congruence.
    replace (5 <=? List.length (window now s u))%nat with false
      by (symmetry; apply Nat.leb_gt; exact Hshort).
    destruct (u_level (count_message now r) <? _); simpl;
      rewrite lookup_insert_eq; auto.
  - exfalso. destruct Hchk as (e & He & Hlt). rewrite Hbl in He.
    exact (Qlt_not_le _ _ Hlt (Hfree e He)).
Qed.

(** A sender whose block has not expired: nothing changes. *)
Lemma blocked_sender_ignored (now spam_now : Q) (u : Z) (m : Mono.Message)
  (s : LevelSystem) (e : Q) :
  guard_inv s ->
  temp_blacklist s !! u = Some e -> (now < e)%Q ->
  add_experience now spam_now u m s = (s, false, []).
Proof.
  intros [_ I2] He Hlt.
  destruct (I2 u (ex_intro _ e He)) as (r0 & Hr0 & Hc0).
  unfold add_experience.
  pose proof (get_user_data_facts u s) as Hg.
  destruct (_get_user_data u s) as [s0 r].
  destruct Hg as (_ & _ & _ & _ & _ & _ & Hsame).
  rewrite (Hsame r0 Hr0 Hc0). unfold check_blacklist. rewrite He.
  apply Qlt_bool_iff in Hlt. rewrite Hlt. reflexivity.
Qed.

(** [_handle_spam] with the warning counter set: the reset. *)
Lemma repeat_offense_resets (spam_now : Q) (u : Z) (m : Mono.Message)
  (s : LevelSystem) (w : Z) :
  spam_warnings s !! u = Some w -> 1 <= w ->
  let s' := fst (_handle_spam spam_now u m s) in
  user_data s' !! u = Some default_user_data
  /\ spam_warnings s' !! u = Some 0
  /\ temp_blacklist s' !! u = None
  /\ user_message_times s' !! u = None
  /\ snd (_handle_spam spam_now u m s) = [Saved; DataCleared u (warning_target u m)].
Proof.
  intros Hw Hge. cbv zeta. unfold _handle_spam. rewrite Hw. simpl.
  replace (w + 1 =? 1) with false by (symmetry; apply Z.eqb_neq; lia).
  simpl. rewrite !lookup_insert_eq, !lookup_delete_eq. auto.
Qed.

Lemma run_cons (c : Call) (rest : list Call) (s : LevelSystem) :
  fst (run (c :: rest) s)
  = fst (run rest (fst (fst (add_experience (c_time c) (c_spam_time c) (c_user c)
                                (c_message c) s)))).
Proof.
  simpl. destruct (add_experience _ _ _ _ s) as [[s1 ok] evs]. simpl.
  destruct (run rest s1) as [s2 evs']. reflexivity.
Qed.

(** Five messages of one sender, the last less than five seconds after the
    first, from a state in which the sender has neither a window nor a
    block: the fifth brings the block, 60 seconds from the clock reading
    [q] of [_handle_spam]. *)
Lemma five_in_five_seconds (s : LevelSystem) (u : Z) (m : Mono.Message)
  (t1 t2 t3 t4 t5 q : Q) :
  reachable s ->
  user_message_times s !! u = None -> temp_blacklist s !! u = None ->
  (t1 <= t2)%Q -> (t2 <= t3)%Q -> (t3 <= t4)%Q -> (t4 <= t5)%Q -> (t5 - 5 < t1)%Q ->
  let call t := {| c_time := t; c_spam_time := q; c_user := u; c_message := m |} in
  temp_blacklist (fst (run [call t1; call t2; call t3; call t4; call t5] s)) !! u
  = Some (q + 60)%Q.
Proof.
  intros Hreach Htimes Hfree H12 H23 H34 H45 Hwin call.
  assert (Hkeep : forall a b : Q, (t1 <= a)%Q -> (b <= t5)%Q ->
                                  Qlt_bool (b - 5) a = true).
  { intros a b Ha Hb. apply Qlt_bool_iff. lra. }
  (* first message *)
  pose proof (reachable_inv s Hreach) as Hinv.
  assert (W1 : window t1 s u = [t1]).
  { unfold window. rewrite Htimes. simpl. rewrite Hkeep by lra. reflexivity. }
  destruct (short_window_counts t1 q u m s Hinv) as (_ & T1 & B1).
  { intros e He. congruence. }
  { rewrite W1. simpl. lia. }
  pose proof (reach_step s (call t1) Hreach) as R1. simpl in R1.
  set (s1 := fst (fst (add_experience t1 q u m s))) in *.
  rewrite W1 in T1.
  (* second *)
  assert (W2 : window t2 s1 u = [t1; t2]).
  { unfold window. rewrite T1. simpl. rewrite !Hkeep by lra. reflexivity. }
  destruct (short_window_counts t2 q u m s1 (reachable_inv _ R1)) as (_ & T2 & B2).
  { intros e He. congruence. }
  { rewrite W2. simpl. lia. }
  pose proof (reach_step s1 (call t2) R1) as R2. simpl in R2.
  set (s2 := fst (fst (add_experience t2 q u m s1))) in *.
  rewrite W2 in T2.
  (* third *)
  assert (W3 : window t3 s2 u = [t1; t2; t3]).
  { unfold window. rewrite T2. simpl. rewrite !Hkeep by lra. reflexivity. }
  destruct (short_window_counts t3 q u m s2 (reachable_inv _ R2)) as (_ & T3 & B3).
  { intros e He. congruence. }
  { rewrite W3. simpl. lia. }
  pose proof (reach_step s2 (call t3) R2) as R3. simpl in R3.
  set (s3 := fst (fst (add_experience t3 q u m s2))) in *.
  rewrite W3 in T3.
  (* fourth *)
  assert (W4 : window t4 s3 u = [t1; t2; t3; t4]).
  { unfold window. rewrite T3. simpl. rewrite !Hkeep by lra. reflexivity. }
  destruct (short_window_counts t4 q u m s3 (reachable_inv _ R3)) as (_ & T4 & B4).
  { intros e He. congruence. }
  { rewrite W4. simpl. lia. }
  pose proof (reach_step s3 (call t4) R3) as R4. simpl in R4.
  set (s4 := fst (fst (add_experience t4 q u m s3))) in *.
  rewrite W4 in T4.
  (* fifth *)
  assert (W5 : window t5 s4 u = [t1; t2; t3; t4; t5]).
  { unfold window. rewrite T4. simpl. rewrite !Hkeep by lra. reflexivity. }
  destruct (first_offense_blocks t5 q u m s4 (reachable_inv _ R4)) as (_ & B5 & _).
  { intros e He. congruence. }
  { rewrite W5. simpl. lia. }
  rewrite !run_cons. simpl. exact B5.
Qed.

(** C7: (a) in a state the guard can reach, a message of a sender with no
    block in force whose five-second window then holds five entries gets
    the sender blocked until exactly 60 seconds after the clock reading of
    [_handle_spam], with the warning counter at 1; (b) a message of a
    sender whose block has not expired changes nothing at all; (c)
    [_handle_spam] called for a sender whose warning counter is set resets
    the sender's record and clears counter, block and window. *)
Theorem C7_rate_guard (now spam_now : Q) (u : Z) (m : Mono.Message) (s : LevelSystem) :
  (reachable s ->
   (forall e, temp_blacklist s !! u = Some e -> (e <= now)%Q) ->
   (5 <= List.length (window now s u))%nat ->
   let s' := fst (fst (add_experience now spam_now u m s)) in
   snd (fst (add_experience now spam_now u m s)) = false
   /\ temp_blacklist s' !! u = Some (spam_now + 60)%Q
   /\ spam_warnings s' !! u = Some 1
   /\ snd (add_experience now spam_now u m s) = [FirstOffense u (warning_target u m)])
  /\ (reachable s ->
      forall e, temp_blacklist s !! u = Some e -> (now < e)%Q ->
      add_experience now spam_now u m s = (s, false, []))
  /\ (forall w, spam_warnings s !! u = Some w -> 1 <= w ->
      let s' := fst (_handle_spam spam_now u m s) in
      user_data s' !! u = Some default_user_data
      /\ spam_warnings s' !! u = Some 0
      /\ temp_blacklist s' !! u = None
      /\ user_message_times s' !! u = None
      /\ snd (_handle_spam spam_now u m s)
         = [Saved; DataCleared u (warning_target u m)]).
Proof.
  split; [|split].
  - intros Hreach. apply first_offense_blocks, reachable_inv, Hreach.
  - intros Hreach e. apply blocked_sender_ignored, reachable_inv, Hreach.
  - intros w. apply repeat_offense_resets.
Qed.

End RateGuard.

Section ConcreteGuard.
Import Level Scenario.

Lemma four_messages_reachable : reachable four_messages.
Proof. apply run_reachable, reach_init. Qed.

Lemma five_messages_reachable : reachable five_messages.
Proof. apply run_reachable, reach_init. Qed.

Lemma C7_rate_guard_witness :
  (temp_blacklist
     (fst (fst (add_experience 4 4 7 mono_text_message four_messages))) !! 7
   = Some (4 + 60)%Q)
  /\ add_experience 10 10 7 mono_text_message five_messages
     = (five_messages, false, [])
  /\ user_data (fst (_handle_spam 4 7 mono_text_message warned_unblocked)) !! 7
     = Some default_user_data.
Proof.
  split; [|split].
  - apply (proj1 (C7_rate_guard 4 4 7 mono_text_message four_messages)).
    + exact four_messages_reachable.
    + intros e He. vm_compute in He. discriminate He.
    + vm_compute. lia.
  - apply (proj1 (proj2 (C7_rate_guard 10 10 7 mono_text_message five_messages))
             five_messages_reachable (64 # 1)).
    + vm_compute. reflexivity.
    + reflexivity.
  - apply (proj2 (proj2 (C7_rate_guard 4 4 7 mono_text_message warned_unblocked)) 1).
    + vm_compute. reflexivity.
    + lia.
Defined.

End ConcreteGuard.

(** *** The token guard *)

Section TokenGuard.
Import Py Enhanced Token.

Lemma token_Qlt_bool_iff (a b : Q) : Token.Qlt_bool a b = true <-> (a < b)%Q.
Proof.
  unfold Token.Qlt_bool. rewrite negb_true_iff.
  split.
  - intros H. apply Qnot_le_lt. intros L. apply Qle_bool_iff in L. congruence.
  - intros H. destruct (Qle_bool b a) eqn:E; [|reflexivity].
    apply Qle_bool_iff in E. exfalso. apply (Qlt_not_le _ _ H E).
Qed.

Lemma Qle_bool_false_iff (a b : Q) : Qle_bool a b = false <-> (b < a)%Q.
Proof.
  rewrite <- token_Qlt_bool_iff. unfold Token.Qlt_bool.
  rewrite negb_true_iff. tauto.
Qed.

Lemma self_info_fallback_facts (env : LoginEnv) (k : nat) (s : Session) :
  let '(s', f) := self_info_fallback env k s in
  access_token s' = access_token s /\ refresh_token s' = refresh_token s
  /\ access_token_expires s' = access_token_expires s
  /\ refresh_token_expires s' = refresh_token_expires s
  /\ username s' = username s /\ password s' = password s
  /\ terminal s' = terminal s
  /\ _last_token_refresh_time s' = _last_token_refresh_time s
  /\ keeps_auth_settings s s'
  /\ (f = Continue -> user_id s' <> JNull)
  /\ (forall r, f = Return r -> r = false).
Proof.
  unfold self_info_fallback, keeps_auth_settings.
  destruct (self_info env k) as [info|e]; simpl.
  2: { repeat split; intros; discriminate. }
  destruct (truthy info); simpl.
  2: { repeat split; intros; congruence. }
  destruct (get info "id") as [i|e]; simpl.
  2: { repeat split; intros; discriminate. }
  destruct (truthy i) eqn:Ti; simpl.
  2: { repeat split; intros; congruence. }
  repeat split; try (intros; discriminate). intros _ ->. discriminate Ti.
Qed.

Lemma resolve_user_id_facts (env : LoginEnv) (token : string) (s : Session) :
  let '(s', f, calls) := resolve_user_id env token s in
  access_token s' = access_token s /\ refresh_token s' = refresh_token s
  /\ access_token_expires s' = access_token_expires s
  /\ refresh_token_expires s' = refresh_token_expires s
  /\ username s' = username s /\ password s' = password s
  /\ terminal s' = terminal s
  /\ _last_token_refresh_time s' = _last_token_refresh_time s
  /\ keeps_auth_settings s s'
  /\ (f = Continue -> user_id s' <> JNull)
  /\ (forall r, f = Return r -> r = false)
  /\ exists k, (k <= 2)%nat /\ calls = repeat GET_user_self k.
Proof.
  unfold resolve_user_id.
  pose proof (self_info_fallback_facts env 0 s) as F0.
  pose proof (self_info_fallback_facts env 1 s) as F1.
  destruct (self_info_fallback env 0 s) as [s0 f0].
  destruct (self_info_fallback env 1 s) as [s1 f1].
  assert (K1 : exists k, (k <= 2)%nat /\ [GET_user_self] = repeat GET_user_self k)
    by (exists 1%nat; split; [lia | reflexivity]).
  assert (K2 : exists k, (k <= 2)%nat
                /\ [GET_user_self; GET_user_self] = repeat GET_user_self k)
    by (exists 2%nat; split; [lia | reflexivity]).
  assert (K0 : exists k, (k <= 2)%nat /\ @nil call = repeat GET_user_self k)
    by (exists 0%nat; split; [lia | reflexivity]).
  destruct (let? payload_data := token_payload env token in subject_claim payload_data)
    as [claim|e]; simpl.
  2: { tauto. }
  destruct (truthy claim).
  - destruct (int claim) as [n|e]; simpl.
    + unfold keeps_auth_settings. repeat split; auto; try discriminate.
    + tauto.
  - destruct f0; simpl; tauto.
Qed.

Lemma login_facts (env : LoginEnv) (u p : string) (t : Terminal) (s : Session) :
  let '(s', ok, calls) := login env u p t s in
  keeps_auth_settings s s'
  /\ username s' = u /\ password s' = p /\ terminal s' = t
  /\ login_calls calls
  /\ (access_token s' = None -> refresh_token s' = None)
  /\ (ok = true ->
      exists code data,
        login_reply env = LoginHttp 200 code data /\ eq_int code 200 = true
        /\ access_token s' = Some (accessToken data)
        /\ refresh_token s' = Some (refreshToken data)
        /\ access_token_expires s' = (login_time env 0 + accessTokenExpiresIn data)%Q
        /\ refresh_token_expires s' = (login_time env 1 + refreshTokenExpiresIn data)%Q
        /\ _last_token_refresh_time s' = login_time env 4
        /\ user_id s' <> JNull).
Proof.
  unfold login.
  assert (L0 : login_calls [POST_login])
    by (exists 0%nat; split; [lia | reflexivity]).
  destruct (login_reply env) as [e|status code data] eqn:R.
  { unfold keeps_auth_settings. simpl. repeat split; auto. intros H; discriminate H. }
  destruct (status =? 200) eqn:St.
  2: { unfold keeps_auth_settings. simpl. repeat split; auto. intros H; discriminate H. }
  destruct (eq_int code 200) eqn:Co.
  2: { unfold keeps_auth_settings. simpl. repeat split; auto. intros H; discriminate H. }
  apply Z.eqb_eq in St. subst status.
  match goal with |- context [resolve_user_id env ?tok ?s2] =>
    pose proof (resolve_user_id_facts env tok s2) as F;
    destruct (resolve_user_id env tok s2) as [[s3 f] calls] end.
  simpl in F. unfold keeps_auth_settings in *. simpl in F.
  destruct F as (A & B & C & D & E & G & H & I & (J1 & J2) & K & Kr & (k & Hk & ->)).
  assert (LC : login_calls (POST_login :: repeat GET_user_self k))
    by (exists k; split; [exact Hk | reflexivity]).
  destruct f as [|r|e]; simpl.
  - split; [split; assumption|].
    split; [exact E|]. split; [exact G|]. split; [exact H|]. split; [exact LC|].
    split; [rewrite A; discriminate|].
    intros _. exists code, data.
    split; [reflexivity|]. split; [exact Co|]. split; [exact A|].
    split; [exact B|]. split; [exact C|]. split; [exact D|].
    split; [reflexivity|]. apply K. reflexivity.
  - split; [split; assumption|].
    split; [exact E|]. split; [exact G|]. split; [exact H|]. split; [exact LC|].
    split; [rewrite A; discriminate|].
    intros ->. discriminate (Kr true eq_refl).
  - split; [split; assumption|].
    split; [exact E|]. split; [exact G|]. split; [exact H|]. split; [exact LC|].
    split; [rewrite A; discriminate|].
    intros X. discriminate X.
Qed.

Lemma refresh_facts (env : RefreshEnv) (s : Session) :
  let '(s', ok, calls) := refresh_token_if_needed env s in
  _token_refresh_cooldown s' = _token_refresh_cooldown s
  /\ (_is_refreshing_token s = false -> _is_refreshing_token s' = false)
  /\ refresh_calls calls
  /\ (calls = [] -> s' = s)
  /\ ((access_token s = None -> refresh_token s = None) ->
      access_token s' = None -> refresh_token s' = None)
  /\ (ok = true -> calls <> [] -> _last_token_refresh_time s' = refresh_time env 0).
Proof.
  unfold refresh_token_if_needed.
  assert (N : refresh_calls []) by (left; reflexivity).
  destruct (_is_refreshing_token s) eqn:Fl.
  { repeat split; auto; try discriminate; try contradiction. }
  destruct (Qle_bool (_token_refresh_cooldown s) _).
  2: { repeat split; auto; try discriminate; try contradiction. }
  destruct (Qle_bool (access_token_expires s - 300) _).
  2: { repeat split; auto; try discriminate; try contradiction. }
  destruct (refresh_reply env) as [e|status code data].
  { simpl. split; [reflexivity|]. split; [reflexivity|].
    split; [right; left; reflexivity|]. split; [discriminate|].
    split; [auto|]. discriminate. }
  destruct ((status =? 200) && eq_int code 200).
  { simpl. split; [reflexivity|]. split; [reflexivity|].
    split; [right; left; reflexivity|]. split; [discriminate|].
    split; [discriminate|]. reflexivity. }
  unfold refresh_fallback.
  match goal with |- context [login ?e ?u ?p ?t ?s1] =>
    pose proof (login_facts e u p t s1) as F;
    destruct (login e u p t s1) as [[s2 ok] calls] end.
  destruct F as ((F1 & F2) & _ & _ & _ & LC & Tk & _).
  simpl in F1, F2.
  assert (RC : refresh_calls (POST_refresh :: calls))
    by (right; right; exists calls; split; [exact LC | reflexivity]).
  destruct ok; simpl.
  - split; [exact F2|]. split; [reflexivity|]. split; [exact RC|].
    split; [discriminate|]. split; [intros _; exact Tk|]. reflexivity.
  - split; [exact F2|]. split; [reflexivity|]. split; [exact RC|].
    split; [discriminate|]. split; [intros _; exact Tk|]. discriminate.
Qed.

Lemma ensure_valid_token_facts (now : Q) (env : RefreshEnv) (s : Session) :
  let '(s', ok, calls) := ensure_valid_token now env s in
  _token_refresh_cooldown s' = _token_refresh_cooldown s
  /\ (_is_refreshing_token s = false -> _is_refreshing_token s' = false)
  /\ refresh_calls calls
  /\ ((access_token s = None -> refresh_token s = None) ->
      access_token s' = None -> refresh_token s' = None).
Proof.
  unfold ensure_valid_token.
  assert (N : refresh_calls []) by (left; reflexivity).
  destruct (Token.Qlt_bool _ 10); [tauto|].
  destruct (token_missing (access_token s) || _); [|tauto].
  pose proof (refresh_facts env s) as F.
  destruct (refresh_token_if_needed env s) as [[s1 ok] calls].
  destruct F as (A & B & C & _ & D & _). simpl. tauto.
Qed.

Lemma perform_inv (o : operation) (s : Session) : session_inv s -> session_inv (perform o s).
Proof.
  intros (Fl & Cd). unfold session_inv.
  destruct o as [env u p t|env|now env|env]; simpl.
  - pose proof (login_facts env u p t s) as F.
    destruct (login env u p t s) as [[s' ok] calls]. simpl.
    destruct F as ((F1 & F2) & _).
    rewrite F1, F2. auto.
  - pose proof (refresh_facts env s) as F.
    destruct (refresh_token_if_needed env s) as [[s' ok] calls]. simpl.
    destruct F as (A & B & _). rewrite A. auto.
  - pose proof (ensure_valid_token_facts now env s) as F.
    destruct (ensure_valid_token now env s) as [[s' ok] calls]. simpl.
    destruct F as (A & B & _). rewrite A. auto.
  - unfold relogin. simpl.
    match goal with |- context [login ?e ?u ?p ?t ?s0] =>
      pose proof (login_facts e u p t s0) as F;
      destruct (login e u p t s0) as [[s' ok] calls] end.
    destruct F as ((F1 & F2) & _). simpl in F1, F2.
    destruct ok; simpl; rewrite F1, F2; auto.
Qed.

(** X1 (bot_core.py, login / refresh_token_if_needed / ensure_valid_token /
    relogin): whatever sequence of these calls is made on a new object, each
    one run to its end, the refresh-in-progress flag is clear afterwards
    (the [finally] of the refresh clears it on every way out, also when the
    login it falls back to fails) and the cooldown is still 30 seconds. *)
Theorem session_invariants (ops : list operation) (u p : string) :
  let s := perform_all ops (init_session u p) in
  _is_refreshing_token s = false
  /\ _token_refresh_cooldown s = 30%Q.
Proof.
  simpl. change (session_inv (perform_all ops (init_session u p))).
  assert (I : session_inv (init_session u p)) by (repeat split).
  revert I. generalize (init_session u p). unfold perform_all.
  induction ops as [|o ops IH]; intros s I; simpl; [exact I|].
  apply IH, perform_inv, I.
Qed.

(** X2 (bot_core.py, login): [login] reports success only when the
    endpoint answered with HTTP status 200 and application code 200 and a
    subject was resolved: the user id of the session is then not [None] and
    the credentials are the ones passed in.  When the subject was read from
    the token itself, so that the login POST was the only REST call and no
    self-info request (which goes through the API client and its token
    guard) was made, the session holds the tokens and expiry instants of
    that reply. *)
Theorem login_success_means_resolved_subject (env : LoginEnv) (u p : string)
  (t : Terminal) (s s' : Session) (calls : list call) :
  login env u p t s = (s', true, calls) ->
  exists code data,
    login_reply env = LoginHttp 200 code data /\ eq_int code 200 = true
    /\ user_id s' <> JNull
    /\ username s' = u /\ password s' = p
    /\ (calls = [POST_login] ->
        access_token s' = Some (accessToken data)
        /\ refresh_token s' = Some (refreshToken data)
        /\ access_token_expires s' = (login_time env 0 + accessTokenExpiresIn data)%Q
        /\ refresh_token_expires s' = (login_time env 1 + refreshTokenExpiresIn data)%Q).
Proof.
  intros E. pose proof (login_facts env u p t s) as F. rewrite E in F.
  destruct F as (_ & Hu & Hp & _ & LC & _ & Ok).
  destruct (Ok eq_refl) as (code & data & A & B & C & D & E1 & E2 & _ & G).
  exists code, data. repeat split; auto.
Qed.

Lemma subject_claim_first (d : list (string * json)) (v : json) :
  items_get d "userId" = Some v
  \/ (items_get d "userId" = None /\ items_get d "sub" = Some v)
  \/ (items_get d "userId" = None /\ items_get d "sub" = None
      /\ items_get d "user_id" = Some v) ->
  subject_claim (JDict d) = Ret v.
Proof.
  unfold subject_claim. simpl.
  intros [A|[(A & B)|(A & B & C)]].
  - rewrite A. reflexivity.
  - rewrite A, B. reflexivity.
  - rewrite A, B, C. reflexivity.
Qed.

(** X3 (bot_core.py, login, lines 528-549): when the access token has three
    dot-separated segments, its middle segment decodes to an object, and
    the first of the claims userId, sub, user_id that the object carries is
    truthy and convertible by [int], then login succeeds with that integer
    as user id and the login POST as its only REST call: no self-info
    request is made. *)
Theorem login_reads_subject_from_token (env : LoginEnv) (u p : string) (t : Terminal)
  (s : Session) (code : json) (data : LoginData) (header payload signature : string)
  (d : list (string * json)) (v : json) (n : Z) :
  login_reply env = LoginHttp 200 code data ->
  eq_int code 200 = true ->
  split_dot (accessToken data) = [header; payload; signature] ->
  b64_json env payload = Ret (JDict d) ->
  items_get d "userId" = Some v
  \/ (items_get d "userId" = None /\ items_get d "sub" = Some v)
  \/ (items_get d "userId" = None /\ items_get d "sub" = None
      /\ items_get d "user_id" = Some v) ->
  truthy v = true ->
  int v = Ret n ->
  exists s',
    login env u p t s = (s', true, [POST_login])
    /\ user_id s' = JInt n
    /\ access_token s' = Some (accessToken data).
Proof.
  intros R Co Sp B64 Cl Tr In.
  unfold login. rewrite R. simpl. rewrite Co.
  unfold resolve_user_id, token_payload. rewrite Sp. simpl. rewrite B64.
  simpl. change (bind (Ret (JDict d)) (fun x => subject_claim x))
    with (subject_claim (JDict d)).
  rewrite (subject_claim_first d v Cl), Tr, In.
  eexists. split; [reflexivity|]. split; reflexivity.
Qed.

(** X4 (bot_core.py, refresh_token_if_needed): a refresh that went to the
    network and succeeded puts the session into its cooldown: a second call
    whose clock reading is less than the cooldown later makes no REST call,
    changes nothing and returns True. *)
Theorem refresh_success_starts_cooldown (env1 env2 : RefreshEnv) (s s1 : Session)
  (calls : list call) :
  _is_refreshing_token s = false ->
  refresh_token_if_needed env1 s = (s1, true, calls) ->
  calls <> [] ->
  (refresh_time env2 0 - refresh_time env1 0 < _token_refresh_cooldown s)%Q ->
  refresh_token_if_needed env2 s1 = (s1, true, []).
Proof.
  intros Fl E Nc Lt.
  pose proof (refresh_facts env1 s) as F. rewrite E in F.
  destruct F as (A & B & _ & _ & _ & L).
  unfold refresh_token_if_needed.
  rewrite (B Fl), A, (L eq_refl Nc).
  apply Qle_bool_false_iff in Lt. rewrite Lt. reflexivity.
Qed.

(** X5 (bot_core.py, refresh_token_if_needed): the REST traffic of one call
    is nothing, or one refresh POST, or one refresh POST followed by one
    login POST and at most two self-info requests; a call that makes no
    REST call leaves the session as it was. *)
Theorem refresh_network_discipline (env : RefreshEnv) (s : Session) :
  let '(s', ok, calls) := refresh_token_if_needed env s in
  (calls = [] \/ calls = [POST_refresh]
   \/ exists k, (k <= 2)%nat
        /\ calls = POST_refresh :: POST_login :: repeat GET_user_self k)
  /\ (calls = [] -> s' = s).
Proof.
  pose proof (refresh_facts env s) as F.
  destruct (refresh_token_if_needed env s) as [[s' ok] calls] eqn:E.
  destruct F as (_ & B & C & D & _).
  split; [|exact D].
  destruct C as [C|[C|(rest & (k & Hk & ->) & ->)]]; auto.
  right; right. exists k. auto.
Qed.

(** X6 (bot_core.py, ensure_valid_token with refresh_token_if_needed): the
    10-second guard of the one and the 30-second cooldown of the other feed
    each other.  With no access token in the session, once a call has been
    made less than 10 seconds after the refresh stamp, every further call
    that follows its predecessor by less than 20 seconds returns True
    without any REST call, and the session still has no token: the stamp
    moves with each call, so the cooldown never runs out. *)
Theorem ensure_valid_token_starved (probes : list Probe) (previous : Q) (s : Session) :
  token_missing (access_token s) = true ->
  _is_refreshing_token s = false ->
  (30 <= _token_refresh_cooldown s)%Q ->
  (previous - _last_token_refresh_time s < 10)%Q ->
  spaced_within 20 previous probes ->
  exists s',
    probe_all probes s = (s', repeat true (List.length probes), [])
    /\ access_token s' = access_token s.
Proof.
  revert previous s.
  induction probes as [|p rest IH]; intros previous s Tm Fl Cd Pr Sp.
  { exists s. split; reflexivity. }
  destruct Sp as [Gap Sp]. simpl.
  unfold ensure_valid_token.
  destruct (Token.Qlt_bool (p_time p - _last_token_refresh_time s) 10) eqn:G.
  - apply token_Qlt_bool_iff in G.
    destruct (IH (p_time p) s Tm Fl Cd G Sp) as (s' & E & A).
    rewrite E. exists s'. split; [reflexivity | exact A].
  - rewrite Tm. simpl. unfold refresh_token_if_needed. rewrite Fl.
    assert (C : Qle_bool (_token_refresh_cooldown s)
                  (refresh_time (p_refresh p) 0 - _last_token_refresh_time s) = false).
    { apply Qle_bool_false_iff. lra. }
    rewrite C.
    destruct (IH (p_time p) (set_last_token_refresh_time (p_time p) s)) as (s' & E & A);
      try assumption.
    { simpl. lra. }
    rewrite E. exists s'. split; [reflexivity | exact A].
Qed.

(** X7 (bot_core.py, relogin): a failed re-login leaves the run flag, the
    connected flag and the reconnect counter as they are.  A successful one
    on a running bot disconnects and calls [connect], which starts a
    supervisor task only if the new token counts as logged in.  So when the
    new token names its subject (the login POST is the only REST call) and
    expires within 300 seconds of the instant [connect] is entered, no task
    is started: [relogin] returns True and leaves the bot stopped, both
    flags cleared and the reconnect counter as it was. *)
Theorem relogin_outcome {App : Type} (env : IterEnv) (b b' : Bot App) (ok : bool)
  (evs : list event) :
  relogin env b = (b', ok, evs) ->
  app b' = app b
  /\ (ok = false ->
      ws_running b' = ws_running b /\ _ws_connected_flag b' = _ws_connected_flag b
      /\ ws_reconnect_count b' = ws_reconnect_count b
      /\ evs = [])
  /\ (ok = true -> ws_running b = true ->
      snd (login (relogin_login env) (username (session b)) (password (session b)) PC
             (set_expires 0 0 (set_tokens None None (session b)))) = [POST_login] ->
      is_logged_in (relogin_clock env) (session b') = false ->
      ws_running b' = false
      /\ _ws_connected_flag b' = false
      /\ ws_reconnect_count b' = ws_reconnect_count b
      /\ evs = []).
Proof.
  unfold relogin.
  destruct (login _ _ _ _ _) as [[s1 success] calls].
  destruct success.
  - destruct (ws_running (set_session s1 b)) eqn:R; simpl in R.
    + unfold connect, disconnect. simpl.
      destruct (is_logged_in (relogin_clock env) s1) eqn:L; simpl.
      * intros E. inversion E; subst. simpl. rewrite L.
        split; [reflexivity|]. split; [discriminate|]. intros _ _ _ X. discriminate X.
      * intros E. inversion E; subst. simpl.
        split; [reflexivity|]. split; [discriminate|]. intros _ _ _ _. auto.
    + intros E. inversion E; subst. simpl.
      split; [reflexivity|]. split; [discriminate|]. intros _ X. congruence.
  - intros E. inversion E; subst. simpl.
    split; [reflexivity|]. split; [auto|]. discriminate.
Qed.

End TokenGuard.

(** *** A connection that is opened but not authenticated *)

Section StaleFlag.
Import Py Enhanced Token.

Context {App : Type}.
Variable handlers : Wire.Category -> list (Handler App).

Lemma connect_without_receive (env : ConnectEnv) (b : Bot App) :
  never_receives env ->
  _ws_connected_flag b = true \/ opens_unauthenticated env ->
  exists b' e evs,
    _ws_connect handlers env b = (b', Raise e, evs)
    /\ ws_running b' = ws_running b
    /\ _ws_connected_flag b' = true
    /\ forallb quiet evs = true.
Proof.
  intros Nr St. unfold _ws_connect. simpl.
  assert (Au : (forall k, (k < 3)%nat -> raises (open_outcome env k) = true)
               \/ exists e, auth_send env = Raise e).
  { destruct Nr as [Nr|Nr]; [left; exact Nr|].
    right. destruct (auth_send env) as [|e]; [discriminate Nr|]. exists e. reflexivity. }
  assert (Fl : (forall k, (k < 3)%nat -> raises (open_outcome env k) = true) ->
               _ws_connected_flag b = true).
  { intros All. destruct St as [St|((k & Hk & Op) & _)]; [exact St|].
    rewrite (All k Hk) in Op. discriminate Op. }
  destruct (open_outcome env 0) as [[]|e0] eqn:O0.
  { destruct Au as [All|(e & Au)].
    - specialize (All 0%nat ltac:(lia)). rewrite O0 in All. discriminate All.
    - rewrite Au. do 3 eexists. split; [reflexivity|]. simpl. auto. }
  destruct (open_outcome env 1) as [[]|e1] eqn:O1.
  { destruct Au as [All|(e & Au)].
    - specialize (All 1%nat ltac:(lia)). rewrite O1 in All. discriminate All.
    - rewrite Au. do 3 eexists. split; [reflexivity|]. simpl. auto. }
  destruct (open_outcome env 2) as [[]|e2] eqn:O2.
  { destruct Au as [All|(e & Au)].
    - specialize (All 2%nat ltac:(lia)). rewrite O2 in All. discriminate All.
    - rewrite Au. do 3 eexists. split; [reflexivity|]. simpl. auto. }
  do 3 eexists. split; [reflexivity|]. simpl.
  split; [reflexivity|]. split; [|reflexivity].
  apply Fl. intros k Hk.
  destruct k as [|[|[|k]]]; [rewrite O0|rewrite O1|rewrite O2|lia]; reflexivity.
Qed.

Lemma turn_without_receive (cfg : BotConfig) (env : IterEnv) (n : Z) (b : Bot App) :
  never_receives (connection env) ->
  _ws_connected_flag b = true \/ opens_unauthenticated (connection env) ->
  ws_running b = true ->
  exists b' evs,
    loop_body handlers cfg env n b = (b', n + 1, evs)
    /\ ws_running b' = true
    /\ _ws_connected_flag b' = true
    /\ forallb quiet evs = true.
Proof.
  intros Nr St Run.
  destruct (connect_without_receive (connection env) b Nr St)
    as (b' & e & evs & E & R & F & Q).
  unfold loop_body. rewrite E. rewrite R, Run, F. simpl.
  exists b', (evs ++ [LoopFailed e (n + 1)]).
  split; [reflexivity|]. split; [congruence|]. split; [exact F|].
  rewrite forallb_app, Q. reflexivity.
Qed.

Lemma turns_without_receive (cfg : BotConfig) (envs : list IterEnv) (n : Z) (b : Bot App) :
  Forall (fun env => never_receives (connection env)) envs ->
  _ws_connected_flag b = true ->
  ws_running b = true ->
  exists b' evs,
    ws_loop_from handlers cfg envs n b = (b', n + Z.of_nat (List.length envs), evs)
    /\ ws_running b' = true
    /\ _ws_connected_flag b' = true
    /\ forallb quiet evs = true.
Proof.
  revert n b. induction envs as [|env rest IH]; intros n b All Fl Run.
  { exists b, []. simpl. rewrite Z.add_0_r. auto. }
  apply List.Forall_cons_iff in All. destruct All as [Nr All].
  destruct (turn_without_receive cfg env n b Nr (or_introl Fl) Run)
    as (b1 & evs1 & E1 & R1 & F1 & Q1).
  destruct (IH (n + 1) b1 All F1 R1) as (b2 & evs2 & E2 & R2 & F2 & Q2).
  simpl ws_loop_from. rewrite Run, E1, E2.
  exists b2, (evs1 ++ evs2).
  replace (n + Z.of_nat (List.length (env :: rest)))
    with (n + 1 + Z.of_nat (List.length rest)) by (simpl List.length; lia).
  split; [reflexivity|].
  split; [exact R2|]. split; [exact F2|].
  rewrite forallb_app, Q1, Q2. reflexivity.
Qed.

(** X8 (bot_core.py, _ws_connect and _ws_loop): [_ws_connect] sets the
    connected flag before it sends the authentication frame and clears it
    only in the [finally] around the receive loop.  So after a turn that
    opens the socket but fails to send the frame, the flag stays set, and
    for as long as the following turns do not get to the receive loop
    either, the supervisor keeps running, counts the failures, and takes
    neither a backoff sleep nor the re-login, however many turns fail. *)
Theorem stale_connected_flag_suppresses_backoff (cfg : BotConfig) (first : IterEnv)
  (rest : list IterEnv) (n : Z) (b : Bot App) :
  ws_running b = true ->
  opens_unauthenticated (connection first) ->
  Forall (fun env => never_receives (connection env)) rest ->
  exists b' evs,
    ws_loop_from handlers cfg (first :: rest) n b
      = (b', n + 1 + Z.of_nat (List.length rest), evs)
    /\ ws_running b' = true
    /\ _ws_connected_flag b' = true
    /\ forallb quiet evs = true.
Proof.
  intros Run Op All.
  assert (Nr : never_receives (connection first)) by (right; apply Op).
  destruct (turn_without_receive cfg first n b Nr (or_intror Op) Run)
    as (b1 & evs1 & E1 & R1 & F1 & Q1).
  destruct (turns_without_receive cfg rest (n + 1) b1 All F1 R1)
    as (b2 & evs2 & E2 & R2 & F2 & Q2).
  simpl ws_loop_from. rewrite Run, E1, E2.
  exists b2, (evs1 ++ evs2).
  split; [reflexivity|]. split; [exact R2|]. split; [exact F2|].
  rewrite forallb_app, Q1, Q2. reflexivity.
Qed.

End StaleFlag.
(** *** The token guard at concrete inputs *)

Section TokenConcrete.
Import Py Enhanced Token TokenCases Scenario.

Lemma login_success_witness :
  login (jwt_login 3600) "ENLT" "114514" PC new_session
  = (fst (fst (login (jwt_login 3600) "ENLT" "114514" PC new_session)), true, [POST_login])
  /\ exists code data,
       login_reply (jwt_login 3600) = LoginHttp 200 code data /\ eq_int code 200 = true
       /\ access_token (fst (fst (login (jwt_login 3600) "ENLT" "114514" PC new_session)))
          = Some (accessToken data)
       /\ user_id (fst (fst (login (jwt_login 3600) "ENLT" "114514" PC new_session)))
          <> JNull.
Proof.
  assert (E : login (jwt_login 3600) "ENLT" "114514" PC new_session
              = (fst (fst (login (jwt_login 3600) "ENLT" "114514" PC new_session)),
                 true, [POST_login])) by reflexivity.
  split; [exact E|].
  destruct (login_success_means_resolved_subject _ _ _ _ _ _ _ E)
    as (code & data & A & B & D & _ & _ & T).
  destruct (T eq_refl) as (C & _).
  exists code, data. auto.
Defined.

Lemma login_subject_witness :
  exists s',
    login (jwt_login 3600) "ENLT" "114514" PC new_session = (s', true, [POST_login])
    /\ user_id s' = JInt 35896
    /\ access_token s' = Some "head.body.sig"%string.
Proof.
  apply (login_reads_subject_from_token (jwt_login 3600) "ENLT" "114514" PC new_session
           (JInt 200)
           {| accessToken := "head.body.sig"; refreshToken := "refresh";
              accessTokenExpiresIn := 3600; refreshTokenExpiresIn := 86400 |}
           "head" "body" "sig" [("sub"%string, JStr "35896")] (JStr "35896") 35896).
  - reflexivity.
  - reflexivity.
  - reflexivity.
  - reflexivity.
  - right; left. split; reflexivity.
  - reflexivity.
  - reflexivity.
Defined.

Lemma refresh_cooldown_witness :
  refresh_token_if_needed willing_refresh
    (fst (fst (refresh_token_if_needed willing_refresh new_session)))
  = (fst (fst (refresh_token_if_needed willing_refresh new_session)), true, []).
Proof.
  apply (refresh_success_starts_cooldown willing_refresh willing_refresh new_session
           _ [POST_refresh]).
  - reflexivity.
  - reflexivity.
  - discriminate.
  - reflexivity.
Defined.

Lemma ensure_valid_token_starved_witness :
  exists s',
    probe_all [probe_at 20; probe_at 35] new_session = (s', [true; true], [])
    /\ access_token s' = None.
Proof.
  apply (ensure_valid_token_starved [probe_at 20; probe_at 35] 5 new_session).
  - reflexivity.
  - reflexivity.
  - simpl. lra.
  - simpl. lra.
  - simpl. lra.
Defined.

Lemma relogin_short_lived_witness :
  snd (fst (relogin short_lived started)) = true
  /\ ws_running (fst (fst (relogin short_lived started))) = false.
Proof.
  split; [reflexivity|].
  destruct (relogin_outcome short_lived started
              (fst (fst (relogin short_lived started))) true
              (snd (relogin short_lived started)) eq_refl) as (_ & _ & H).
  destruct (H eq_refl eq_refl eq_refl eq_refl) as (R & _).
  exact R.
Defined.

Lemma stale_connected_flag_witness :
  exists b' evs,
    ws_loop_from no_handlers default_config (unauthenticated :: repeat unreachable 20) 0
      started = (b', 21, evs)
    /\ ws_running b' = true
    /\ _ws_connected_flag b' = true
    /\ forallb quiet evs = true.
Proof.
  apply (stale_connected_flag_suppresses_backoff no_handlers default_config
           unauthenticated (repeat unreachable 20) 0 started).
  - reflexivity.
  - split; [exists 0%nat; split; [lia | reflexivity] | reflexivity].
  - apply List.Forall_forall. intros env H. apply repeat_spec in H. subst env.
    left. intros k _. reflexivity.
Defined.

End TokenConcrete.

(** *** The API client *)

Section ApiClient.
Import Py Enhanced Token Api.

Lemma sends_auth (calls : list call) : sends (map Auth calls) = 0%nat.
Proof. unfold sends. induction calls; simpl; auto. Qed.

Lemma sends_app (a b : list traffic) : sends (a ++ b) = (sends a + sends b)%nat.
Proof. unfold sends. rewrite List.filter_app, List.length_app. reflexivity. Qed.

Lemma read_body_ok (r : HttpReply) (data : json) :
  read_body r = inl data ->
  exists d, data = JDict d /\ eq_int (dict_get d "code") 200 = true.
Proof.
  unfold read_body. destruct r as [e|status body]; [discriminate|].
  destruct (Wire.json_loads body) as [v|e]; simpl; [|discriminate].
  destruct v; simpl; try discriminate.
  destruct (eq_int (dict_get d "code") 200) eqn:E; simpl; [|discriminate].
  intros H. inversion H; subst. exists d. auto.
Qed.

(** X14 (api_client.py, APIClient.request): a value is returned only if it
    is an object whose code equals 200.  The request goes out at most
    twice; it goes out a second time only after a 401 answer, with the
    token check stamped at that instant; and it does not go out at all
    when the token guard reports an invalid token. *)
Theorem request_discipline (path : string) (env : RequestEnv) (c : APIClient)
  (s : Session) :
  let '(c', s', outcome, tr) := request path env c s in
  (forall data, outcome = inl data ->
     exists d, data = JDict d /\ eq_int (dict_get d "code") 200 = true)
  /\ (sends tr <= 2)%nat
  /\ (sends tr = 2%nat ->
      (exists body, reply env = Http 401 body)
      /\ _last_token_check c' = unauthorized_time env)
  /\ (outcome = inr TokenInvalid -> sends tr = 0%nat).
Proof.
  unfold request.
  destruct (if negb (String.eqb path "/api/login")
            then ensure_valid_token (check_time env) (check_refresh env) s
            else (s, true, [])) as [[s1 valid] calls].
  destruct valid; lazy beta iota zeta; unfold negb at 1; lazy beta iota zeta.
  2: { rewrite sends_auth. repeat split; intros; try congruence; try lia. }
  assert (S1 : sends (map Auth calls ++ [Request (header_token s1)]) = 1%nat).
  { rewrite sends_app, sends_auth. reflexivity. }
  destruct (reply env) as [e|status body] eqn:R; lazy beta iota zeta.
  { rewrite S1. repeat split; intros; try congruence; try lia. }
  destruct (status =? 401) eqn:St; lazy beta iota zeta.
  - apply Z.eqb_eq in St. subst status.
    destruct (Token.Qlt_bool _ 30); lazy beta iota zeta.
    { rewrite S1. repeat split; intros; try congruence; try lia. }
    destruct (refresh_token_if_needed (retry_refresh env) s1) as [[s2 ok] calls2].
    destruct ok; lazy beta iota zeta.
    + rewrite (sends_app _ (map Auth calls2 ++ _)), (sends_app (map Auth calls2)).
      rewrite sends_auth, S1.
      split; [apply read_body_ok|]. split; [unfold sends; simpl; lia|]. split.
      * intros _. split; [exists body; reflexivity | reflexivity].
      * destruct (read_body (retry_reply env)) as [|f] eqn:B; [discriminate|].
        intros H. exfalso. unfold read_body in B.
        destruct (retry_reply env) as [e|st bd]; [inversion B; subst; discriminate H|].
        destruct (let? data := Wire.json_loads bd in
                  let? code := get data "code" in Ret (data, code)) as [[dt cd]|e];
          [|inversion B; subst; discriminate H].
        destruct (negb (eq_int cd 200)); inversion B; subst; discriminate H.
    + rewrite sends_app, sends_auth, S1. simpl.
      repeat split; intros; try congruence; try lia.
  - rewrite S1.
    split; [apply read_body_ok|]. split; [lia|]. split; [lia|].
    intros H. exfalso. unfold read_body in H.
    destruct (let? data := Wire.json_loads body in
              let? code := get data "code" in Ret (data, code)) as [[dt cd]|e];
      [|discriminate H].
    destruct (negb (eq_int cd 200)); discriminate H.
Qed.

End ApiClient.

(** *** The heartbeat task *)

Section HeartbeatTask.
Import Py Enhanced Heartbeat.

Context {App : Type}.

Lemma three_in_a_row_tail (a : bool) (l : list bool) :
  three_in_a_row (a :: l) = false -> three_in_a_row l = false.
Proof. simpl. intros H. apply orb_false_iff in H. apply H. Qed.

Lemma three_in_a_row_suffix (l1 l2 : list bool) :
  three_in_a_row (l1 ++ l2) = false -> three_in_a_row l2 = false.
Proof.
  induction l1 as [|a l1 IH]; simpl app; intros H; [exact H|].
  apply IH, (three_in_a_row_tail a), H.
Qed.

Lemma behind_failure (c : nat) (e : exn) (rest : list (res unit)) :
  three_in_a_row (behind c (Raise e :: rest)) = false ->
  (c < 2)%nat /\ three_in_a_row (behind (S c) rest) = false.
Proof.
  unfold behind. intros H. split.
  - destruct c as [|[|c]]; [lia | lia |]. exfalso.
    simpl in H. destruct c; simpl in H; discriminate H.
  - replace (repeat true (S c) ++ map raises rest)
      with (repeat true c ++ map raises (Raise e :: rest)); [exact H|].
    simpl map. change (true :: map raises rest) with ([true] ++ map raises rest).
    rewrite app_assoc. f_equal. rewrite <- repeat_cons. reflexivity.
Qed.

Lemma behind_success (c : nat) (u : unit) (rest : list (res unit)) :
  three_in_a_row (behind c (Ret u :: rest)) = false ->
  three_in_a_row (behind 0 rest) = false.
Proof.
  unfold behind. intros H. apply three_in_a_row_suffix in H.
  apply (three_in_a_row_tail false). exact H.
Qed.

Lemma heartbeat_loop_tolerates (interval : Z) (sends : list (res unit)) (c : nat)
  (b : Bot App) :
  ws_running b = true -> _ws_connected_flag b = true ->
  existsb closed sends = false ->
  three_in_a_row (behind c sends) = false ->
  exists evs,
    heartbeat_loop interval sends (Z.of_nat c) b = (b, evs)
    /\ List.length (List.filter is_send evs) = List.length sends.
Proof.
  intros Run Fl. revert c.
  induction sends as [|outcome rest IH]; intros c Cl Th.
  { exists []. split; reflexivity. }
  simpl in Cl. apply orb_false_iff in Cl. destruct Cl as [Cl0 Cl].
  simpl heartbeat_loop. rewrite Run, Fl. simpl andb. cbv iota.
  destruct outcome as [u|e].
  - apply behind_success in Th.
    destruct (IH 0%nat Cl Th) as (evs & E & L).
    change (Z.of_nat 0) with 0 in E. rewrite E.
    exists (Sent :: Slept interval :: evs). split; [reflexivity|].
    simpl. rewrite L. reflexivity.
  - apply behind_failure in Th. destruct Th as [Hc Th].
    destruct (IH (S c) Cl Th) as (evs & E & L).
    replace (Z.of_nat c + 1) with (Z.of_nat (S c)) by lia.
    simpl in Cl0. rewrite Cl0.
    assert (G : (max_consecutive_failures <=? Z.of_nat (S c)) = false)
      by (apply Z.leb_gt; unfold max_consecutive_failures; lia).
    rewrite G, E.
    destruct (is_TimeoutError e).
    + exists (SendFailed e :: evs). split; [reflexivity|]. simpl. rewrite L. reflexivity.
    + exists (SendFailed e :: Slept 2 :: evs). split; [reflexivity|].
      simpl. rewrite L. reflexivity.
Qed.

(** X9 (bot_core.py, _ws_heartbeat): as long as no send meets a closed
    connection and no three sends in a row fail, the heartbeat task sends
    every heartbeat and changes nothing in the bot: a send that returns
    resets the failure count, so any number of isolated failures and pairs
    of failures is survived. *)
Theorem heartbeat_survives_isolated_failures (interval : Z) (sends : list (res unit))
  (b : Bot App) :
  ws_running b = true -> _ws_connected_flag b = true ->
  tolerable sends ->
  exists evs,
    _ws_heartbeat interval sends b = (b, evs)
    /\ List.length (List.filter is_send evs) = List.length sends.
Proof.
  intros Run Fl [Cl Th].
  apply (heartbeat_loop_tolerates interval sends 0 b Run Fl Cl Th).
Qed.

Lemma heartbeat_loop_gives_up (interval : Z) (pre post : list (res unit))
  (e1 e2 e3 : exn) (c : nat) (b : Bot App) :
  ws_running b = true -> _ws_connected_flag b = true ->
  existsb closed (pre ++ [Raise e1; Raise e2]) = false ->
  three_in_a_row (behind c (pre ++ [Raise e1; Raise e2])) = false ->
  exists evs,
    heartbeat_loop interval (pre ++ Raise e1 :: Raise e2 :: Raise e3 :: post)
      (Z.of_nat c) b = (set_ws_connected_flag false b, evs)
    /\ List.length (List.filter is_send evs) = (List.length pre + 3)%nat.
Proof.
  intros Run Fl. revert c.
  induction pre as [|outcome rest IH]; intros c Cl Th.
  - assert (c = 0%nat) as ->.
    { destruct c as [|[|c]]; [reflexivity | discriminate Th |].
      destruct c; discriminate Th. }
    simpl in Cl. apply orb_false_iff in Cl. destruct Cl as [C1 Cl].
    apply orb_false_iff in Cl. destruct Cl as [C2 _].
    simpl. rewrite Run, Fl. simpl. rewrite C1, C2.
    destruct (is_TimeoutError e1), (is_TimeoutError e2), (is_TimeoutError e3),
      (is_ConnectionClosed e3); eexists; split; reflexivity.
  - simpl in Cl. apply orb_false_iff in Cl. destruct Cl as [Cl0 Cl].
    rewrite <- app_comm_cons in Th |- *.
    simpl heartbeat_loop. rewrite Run, Fl. simpl andb. cbv iota.
    destruct outcome as [u|e].
    + apply behind_success in Th.
      destruct (IH 0%nat Cl Th) as (evs & E & L).
      change (Z.of_nat 0) with 0 in E. rewrite E.
      exists (Sent :: Slept interval :: evs). split; [reflexivity|].
      simpl. rewrite L. reflexivity.
    + apply behind_failure in Th. destruct Th as [Hc Th].
      destruct (IH (S c) Cl Th) as (evs & E & L).
      replace (Z.of_nat c + 1) with (Z.of_nat (S c)) by lia.
      simpl in Cl0. rewrite Cl0.
      assert (G : (max_consecutive_failures <=? Z.of_nat (S c)) = false)
        by (apply Z.leb_gt; unfold max_consecutive_failures; lia).
      rewrite G, E.
      destruct (is_TimeoutError e).
      * exists (SendFailed e :: evs). split; [reflexivity|]. simpl. rewrite L. reflexivity.
      * exists (SendFailed e :: Slept 2 :: evs). split; [reflexivity|].
        simpl. rewrite L. reflexivity.
Qed.

(** X10 (bot_core.py, _ws_heartbeat): the first time three sends in a row
    fail, the task clears the connected flag and ends: the third failed
    send is its last, whatever would have come after it, and nothing else
    in the bot is changed. *)
Theorem heartbeat_gives_up_after_three_failures (interval : Z)
  (pre post : list (res unit)) (e1 e2 e3 : exn) (b : Bot App) :
  ws_running b = true -> _ws_connected_flag b = true ->
  tolerable (pre ++ [Raise e1; Raise e2]) ->
  exists evs,
    _ws_heartbeat interval (pre ++ [Raise e1; Raise e2; Raise e3] ++ post) b
    = (set_ws_connected_flag false b, evs)
    /\ List.length (List.filter is_send evs) = (List.length pre + 3)%nat.
Proof.
  intros Run Fl [Cl Th].
  apply (heartbeat_loop_gives_up interval pre post e1 e2 e3 0 b Run Fl Cl Th).
Qed.

End HeartbeatTask.

(** *** The table of muted groups *)

Section MutedGroups.
Import Py Mute.

Lemma lookup_assign_eq (g : Z) (v : MuteStatus) (d : Table) :
  lookup g (assign g v d) = Some v.
Proof.
  induction d as [|[g' st] d IH]; simpl.
  - rewrite Z.eqb_refl. reflexivity.
  - destruct (g' =? g) eqn:E; simpl; rewrite E; [reflexivity | exact IH].
Qed.

Lemma lookup_assign_ne (g g' : Z) (v : MuteStatus) (d : Table) :
  g' <> g -> lookup g' (assign g v d) = lookup g' d.
Proof.
  intros N. induction d as [|[k st] d IH]; simpl.
  - destruct (g =? g') eqn:E; [apply Z.eqb_eq in E; congruence | reflexivity].
  - destruct (k =? g) eqn:E; simpl.
    + apply Z.eqb_eq in E. subst k.
      destruct (g =? g') eqn:E'; [apply Z.eqb_eq in E'; congruence | reflexivity].
    + destruct (k =? g'); [reflexivity | exact IH].
Qed.

Lemma lookup_remove_ne (g g' : Z) (d : Table) :
  g' <> g -> lookup g' (remove g d) = lookup g' d.
Proof.
  intros N. induction d as [|[k st] d IH]; simpl; [reflexivity|].
  destruct (k =? g) eqn:E; simpl.
  - apply Z.eqb_eq in E. subst k.
    destruct (g =? g') eqn:E'; [apply Z.eqb_eq in E'; congruence | reflexivity].
  - destruct (k =? g'); [reflexivity | exact IH].
Qed.

Lemma lookup_absent (g : Z) (d : Table) : ~ In g (map fst d) -> lookup g d = None.
Proof.
  induction d as [|[k st] d IH]; simpl; intros N; [reflexivity|].
  destruct (k =? g) eqn:E.
  - apply Z.eqb_eq in E. tauto.
  - apply IH. tauto.
Qed.

Lemma lookup_remove_eq (g : Z) (d : Table) :
  keys_unique d -> lookup g (remove g d) = None.
Proof.
  unfold keys_unique. induction d as [|[k st] d IH]; simpl; intros U; [reflexivity|].
  apply List.NoDup_cons_iff in U. destruct U as [N U].
  destruct (k =? g) eqn:E; simpl.
  - apply Z.eqb_eq in E. subst k. apply lookup_absent, N.
  - rewrite E. apply IH, U.
Qed.

Lemma keys_assign (g : Z) (v : MuteStatus) (d : Table) (k : Z) :
  In k (map fst (assign g v d)) <-> k = g \/ In k (map fst d).
Proof.
  induction d as [|[g' st] d IH]; simpl.
  - intuition.
  - destruct (g' =? g) eqn:E; simpl.
    + apply Z.eqb_eq in E. subst g'. intuition.
    + rewrite IH. intuition.
Qed.

Lemma assign_keys_unique (g : Z) (v : MuteStatus) (d : Table) :
  keys_unique d -> keys_unique (assign g v d).
Proof.
  unfold keys_unique. induction d as [|[g' st] d IH]; simpl; intros U.
  - constructor; [intros [] | constructor].
  - apply List.NoDup_cons_iff in U. destruct U as [N U].
    destruct (g' =? g) eqn:E; simpl.
    + constructor; assumption.
    + constructor; [|apply IH, U].
      rewrite keys_assign. intros [->|I]; [|tauto].
      rewrite Z.eqb_refl in E. discriminate E.
Qed.

(** X11 (bot_core.py, MessageModule._set_group_muted and _is_group_muted):
    a group recorded as muted at [since] is reported muted for exactly the
    next 3600 seconds; the first check after that removes the entry, and
    the group then counts as not muted at any instant.  No other group's
    entry is touched. *)
Theorem mute_expires_after_an_hour (d : Table) (group_id : Z) (since now : Q) :
  keys_unique d ->
  let d1 := _set_group_muted since group_id true d in
  let '(d2, answer) := _is_group_muted now group_id d1 in
  answer = Qle_bool (now - since) 3600
  /\ (answer = true -> d2 = d1)
  /\ (answer = false -> forall later, _is_group_muted later group_id d2 = (d2, false))
  /\ (forall other, other <> group_id -> lookup other d2 = lookup other d).
Proof.
  intros U. simpl. unfold _is_group_muted at 1.
  rewrite lookup_assign_eq. simpl.
  change mute_check_interval with 3600%Q.
  destruct (Qle_bool (now - since) 3600) eqn:E; simpl.
  - split; [reflexivity|]. split; [reflexivity|]. split; [discriminate|].
    intros other N. apply lookup_assign_ne, N.
  - split; [reflexivity|]. split; [discriminate|]. split.
    + intros _ later. unfold _is_group_muted.
      rewrite lookup_remove_eq; [reflexivity|].
      apply assign_keys_unique, U.
    + intros other N. rewrite lookup_remove_ne by exact N.
      apply lookup_assign_ne, N.
Qed.

Lemma scan_live (now : Q) (items d : Table) (acc : list Z) :
  existsb (expired now) items = false ->
  scan now items d acc = (d, Ret (acc ++ flagged items)).
Proof.
  revert acc. induction items as [|[g st] items IH]; intros acc Ex.
  - unfold flagged. simpl. rewrite app_nil_r. reflexivity.
  - simpl in Ex. apply orb_false_iff in Ex. destruct Ex as [E0 Ex].
    unfold expired in E0. simpl in E0. unfold flagged. simpl.
    destruct (muted st); simpl in *.
    + apply negb_false_iff in E0. rewrite E0, (IH _ Ex).
      unfold flagged. rewrite <- app_assoc. reflexivity.
    + apply IH, Ex.
Qed.

Lemma scan_expired (now : Q) (items d : Table) (acc : list Z) :
  existsb (expired now) items = true ->
  exists live g st rest,
    items = live ++ (g, st) :: rest
    /\ existsb (expired now) live = false
    /\ expired now (g, st) = true
    /\ scan now items d acc
       = (remove g d, Raise (RuntimeError "dictionary changed size during iteration")).
Proof.
  revert acc. induction items as [|[g st] items IH]; intros acc Ex; [discriminate Ex|].
  simpl in Ex. destruct (expired now (g, st)) eqn:E0.
  - exists [], g, st, items. split; [reflexivity|]. split; [reflexivity|].
    split; [exact E0|]. unfold expired in E0. simpl in *.
    destruct (muted st); [|discriminate E0]. simpl in E0.
    apply negb_true_iff in E0. rewrite E0. reflexivity.
  - simpl in Ex.
    unfold expired in E0. simpl in E0.
    destruct (muted st) eqn:M; simpl in E0.
    + apply negb_false_iff in E0.
      destruct (IH (acc ++ [g]) Ex) as (live & g' & st' & rest & -> & L & X & Sc).
      exists ((g, st) :: live), g', st', rest.
      split; [reflexivity|]. split.
      { simpl. unfold expired at 1. simpl. rewrite M, E0. exact L. }
      split; [exact X|]. simpl. rewrite M, E0. exact Sc.
    + destruct (IH acc Ex) as (live & g' & st' & rest & -> & L & X & Sc).
      exists ((g, st) :: live), g', st', rest.
      split; [reflexivity|]. split.
      { simpl. unfold expired at 1. simpl. rewrite M. exact L. }
      split; [exact X|]. simpl. rewrite M. exact Sc.
Qed.

(** X12 (bot_core.py, MessageModule.get_muted_groups): while no entry has
    run out, the call returns the muted groups in the order of the dict and
    leaves the dict alone.  As soon as one entry has run out, the call
    removes the first such entry inside its own loop over the dict and
    ends with the RuntimeError that the dict iterator raises for a dict
    whose size changed: no list is returned. *)
Theorem get_muted_groups_outcome (now : Q) (d : Table) :
  (existsb (expired now) d = false ->
   get_muted_groups now d = (d, Ret (flagged d)))
  /\ (existsb (expired now) d = true ->
      exists live group_id status rest,
        d = live ++ (group_id, status) :: rest
        /\ existsb (expired now) live = false
        /\ expired now (group_id, status) = true
        /\ get_muted_groups now d
           = (remove group_id d,
              Raise (RuntimeError "dictionary changed size during iteration"))).
Proof.
  split; intros Ex.
  - unfold get_muted_groups. rewrite (scan_live now d d [] Ex). reflexivity.
  - apply (scan_expired now d d [] Ex).
Qed.

Lemma lookup_member (g : Z) (st : MuteStatus) (d : Table) :
  keys_unique d -> In (g, st) d -> lookup g d = Some st.
Proof.
  unfold keys_unique. induction d as [|[k v] d IH]; simpl; intros U H; [contradiction|].
  apply List.NoDup_cons_iff in U. destruct U as [N U].
  destruct H as [H|H].
  - inversion H; subst. rewrite Z.eqb_refl. reflexivity.
  - destruct (k =? g) eqn:E.
    + apply Z.eqb_eq in E. subst k. exfalso. apply N.
      apply in_map_iff. exists (g, st). split; [reflexivity | exact H].
    + apply IH; assumption.
Qed.

Lemma lookup_found (g : Z) (st : MuteStatus) (d : Table) :
  lookup g d = Some st -> In (g, st) d.
Proof.
  induction d as [|[k v] d IH]; simpl; intros H; [discriminate H|].
  destruct (k =? g) eqn:E.
  - apply Z.eqb_eq in E. inversion H; subst. left; reflexivity.
  - right. apply IH, H.
Qed.

(** X13 (bot_core.py, get_muted_groups against _is_group_muted): whenever
    [get_muted_groups] returns a list, the dict is unchanged and the list
    holds exactly the groups that [_is_group_muted] reports as muted at the
    same instant. *)
Theorem muted_groups_agree (now : Q) (d d' : Table) (groups : list Z) :
  keys_unique d ->
  get_muted_groups now d = (d', Ret groups) ->
  d' = d
  /\ forall group_id, In group_id groups <-> _is_group_muted now group_id d = (d, true).
Proof.
  intros U E.
  destruct (existsb (expired now) d) eqn:Ex.
  { destruct (scan_expired now d d [] Ex) as (? & ? & ? & ? & _ & _ & _ & R).
    unfold get_muted_groups in E. rewrite R in E. discriminate E. }
  unfold get_muted_groups in E. rewrite (scan_live now d d [] Ex) in E.
  inversion E; subst. split; [reflexivity|].
  intros g. unfold flagged, _is_group_muted. rewrite in_map_iff. split.
  - intros ([g' st] & <- & H). apply filter_In in H. destruct H as [H M]. simpl in *.
    rewrite (lookup_member g' st d' U H), M. simpl.
    assert (X : expired now (g', st) = false).
    { rewrite <- not_true_iff_false. intros X.
      rewrite <- not_true_iff_false in Ex. apply Ex.
      apply existsb_exists. exists (g', st). split; assumption. }
    unfold expired in X. simpl in X. rewrite M in X. simpl in X. rewrite X. reflexivity.
  - destruct (lookup g d') as [st|] eqn:L; [|discriminate].
    destruct (muted st) eqn:M; simpl; [|discriminate].
    intros _. exists (g, st). split; [reflexivity|].
    apply filter_In. split; [apply lookup_found, L | exact M].
Qed.

End MutedGroups.

(** *** The heartbeat and the muted groups at concrete inputs *)

Section BotConcrete.
Import Py Enhanced Heartbeat Mute BotCases.

Lemma heartbeat_survives_witness :
  exists evs,
    _ws_heartbeat 15 flaky_sends connected = (connected, evs)
    /\ List.length (List.filter is_send evs) = 6%nat.
Proof.
  apply (heartbeat_survives_isolated_failures 15 flaky_sends connected).
  - reflexivity.
  - reflexivity.
  - split; reflexivity.
Defined.

Lemma heartbeat_gives_up_witness :
  exists evs,
    _ws_heartbeat 15
      ([Raise TimeoutError; Ret tt]
       ++ [Raise TimeoutError; Raise TimeoutError; Raise (RuntimeError "send failed")]
       ++ [Ret tt; Ret tt]) connected
    = (set_ws_connected_flag false connected, evs)
    /\ List.length (List.filter is_send evs) = 5%nat.
Proof.
  apply (heartbeat_gives_up_after_three_failures 15 [Raise TimeoutError; Ret tt]
           [Ret tt; Ret tt] TimeoutError TimeoutError (RuntimeError "send failed")
           connected).
  - reflexivity.
  - reflexivity.
  - split; reflexivity.
Defined.

Lemma mute_expires_witness :
  _is_group_muted 3700 1 (_set_group_muted 100 1 true []) = (_set_group_muted 100 1 true [], true)
  /\ snd (_is_group_muted 3701 1 (_set_group_muted 100 1 true [])) = false.
Proof.
  pose proof (mute_expires_after_an_hour [] 1 100 3700 (List.NoDup_nil _)) as H1.
  pose proof (mute_expires_after_an_hour [] 1 100 3701 (List.NoDup_nil _)) as H2.
  cbv zeta in H1, H2.
  destruct (_is_group_muted 3700 1 (_set_group_muted 100 1 true [])) as [d2 a] eqn:E1.
  destruct (_is_group_muted 3701 1 (_set_group_muted 100 1 true [])) as [d3 a'] eqn:E2.
  destruct H1 as (A1 & B1 & _). destruct H2 as (A2 & _).
  split.
  - rewrite A1 in *. rewrite (B1 eq_refl). reflexivity.
  - exact A2.
Defined.

Lemma get_muted_groups_witness :
  get_muted_groups 3700 two_muted = (two_muted, Ret [1; 2])
  /\ exists live group_id status rest,
       two_muted = live ++ (group_id, status) :: rest
       /\ existsb (expired 3701) live = false
       /\ expired 3701 (group_id, status) = true
       /\ get_muted_groups 3701 two_muted
          = (remove group_id two_muted,
             Raise (RuntimeError "dictionary changed size during iteration")).
Proof.
  split.
  - apply (proj1 (get_muted_groups_outcome 3700 two_muted)). reflexivity.
  - apply (proj2 (get_muted_groups_outcome 3701 two_muted)). reflexivity.
Defined.

Lemma muted_groups_agree_witness :
  two_muted = two_muted
  /\ forall group_id,
       In group_id [1; 2] <-> _is_group_muted 3700 group_id two_muted = (two_muted, true).
Proof.
  apply (muted_groups_agree 3700 two_muted two_muted [1; 2]).
  - repeat constructor; simpl; intuition discriminate.
  - reflexivity.
Defined.

End BotConcrete.

(** *** Levels and labels *)

Section Levels.
Import Py Level Progress.

Lemma round_half_square (l : Z) : round_half (l * l) = l * l / 2.
Proof.
  unfold round_half. rewrite Z.even_mul.
  destruct (Z.even l) eqn:E; simpl; [reflexivity|].
  assert (O : Z.odd l = true) by (rewrite <- Z.negb_even, E; reflexivity).
  apply Z.odd_spec in O. destruct O as [m ->].
  replace ((2 * m + 1) * (2 * m + 1) - 1) with ((2 * (m * m + m)) * 2) by ring.
  rewrite Z.div_mul by lia.
  rewrite Z.even_mul. simpl.
  replace ((2 * m + 1) * (2 * m + 1)) with (1 + (2 * (m * m + m)) * 2) by ring.
  rewrite Z.div_add by lia. reflexivity.
Qed.

Lemma round_half_square_nonneg (l : Z) : 0 <= round_half (l * l).
Proof. rewrite round_half_square. apply Z.div_pos; [nia | lia]. Qed.

Lemma round_half_square_pos (l : Z) : 2 <= l -> 1 <= round_half (l * l).
Proof.
  intros H. rewrite round_half_square.
  apply Z.div_le_lower_bound; [lia | nia].
Qed.

Lemma range_last (a b : Z) : a <= b -> range a (b + 1) = range a b ++ [b].
Proof.
  intros H. unfold range.
  replace (Z.to_nat (b + 1 - a)) with (S (Z.to_nat (b - a))) by lia.
  rewrite seq_S, map_app. simpl. f_equal. f_equal. lia.
Qed.

Lemma exp_for_level_low (level : Z) : level <= 1 -> _calculate_exp_for_level level = 0.
Proof.
  intros H. unfold _calculate_exp_for_level.
  destruct (level <=? 1) eqn:E; [reflexivity|]. apply Z.leb_gt in E. lia.
Qed.

Lemma exp_for_level_succ (level : Z) :
  1 <= level ->
  _calculate_exp_for_level (level + 1)
  = _calculate_exp_for_level level + round_half (level * level).
Proof.
  intros H. unfold _calculate_exp_for_level.
  destruct (level + 1 <=? 1) eqn:E1; [apply Z.leb_le in E1; lia|].
  rewrite range_last by exact H. rewrite fold_left_app. simpl.
  destruct (level <=? 1) eqn:E; [|reflexivity].
  apply Z.leb_le in E. assert (level = 1) as -> by lia. reflexivity.
Qed.

Lemma exp_for_level_mono_step (level : Z) :
  _calculate_exp_for_level level <= _calculate_exp_for_level (level + 1).
Proof.
  destruct (Z_lt_le_dec level 1) as [L|L].
  - rewrite !exp_for_level_low by lia. lia.
  - rewrite exp_for_level_succ by exact L.
    pose proof (round_half_square_nonneg level). lia.
Qed.

Lemma exp_for_level_mono (a b : Z) :
  a <= b -> _calculate_exp_for_level a <= _calculate_exp_for_level b.
Proof.
  intros H. replace b with (a + Z.of_nat (Z.to_nat (b - a))) by lia.
  induction (Z.to_nat (b - a)) as [|n IH].
  - rewrite Z.add_0_r. lia.
  - replace (a + Z.of_nat (S n)) with (a + Z.of_nat n + 1) by lia.
    pose proof (exp_for_level_mono_step (a + Z.of_nat n)). lia.
Qed.

(** The loop, entered at [level] with the total needed to get there. *)
Lemma level_loop_brackets (fuel : nat) (exp level : Z) :
  1 <= level <= 999 -> (Z.to_nat (1000 - level) <= fuel)%nat ->
  (2 <= level -> _calculate_exp_for_level level <= exp) ->
  let lv := level_loop fuel exp level (_calculate_exp_for_level level) in
  level <= lv <= 1000
  /\ (2 <= lv -> _calculate_exp_for_level lv <= exp)
  /\ (lv <= 999 -> exp < _calculate_exp_for_level (lv + 1)).
Proof.
  revert level. induction fuel as [|fuel IH]; intros level Hl Hf Hlow; [exfalso; lia|].
  simpl. rewrite <- exp_for_level_succ by lia.
  destruct (_calculate_exp_for_level (level + 1) <=? exp) eqn:E.
  - apply Z.leb_le in E.
    destruct (999 <? level + 1) eqn:C.
    + apply Z.ltb_lt in C. split; [lia|]. split; [intros _; exact E | lia].
    + apply Z.ltb_ge in C.
      destruct (IH (level + 1)) as (A & B & D); [lia | lia | intros _; exact E |].
      split; [lia|]. split; assumption.
  - apply Z.leb_gt in E. split; [lia|]. split; [exact Hlow | intros _; exact E].
Qed.

Lemma level_brackets (exp : Z) :
  let lv := _calculate_level_from_exp exp in
  1 <= lv <= 1000
  /\ (2 <= lv -> _calculate_exp_for_level lv <= exp)
  /\ (lv <= 999 -> exp < _calculate_exp_for_level (lv + 1)).
Proof.
  assert (H := level_loop_brackets 999 exp 1 ltac:(lia) ltac:(simpl; lia) ltac:(lia)).
  unfold _calculate_level_from_exp.
  change (_calculate_exp_for_level 1) with 0 in H.
  revert H. generalize (level_loop 999 exp 1 0). intros lv (A & B & C).
  cbv zeta. split; [lia|]. split; assumption.
Qed.

(** X15 (app.py, _calculate_level_from_exp against
    _calculate_exp_for_level): the level computed from an experience value
    lies between 1 and 1000; it is 1 exactly for negative values, so that
    any user with experience 0 or more is at level 2 at least; and from
    level 2 on it is the level whose threshold the value has reached
    without reaching the next one. *)
Theorem level_brackets_experience (exp : Z) :
  let lv := _calculate_level_from_exp exp in
  1 <= lv <= 1000
  /\ (lv = 1 <-> exp < 0)
  /\ (2 <= lv -> _calculate_exp_for_level lv <= exp)
  /\ (lv <= 999 -> exp < _calculate_exp_for_level (lv + 1)).
Proof.
  pose proof (level_brackets exp) as H. cbv zeta in H |- *.
  revert H. generalize (_calculate_level_from_exp exp). intros lv (A & B & C).
  split; [exact A|]. split; [|split; assumption].
  split.
  - intros E. rewrite E in C. specialize (C ltac:(lia)).
    change (_calculate_exp_for_level (1 + 1)) with 0 in C. exact C.
  - intros N. destruct (Z.eq_dec lv 1) as [E|E]; [exact E|].
    specialize (B ltac:(lia)).
    pose proof (exp_for_level_mono 2 lv ltac:(lia)) as M.
    change (_calculate_exp_for_level 2) with 0 in M. lia.
Qed.

Lemma level_loop_ge (fuel : nat) (exp level total : Z) :
  level <= level_loop fuel exp level total.
Proof.
  revert level total. induction fuel as [|fuel IH]; intros level total; simpl; [lia|].
  destruct (_ <=? exp); [|lia].
  destruct (999 <? level + 1); [lia|].
  specialize (IH (level + 1) (total + round_half (level * level))). lia.
Qed.

Lemma level_loop_mono (fuel : nat) (exp1 exp2 level total : Z) :
  exp1 <= exp2 ->
  level_loop fuel exp1 level total <= level_loop fuel exp2 level total.
Proof.
  intros H. revert level total.
  induction fuel as [|fuel IH]; intros level total; simpl; [lia|].
  destruct (total + round_half (level * level) <=? exp1) eqn:E1.
  - apply Z.leb_le in E1.
    assert (E2 : (total + round_half (level * level) <=? exp2) = true)
      by (apply Z.leb_le; lia).
    rewrite E2. destruct (999 <? level + 1); [lia | apply IH].
  - destruct (total + round_half (level * level) <=? exp2); [|lia].
    destruct (999 <? level + 1); [lia|].
    pose proof (level_loop_ge fuel exp2 (level + 1)
                  (total + round_half (level * level))). lia.
Qed.

Local Ltac settle_comparisons :=
  repeat match goal with
  | |- context [?a <=? ?b] =>
      first [ rewrite (proj2 (Z.leb_le a b)) by lia
            | rewrite (proj2 (Z.leb_gt a b)) by lia ]
  end;
  reflexivity.

Local Ltac brackets l :=
  destruct (Z.leb_spec l 10);
  [|destruct (Z.leb_spec l 20);
    [|destruct (Z.leb_spec l 30);
      [|destruct (Z.leb_spec l 35);
        [|destruct (Z.leb_spec l 45);
          [|destruct (Z.leb_spec l 99)]]]]].

Lemma label_in_labels (level : Z) :
  1 <= level ->
  label_rank (get_user_label level)
  = if level <=? 10 then 0
    else if level <=? 20 then 1
    else if level <=? 30 then 2
    else if level <=? 35 then 3
    else if level <=? 45 then 4
    else if level <=? 99 then 5
    else 6.
Proof.
  intros H. unfold get_user_label, labels, label_in.
  brackets level.
  - settle_comparisons.
  - settle_comparisons.
  - settle_comparisons.
  - settle_comparisons.
  - settle_comparisons.
  - settle_comparisons.
  - destruct (Z.leb_spec level 999); settle_comparisons.
Qed.

(** X16 (app.py, _calculate_level_from_exp and get_user_label): more
    experience never gives a lower level, and never a lower label. *)
Theorem level_and_label_grow_with_experience (exp1 exp2 : Z) :
  exp1 <= exp2 ->
  _calculate_level_from_exp exp1 <= _calculate_level_from_exp exp2
  /\ label_rank (get_user_label (_calculate_level_from_exp exp1))
     <= label_rank (get_user_label (_calculate_level_from_exp exp2)).
Proof.
  intros H. unfold _calculate_level_from_exp.
  pose proof (level_loop_mono 999 exp1 exp2 1 0 H) as M.
  pose proof (level_loop_ge 999 exp1 1 0) as G.
  revert M G. generalize (level_loop 999 exp1 1 0) (level_loop 999 exp2 1 0).
  intros l1 l2 M G.
  split; [exact M|].
  rewrite !label_in_labels by lia.
  brackets l1; brackets l2; lia.
Qed.

Lemma exp_for_level_strict (level : Z) :
  2 <= level -> _calculate_exp_for_level level < _calculate_exp_for_level (level + 1).
Proof.
  intros H. rewrite exp_for_level_succ by lia.
  pose proof (round_half_square_pos level H). lia.
Qed.

Lemma level_unique (exp level : Z) :
  2 <= level <= 1000 ->
  _calculate_exp_for_level level <= exp ->
  (level <= 999 -> exp < _calculate_exp_for_level (level + 1)) ->
  _calculate_level_from_exp exp = level.
Proof.
  intros Hl Lo Hi.
  destruct (level_brackets exp) as (R & B & C).
  revert R B C. generalize (_calculate_level_from_exp exp). intros lv R B C.
  assert (N : 0 <= exp).
  { pose proof (exp_for_level_mono 2 level ltac:(lia)) as M.
    change (_calculate_exp_for_level 2) with 0 in M. lia. }
  assert (lv <> 1).
  { intros E. rewrite E in C. specialize (C ltac:(lia)).
    change (_calculate_exp_for_level (1 + 1)) with 0 in C. lia. }
  specialize (B ltac:(lia)).
  destruct (Z.lt_trichotomy lv level) as [L|[E|G]]; [|exact E|].
  - specialize (C ltac:(lia)).
    pose proof (exp_for_level_mono (lv + 1) level ltac:(lia)). lia.
  - specialize (Hi ltac:(lia)).
    pose proof (exp_for_level_mono (level + 1) lv ltac:(lia)). lia.
Qed.

(** X17 (app.py, _calculate_exp_for_level and _calculate_level_from_exp):
    for a level from 2 to 999 the two functions are inverse to each other:
    an experience value is at that level exactly when it has reached the
    level's threshold and not the next one; the threshold itself is at the
    level, one point less is at the level below, and the thresholds grow
    strictly. *)
Theorem level_thresholds (level : Z) :
  2 <= level <= 999 ->
  (forall exp,
     _calculate_level_from_exp exp = level
     <-> _calculate_exp_for_level level <= exp < _calculate_exp_for_level (level + 1))
  /\ _calculate_level_from_exp (_calculate_exp_for_level level) = level
  /\ (3 <= level ->
      _calculate_level_from_exp (_calculate_exp_for_level level - 1) = level - 1)
  /\ _calculate_exp_for_level level < _calculate_exp_for_level (level + 1).
Proof.
  intros Hl. pose proof (exp_for_level_strict level ltac:(lia)) as St.
  split; [|split; [|split]].
  - intros exp. split.
    + intros E. destruct (level_brackets exp) as (_ & B & C).
      rewrite E in B, C. split; [apply B | apply C]; lia.
    + intros [Lo Hi]. apply level_unique; [lia | exact Lo | intros _; exact Hi].
  - apply level_unique; [lia | lia | intros _; exact St].
  - intros H3. apply level_unique; [lia | |].
    + pose proof (exp_for_level_strict (level - 1) ltac:(lia)) as S'.
      replace (level - 1 + 1) with level in S' by lia. lia.
    + intros _. replace (level - 1 + 1) with level by lia. lia.
  - exact St.
Qed.

(** X18 (app.py, _calculate_exp_for_next_level against
    _calculate_exp_for_level): for the levels 1 to 1000, which are the ones
    [_calculate_level_from_exp] can return, the experience that leads from a
    level to the next is the difference of the two thresholds, and it is
    the square of the level halved and rounded down: [round] never rounds a
    halved square up.  (Python halves on a double; up to level 1000 the
    square is far below 2^53 and the double holds the half exactly.) *)
Theorem next_level_cost (level : Z) :
  1 <= level <= 1000 ->
  _calculate_exp_for_next_level level
  = _calculate_exp_for_level (level + 1) - _calculate_exp_for_level level
  /\ _calculate_exp_for_next_level level = level * level / 2.
Proof.
  intros [H _]. unfold _calculate_exp_for_next_level.
  destruct (level <? 1) eqn:E; [apply Z.ltb_lt in E; lia|].
  rewrite exp_for_level_succ by exact H.
  split; [lia | apply round_half_square].
Qed.

End Levels.
(** *** What one message does to the records *)

Section Accounting.
Import Py Level Progress.

Local Arguments _calculate_level_from_exp : simpl never.

Lemma get_user_data_before (u : Z) (s : LevelSystem) :
  snd (_get_user_data u s)
  = fill_defaults (default default_user_data (user_data s !! u)).
Proof. unfold _get_user_data. destruct (user_data s !! u); reflexivity. Qed.

Lemma detect_or_count_others (now t2 : Q) (u : Z) (m : Mono.Message) (r : UserData)
  (s1 : LevelSystem) (v : Z) :
  v <> u ->
  let '(s', _, _) := detect_or_count now t2 u m r s1 in
  user_data s' !! v = user_data s1 !! v
  /\ user_message_times s' !! v = user_message_times s1 !! v
  /\ spam_warnings s' !! v = spam_warnings s1 !! v
  /\ temp_blacklist s' !! v = temp_blacklist s1 !! v.
Proof.
  intros N. unfold detect_or_count.
  destruct (5 <=? List.length (window now s1 u))%nat.
  - unfold _handle_spam. simpl.
    destruct (default 0 (spam_warnings s1 !! u) + 1 =? 1); simpl.
    + rewrite !lookup_insert_ne by congruence. auto.
    + rewrite ?lookup_insert_ne, ?lookup_delete_ne by congruence.
      rewrite ?lookup_insert_ne by congruence. auto.
  - destruct (u_level (count_message now r) <? _); simpl;
      rewrite !lookup_insert_ne by congruence; auto.
Qed.

Lemma check_blacklist_others (now : Q) (u : Z) (s s1 : LevelSystem) (v : Z) :
  v <> u -> check_blacklist now u s = Some s1 ->
  user_data s1 = user_data s
  /\ user_message_times s1 = user_message_times s
  /\ spam_warnings s1 !! v = spam_warnings s !! v
  /\ temp_blacklist s1 !! v = temp_blacklist s !! v.
Proof.
  intros N. unfold check_blacklist.
  destruct (temp_blacklist s !! u) as [e|].
  - destruct (Qlt_bool now e); [discriminate|].
    intros E. inversion E; subst. simpl.
    rewrite !lookup_delete_ne by congruence. auto.
  - intros E. inversion E; subst. auto.
Qed.

(** X19 (app.py, LevelSystem.add_experience): in every state the guard can
    reach, a call that returns True has added exactly one point of
    experience and one message to the sender's record and has raised the
    stored level to the level of the new experience if that is higher; a
    call that returns False leaves the record as it was; and whatever the
    outcome, no record, window, warning or block of another sender is
    touched. *)
Theorem experience_accounting (now spam_now : Q) (u : Z) (m : Mono.Message)
  (s : LevelSystem) :
  reachable s ->
  let before := fill_defaults (default default_user_data (user_data s !! u)) in
  let '(s', counted, _) := add_experience now spam_now u m s in
  (exists after,
     user_data s' !! u = Some after
     /\ (counted = true ->
         u_exp after = u_exp before + 1
         /\ u_total_messages after = u_total_messages before + 1
         /\ u_level after
            = Z.max (u_level before) (_calculate_level_from_exp (u_exp before + 1))
         /\ u_points after = u_points before)
     /\ (counted = false -> after = before))
  /\ (forall v, v <> u ->
        user_data s' !! v = user_data s !! v
        /\ user_message_times s' !! v = user_message_times s !! v
        /\ spam_warnings s' !! v = spam_warnings s !! v
        /\ temp_blacklist s' !! v = temp_blacklist s !! v).
Proof.
  intros Re. apply reachable_inv in Re.
  cbv zeta. unfold add_experience.
  pose proof (get_user_data_inv u s Re) as I0.
  pose proof (get_user_data_facts u s) as G.
  pose proof (get_user_data_before u s) as Bf.
  destruct (_get_user_data u s) as [s0 r]. simpl in I0, Bf. subst r.
  set (before := fill_defaults (default default_user_data (user_data s !! u))) in *.
  destruct G as (Hu & Hc & Ht & Hw & Hb & Ho & _).
  pose proof (check_blacklist_facts now u s0 I0) as Ck.
  destruct (check_blacklist now u s0) as [s1|] eqn:CB.
  2: { split.
       - exists before. split; [exact Hu|]. split; [discriminate | reflexivity].
       - intros v N. rewrite (Ho v N), Ht, Hw, Hb. auto. }
  destruct Ck as (I1 & _ & B1 & W1 & U1 & T1).
  assert (Oth : forall v, v <> u ->
            user_data s1 !! v = user_data s !! v
            /\ user_message_times s1 !! v = user_message_times s !! v
            /\ spam_warnings s1 !! v = spam_warnings s !! v
            /\ temp_blacklist s1 !! v = temp_blacklist s !! v).
  { intros v N. destruct (check_blacklist_others now u s0 s1 v N CB) as (A & B & C & D).
    rewrite A, B, C, D, (Ho v N), Ht, Hw, Hb. auto. }
  assert (Hr : user_data s1 !! u = Some before) by (rewrite U1; exact Hu).
  assert (PA : let '(s', counted, _) := detect_or_count now spam_now u m before s1 in
               exists after,
                 user_data s' !! u = Some after
                 /\ (counted = true ->
                     u_exp after = u_exp before + 1
                     /\ u_total_messages after = u_total_messages before + 1
                     /\ u_level after
                        = Z.max (u_level before)
                            (_calculate_level_from_exp (u_exp before + 1))
                     /\ u_points after = u_points before)
                 /\ (counted = false -> after = before)).
  { unfold detect_or_count.
    destruct (5 <=? List.length (window now s1 u))%nat.
    - unfold _handle_spam. simpl. rewrite W1. simpl.
      exists before. split; [exact Hr|]. split; [discriminate | reflexivity].
    - destruct (u_level (count_message now before)
                <? _calculate_level_from_exp (u_exp (count_message now before))) eqn:L;
        simpl; rewrite lookup_insert_eq; eexists; (split; [reflexivity|]);
        (split; [intros _|discriminate]); simpl in *.
      + apply Z.ltb_lt in L. repeat split; try reflexivity. lia.
      + apply Z.ltb_ge in L. repeat split; try reflexivity. lia. }
  pose proof (fun v N => detect_or_count_others now spam_now u m before s1 v N) as D.
  destruct (detect_or_count now spam_now u m before s1) as [[s' ok] evs].
  split; [exact PA|].
  intros v N. destruct (D v N) as (A & B & C & E).
  destruct (Oth v N) as (A' & B' & C' & E').
  rewrite A, B, C, E. auto.
Qed.

End Accounting.

(** *** Levels at concrete inputs *)

Section LevelsConcrete.
Import Py Level Progress Scenario.

Lemma level_growth_witness :
  _calculate_level_from_exp 5 <= _calculate_level_from_exp 3000
  /\ label_rank (get_user_label (_calculate_level_from_exp 5))
     <= label_rank (get_user_label (_calculate_level_from_exp 3000)).
Proof. apply (level_and_label_grow_with_experience 5 3000). lia. Defined.

Lemma level_thresholds_witness :
  _calculate_exp_for_level 10 = 140
  /\ _calculate_level_from_exp 140 = 10
  /\ _calculate_level_from_exp 139 = 9.
Proof.
  destruct (level_thresholds 10 ltac:(lia)) as (_ & A & B & _).
  split; [reflexivity|]. split; [exact A | exact (B ltac:(lia))].
Defined.

Lemma next_level_cost_witness :
  _calculate_exp_for_next_level 5
  = _calculate_exp_for_level 6 - _calculate_exp_for_level 5
  /\ _calculate_exp_for_next_level 5 = 12.
Proof. apply (next_level_cost 5). lia. Defined.

Lemma experience_accounting_witness :
  exists after,
    user_data (fst (fst (add_experience 10 10 7 mono_text_message four_messages))) !! 7
    = Some after
    /\ u_exp after = 5 /\ u_level after = 3.
Proof.
  pose proof (experience_accounting 10 10 7 mono_text_message four_messages
                four_messages_reachable) as H.
  cbv zeta in H.
  destruct (add_experience 10 10 7 mono_text_message four_messages)
    as [[s' counted] evs] eqn:E.
  assert (C : counted = true).
  { apply (f_equal (fun x => snd (fst x))) in E. simpl in E. rewrite <- E.
    vm_compute. reflexivity. }
  destruct H as ((after & L & Ok & _) & _).
  destruct (Ok C) as (X & _ & Lv & _).
  exists after. split; [exact L|]. split.
  - rewrite X. vm_compute. reflexivity.
  - rewrite Lv. vm_compute. reflexivity.
Defined.

End LevelsConcrete.

(** *** Sign-in, exchange and lottery *)

Section PointsProperties.
Import Py Level Points.

Local Arguments _calculate_level_from_exp : simpl never.

Example probability_values :
  map probability lottery_config
  = [ 5764607523034235 # 576460752303423488;
      5764607523034235 # 288230376151711744;
      3602879701896397 # 72057594037927936;
      3602879701896397 # 36028797018963968;
      5404319552844595 # 36028797018963968;
      3602879701896397 # 18014398509481984;
      2116691824864133 # 4503599627370496 ]%Q.
Proof. vm_compute. reflexivity. Qed.

(** The sums as the interpreter computes them: 0.01, 0.03, 0.08, 0.18,
    0.32999999999999996, 0.53 and 1.0. *)
Example running_sums_values :
  running_sums 0 lottery_config
  = [ 5764607523034235 # 576460752303423488;
      1080863910568919 # 36028797018963968;
      5764607523034235 # 72057594037927936;
      3242591731706757 # 18014398509481984;
      2972375754064527 # 9007199254740992;
      2386907802506363 # 4503599627370496;
      1 ]%Q.
Proof. vm_compute. reflexivity. Qed.

Lemma pick_outcome (rand c : Q) (config : list Prize) :
  match pick rand c config with
  | Some prize => In prize config
  | None => Forall (fun sum => Qle_bool rand sum = false) (running_sums c config)
  end.
Proof.
  revert c. induction config as [|prize rest IH]; intros c; simpl.
  - constructor.
  - destruct (Qle_bool rand (float_add c (probability prize))) eqn:E.
    + left. reflexivity.
    + specialize (IH (float_add c (probability prize))).
      destruct (pick rand (float_add c (probability prize)) rest).
      * right. exact IH.
      * constructor; assumption.
Qed.

(** The running sum of the seven probabilities is the double 1.0, so every
    value below 1 finds a prize. *)
Lemma pick_finds (rand : Q) :
  (rand < 1)%Q -> exists prize, pick rand 0 lottery_config = Some prize
                                /\ In (prize_points prize) [50; 20; 10; 5; 2; 1; 0].
Proof.
  intros H. pose proof (pick_outcome rand 0 lottery_config) as P.
  destruct (pick rand 0 lottery_config) as [prize|].
  - exists prize. split; [reflexivity|].
    change [50; 20; 10; 5; 2; 1; 0] with (map prize_points lottery_config).
    apply in_map, P.
  - exfalso. rewrite running_sums_values in P.
    apply List.Forall_forall with (x := 1%Q) in P.
    + apply not_true_iff_false in P. apply P. apply Qle_bool_iff. lra.
    + simpl. tauto.
Qed.

Lemma before_stored (u : Z) (s : LevelSystem) :
  let '(s0, r) := _get_user_data u s in
  r = fill_defaults (default default_user_data (user_data s !! u))
  /\ user_data s0 !! u = Some r /\ complete r
  /\ (forall v, v <> u -> user_data s0 !! v = user_data s !! v).
Proof.
  pose proof (get_user_data_facts u s) as G.
  pose proof (get_user_data_before u s) as B.
  destruct (_get_user_data u s) as [s0 r]. simpl in B.
  destruct G as (Hu & Hc & _ & _ & _ & Ho & _). auto.
Qed.

(** X20 (app.py, LevelSystem.exchange_points): an exchange goes through
    exactly when the amount is positive and not above the balance.  It then
    takes the amount off the balance, adds ten times the amount to the
    experience and raises the stored level to the level of the new
    experience if that is higher; the balance stays at 0 or above.  A
    refused exchange leaves the record as it was, and no exchange touches
    the record of another user. *)
Theorem exchange_points_accounting (u amount : Z) (s : LevelSystem) :
  let before := fill_defaults (default default_user_data (user_data s !! u)) in
  let '(s', done, _) := exchange_points u amount s in
  done = (0 <? amount) && (amount <=? points_of before)
  /\ (exists after,
        user_data s' !! u = Some after
        /\ (done = false -> after = before)
        /\ (done = true ->
            points_of after = points_of before - amount
            /\ 0 <= points_of after
            /\ u_exp after = u_exp before + 10 * amount
            /\ u_level after
               = Z.max (u_level before)
                   (_calculate_level_from_exp (u_exp before + 10 * amount))))
  /\ (forall v, v <> u -> user_data s' !! v = user_data s !! v).
Proof.
  cbv zeta. unfold exchange_points.
  pose proof (before_stored u s) as B.
  destruct (_get_user_data u s) as [s0 r].
  destruct B as (-> & Hu & Hc & Ho).
  set (before := fill_defaults (default default_user_data (user_data s !! u))) in *.
  destruct (Z.leb_spec amount 0) as [A|A].
  { replace (0 <? amount) with false by (symmetry; apply Z.ltb_ge; lia).
    split; [reflexivity|]. split; [|exact Ho].
    exists before. split; [exact Hu|]. split; [reflexivity | discriminate]. }
  replace (0 <? amount) with true by (symmetry; apply Z.ltb_lt; lia).
  destruct (Z.ltb_spec (points_of before) amount) as [P|P].
  { replace (amount <=? points_of before) with false by (symmetry; apply Z.leb_gt; lia).
    split; [reflexivity|]. split; [|exact Ho].
    exists before. split; [exact Hu|]. split; [reflexivity | discriminate]. }
  replace (amount <=? points_of before) with true by (symmetry; apply Z.leb_le; lia).
  split; [reflexivity|]. split.
  - unfold store. simpl user_data. rewrite lookup_insert_eq.
    eexists. split; [reflexivity|]. split; [discriminate|]. intros _.
    destruct (u_level _ <? _) eqn:L; unfold points_of in *; simpl in *.
    + apply Z.ltb_lt in L. replace (amount * 10) with (10 * amount) in * by ring.
      repeat split; try reflexivity; lia.
    + apply Z.ltb_ge in L. replace (amount * 10) with (10 * amount) in * by ring.
      repeat split; try reflexivity; lia.
  - intros v N. unfold store. simpl. rewrite lookup_insert_ne by congruence.
    apply Ho, N.
Qed.

Lemma complete_again (u : Z) (s : LevelSystem) (r : UserData) :
  user_data s !! u = Some r -> complete r -> _get_user_data u s = (s, r).
Proof.
  intros H C. unfold _get_user_data. rewrite H. rewrite C.
  rewrite insert_id by exact H. destruct s; reflexivity.
Qed.

(** X21 (app.py, LevelSystem.daily_sign): a sign-in succeeds exactly when
    the record does not carry today's date.  It then stamps the date, adds
    one sign-in day, continues the streak if the record carries
    yesterday's date and starts it at 1 otherwise, and adds between 7 and
    35 points: the base of 5 to 15 plus twice the streak, capped at 20.
    After any call, a further call with the same date is refused and
    changes nothing. *)
Theorem daily_sign_once_a_day (today yesterday : string) (base_points : Z) (u : Z)
  (s : LevelSystem) :
  5 <= base_points <= 15 ->
  let before := fill_defaults (default default_user_data (user_data s !! u)) in
  0 <= consecutive_days_of before ->
  let '(s1, signed, _) := daily_sign today yesterday base_points u s in
  signed = negb (signed_on today before)
  /\ (exists after,
        user_data s1 !! u = Some after
        /\ signed_on today after = true
        /\ (signed = false -> after = before)
        /\ (signed = true ->
            consecutive_days_of after
            = (if signed_on yesterday before then consecutive_days_of before + 1 else 1)
            /\ total_sign_days_of after = total_sign_days_of before + 1
            /\ points_of after
               = points_of before + base_points
                 + Z.min (2 * consecutive_days_of after) 20
            /\ points_of before + 7 <= points_of after <= points_of before + 35))
  /\ (forall yesterday' base_points',
        daily_sign today yesterday' base_points' u s1 = (s1, false, [])).
Proof.
  intros Hb. cbv zeta. intros Hc0. unfold daily_sign at 1.
  pose proof (before_stored u s) as B.
  destruct (_get_user_data u s) as [s0 r].
  destruct B as (-> & Hu & Hc & Ho).
  set (before := fill_defaults (default default_user_data (user_data s !! u))) in *.
  destruct (signed_on today before) eqn:S.
  - split; [reflexivity|]. split.
    + exists before. split; [exact Hu|]. split; [exact S|].
      split; [reflexivity | discriminate].
    + intros y' b'. unfold daily_sign.
      rewrite (complete_again u s0 before Hu Hc), S. reflexivity.
  - split; [reflexivity|].
    set (streak := if signed_on yesterday before
                   then consecutive_days_of before + 1 else 1).
    assert (Hs : 1 <= streak) by (subst streak; destruct (signed_on yesterday before); lia).
    set (after := set_points (points_of before + (base_points + Z.min (streak * 2) 20))
                    (set_sign today streak (total_sign_days_of before + 1) before)).
    assert (Sa : signed_on today after = true).
    { unfold signed_on, after. simpl. apply String.eqb_refl. }
    assert (Ca : complete after).
    { unfold complete, after, fill_defaults, set_points, set_sign. simpl.
      unfold complete, fill_defaults in Hc. injection Hc as H1 H2 H3 H4 H5 H6.
      rewrite H5, H6. reflexivity. }
    split.
    + exists after. unfold store. simpl user_data. rewrite lookup_insert_eq.
      split; [reflexivity|]. split; [exact Sa|]. split; [discriminate|].
      intros _. unfold after, consecutive_days_of, total_sign_days_of, points_of.
      simpl. fold (points_of before). fold (consecutive_days_of before).
      fold (total_sign_days_of before). fold streak.
      replace (2 * streak) with (streak * 2) by ring.
      clearbody streak. clear after Sa Ca.
      generalize (points_of before). intros points.
      repeat split; try reflexivity; lia.
    + intros y' b'. unfold daily_sign.
      rewrite (complete_again u (store u after s0) after); [|apply lookup_insert_eq|exact Ca].
      rewrite Sa. reflexivity.
Qed.

(** X22 (app.py, LevelSystem.lottery_draw): for every value that
    [random.random()] can return the draw returns: the probabilities of the
    seven prizes, added as doubles, reach 1.0, so the loop always finds a
    prize.  A draw is refused below 2 points and then changes nothing.
    Otherwise it costs 2 points, pays one of the listed prizes, counts one
    draw, and counts one win exactly when the prize is not 0. *)
Theorem lottery_draw_accounting (rand : Q) (u : Z) (s : LevelSystem) :
  (rand < 1)%Q ->
  let before := fill_defaults (default default_user_data (user_data s !! u)) in
  let '(s', outcome, _) := lottery_draw rand u s in
  exists after,
    user_data s' !! u = Some after
    /\ outcome = Ret (2 <=? points_of before)
    /\ (points_of before < 2 -> after = before)
    /\ (2 <= points_of before ->
        exists points_won,
          In points_won [50; 20; 10; 5; 2; 1; 0]
          /\ points_of after = points_of before - 2 + points_won
          /\ lottery_count_of after = lottery_count_of before + 1
          /\ lottery_wins_of after
             = lottery_wins_of before + (if 0 <? points_won then 1 else 0)
          /\ u_exp after = u_exp before /\ u_level after = u_level before).
Proof.
  intros Hr. cbv zeta. unfold lottery_draw.
  pose proof (before_stored u s) as B.
  destruct (_get_user_data u s) as [s0 r].
  destruct B as (-> & Hu & Hc & Ho).
  set (before := fill_defaults (default default_user_data (user_data s !! u))) in *.
  destruct (Z.ltb_spec (points_of before) 2) as [P|P].
  { exists before. split; [exact Hu|].
    replace (2 <=? points_of before) with false by (symmetry; apply Z.leb_gt; lia).
    split; [reflexivity|]. split; [reflexivity | lia]. }
  destruct (pick_finds rand Hr) as (prize & -> & Hin).
  replace (2 <=? points_of before) with true by (symmetry; apply Z.leb_le; lia).
  unfold store. simpl user_data. rewrite lookup_insert_eq.
  eexists. split; [reflexivity|]. split; [reflexivity|]. split; [lia|].
  intros _. exists (prize_points prize). split; [exact Hin|].
  assert (W : 0 <= prize_points prize) by (simpl in Hin; lia).
  destruct (Z.ltb_spec 0 (prize_points prize));
    unfold points_of, lottery_count_of, lottery_wins_of; simpl;
    repeat split; try reflexivity; lia.
Qed.

Lemma sound_fill_defaults (r : UserData) : sound r -> sound (fill_defaults r).
Proof.
  unfold sound, points_of, consecutive_days_of, lottery_wins_of, lottery_count_of.
  destruct r as [? ? ? ? ? ? ? p d c t lc lw]. simpl.
  destruct p, c, lc, lw; simpl; auto.
Qed.

Lemma sound_default : sound default_user_data.
Proof.
  unfold sound, points_of, consecutive_days_of, lottery_wins_of, lottery_count_of.
  simpl. lia.
Qed.

Lemma sound_before (u : Z) (s : LevelSystem) :
  all_sound s -> sound (fill_defaults (default default_user_data (user_data s !! u))).
Proof.
  intros A. apply sound_fill_defaults.
  destruct (user_data s !! u) as [r|] eqn:E; simpl; [apply (A u r E) | apply sound_default].
Qed.

Lemma all_sound_store (u : Z) (r : UserData) (s : LevelSystem) :
  all_sound s -> sound r -> all_sound (store u r s).
Proof.
  intros A R v x. unfold store. simpl.
  destruct (decide (v = u)) as [->|N].
  - rewrite lookup_insert_eq. intros [= <-]. exact R.
  - rewrite lookup_insert_ne by congruence. apply A.
Qed.

Lemma all_sound_ext (s s' : LevelSystem) :
  user_data s' = user_data s -> all_sound s -> all_sound s'.
Proof. intros E A v x. rewrite E. apply A. Qed.

Lemma all_sound_get (u : Z) (s : LevelSystem) :
  all_sound s -> all_sound (fst (_get_user_data u s)).
Proof.
  intros A. pose proof (sound_before u s A) as B.
  unfold _get_user_data.
  destruct (user_data s !! u) as [r|] eqn:E; simpl in *.
  - apply (all_sound_store u (fill_defaults r) s A B).
  - apply (all_sound_store u default_user_data s A sound_default).
Qed.

Lemma add_experience_sound (now t2 : Q) (u : Z) (m : Mono.Message) (s : LevelSystem) :
  all_sound s -> all_sound (fst (fst (add_experience now t2 u m s))).
Proof.
  intros A. unfold add_experience.
  pose proof (all_sound_get u s A) as A0.
  pose proof (sound_before u s A) as Sb.
  pose proof (get_user_data_before u s) as Bf.
  destruct (_get_user_data u s) as [s0 r]. simpl in A0, Bf. subst r.
  set (before := fill_defaults (default default_user_data (user_data s !! u))) in *.
  destruct (check_blacklist now u s0) as [s1|] eqn:CB; [|exact A0].
  assert (A1 : all_sound s1).
  { destruct (check_blacklist_others now u s0 s1 (u + 1) ltac:(lia) CB) as (E & _).
    apply (all_sound_ext s0 s1 E A0). }
  unfold detect_or_count.
  destruct (5 <=? List.length (window now s1 u))%nat.
  - unfold _handle_spam.
    destruct (default 0 _ + 1 =? 1); simpl.
    + intros v x. simpl. apply A1.
    + intros v x. simpl. destruct (decide (v = u)) as [->|N].
      * rewrite lookup_insert_eq. intros [= <-]. apply sound_default.
      * rewrite lookup_insert_ne by congruence. apply A1.
  - destruct (u_level (count_message now before) <? _); simpl;
      intros v x; simpl; (destruct (decide (v = u)) as [->|N];
        [rewrite lookup_insert_eq; intros [= <-]; exact Sb
        |rewrite lookup_insert_ne by congruence; apply A1]).
Qed.

Lemma perform_sound (c : command) (s : LevelSystem) :
  admissible c -> all_sound s -> all_sound (perform c s).
Proof.
  intros Ad A.
  destruct c as [c|today yesterday base u|u amount|rand u]; simpl.
  - apply add_experience_sound, A.
  - unfold daily_sign.
    pose proof (all_sound_get u s A) as A0.
    pose proof (sound_before u s A) as Sb.
    pose proof (get_user_data_before u s) as Bf.
    destruct (_get_user_data u s) as [s0 r]. simpl in A0, Bf. subst r.
    destruct (signed_on today _); simpl; [exact A0|].
    apply all_sound_store; [exact A0|].
    destruct Sb as (P & C & W). simpl in Ad.
    unfold sound, points_of, consecutive_days_of, lottery_wins_of, lottery_count_of in *.
    simpl in *. split; [|split; [|exact W]].
    + destruct (signed_on yesterday _); lia.
    + destruct (signed_on yesterday _); lia.
  - unfold exchange_points.
    pose proof (all_sound_get u s A) as A0.
    pose proof (sound_before u s A) as Sb.
    pose proof (get_user_data_before u s) as Bf.
    destruct (_get_user_data u s) as [s0 r]. simpl in A0, Bf. subst r.
    destruct (amount <=? 0); [exact A0|].
    destruct (Z.ltb_spec (points_of (fill_defaults (default default_user_data
                                                     (user_data s !! u)))) amount);
      [exact A0|].
    simpl. apply all_sound_store; [exact A0|].
    destruct Sb as (P & C & W).
    destruct (_ <? _); unfold sound, points_of, consecutive_days_of, lottery_wins_of,
      lottery_count_of in *; simpl in *; (split; [lia | split; [exact C | exact W]]).
  - unfold lottery_draw.
    pose proof (all_sound_get u s A) as A0.
    pose proof (sound_before u s A) as Sb.
    pose proof (get_user_data_before u s) as Bf.
    destruct (_get_user_data u s) as [s0 r]. simpl in A0, Bf. subst r.
    destruct (Z.ltb_spec (points_of (fill_defaults (default default_user_data
                                                     (user_data s !! u)))) 2);
      [exact A0|].
    destruct Sb as (P & C & W).
    pose proof (pick_outcome rand 0 lottery_config) as Pk.
    destruct (pick rand 0 lottery_config) as [prize|]; simpl.
    + assert (Wn : 0 <= prize_points prize).
      { apply (in_map prize_points) in Pk. simpl in Pk. lia. }
      apply all_sound_store; [exact A0|].
      destruct (Z.ltb_spec 0 (prize_points prize));
        unfold sound, points_of, consecutive_days_of, lottery_wins_of,
          lottery_count_of in *; simpl in *; lia.
    + apply all_sound_store; [exact A0|].
      unfold sound, points_of, consecutive_days_of, lottery_wins_of,
        lottery_count_of in *; simpl in *; lia.
Qed.

(** X23 (app.py, LevelSystem: add_experience, daily_sign, exchange_points,
    lottery_draw): if every record has a balance and a streak of 0 or more
    and no more wins than draws, then this is still so after any sequence
    of messages, sign-ins, exchanges and draws: no call overdraws a
    balance. *)
Theorem balances_never_negative (cs : list command) (s : LevelSystem) :
  Forall admissible cs ->
  (forall user_id u, user_data s !! user_id = Some u -> sound u) ->
  forall user_id u,
    user_data (perform_all cs s) !! user_id = Some u ->
    0 <= points_of u /\ 0 <= consecutive_days_of u
    /\ 0 <= lottery_wins_of u <= lottery_count_of u.
Proof.
  intros Ad A. change (all_sound (perform_all cs s)).
  change (all_sound s) in A. revert s A. unfold perform_all.
  induction cs as [|c cs IH]; intros s A; simpl; [exact A|].
  apply List.Forall_cons_iff in Ad. destruct Ad as [Ac Ad].
  apply (IH Ad), perform_sound; assumption.
Qed.

End PointsProperties.

(** *** The points system at concrete inputs *)

Section PointsConcrete.
Import Py Level Points PointsCases.

Lemma daily_sign_witness :
  snd (fst (daily_sign "2025-01-02" "2025-01-01" 10 7 (init ∅))) = true
  /\ daily_sign "2025-01-02" "2025-01-01" 15 7 signed_in = (signed_in, false, []).
Proof.
  pose proof (daily_sign_once_a_day "2025-01-02" "2025-01-01" 10 7 (init ∅)
                ltac:(lia)) as H.
  cbv zeta in H. specialize (H ltac:(vm_compute; discriminate)).
  unfold signed_in.
  destruct (daily_sign "2025-01-02" "2025-01-01" 10 7 (init ∅)) as [[s1 ok] evs] eqn:E.
  destruct H as (A & _ & C). simpl. split.
  - rewrite A. reflexivity.
  - apply C.
Defined.

Lemma lottery_draw_witness :
  exists after,
    user_data (fst (fst (lottery_draw (1 # 2) 7 signed_in))) !! 7 = Some after
    /\ snd (fst (lottery_draw (1 # 2) 7 signed_in)) = Ret true
    /\ points_of after = 11.
Proof.
  pose proof (lottery_draw_accounting (1 # 2) 7 signed_in ltac:(reflexivity)) as H.
  cbv zeta in H.
  destruct (lottery_draw (1 # 2) 7 signed_in) as [[s' outcome] evs] eqn:E.
  destruct H as (after & L & O & _).
  exists after. split; [exact L|]. split; [rewrite O; reflexivity|].
  apply (f_equal (fun x => user_data (fst (fst x)) !! 7)) in E. simpl in E.
  rewrite L in E. vm_compute in E. injection E as <-. reflexivity.
Defined.

Lemma balances_witness :
  exists u,
    user_data (perform_all evening (init ∅)) !! 7 = Some u
    /\ 0 <= points_of u /\ lottery_count_of u = 3.
Proof.
  assert (E : exists u, user_data (perform_all evening (init ∅)) !! 7 = Some u
                        /\ lottery_count_of u = 3).
  { vm_compute. eexists. split; reflexivity. }
  destruct E as (u & L & C). exists u. split; [exact L|]. split; [|exact C].
  apply (balances_never_negative evening (init ∅)) with (user_id := 7); [| |exact L].
  - repeat constructor; simpl; try lia; try lra.
  - intros v r H. simpl in H. rewrite lookup_empty in H. discriminate H.
Defined.

End PointsConcrete.

(** *** The reconnect loop of app.py *)

Section MonoSupervisor.
Import Py MonoLoop.

Context {App : Type}.
Variable handlers : Wire.Category -> list (Mono.Handler App).

Lemma mono_run_handlers_quiet (hs : list (Mono.Handler App)) (m : Mono.Message) (a : App) :
  ~ In Mono.ForcedOffline (snd (Mono.run_handlers hs m a)).
Proof.
  revert a. induction hs as [|h hs IH]; intros a; simpl; [tauto|].
  destruct (h m a) as [a1 r]. specialize (IH a1).
  destruct (Mono.run_handlers hs m a1) as [a2 evs]. simpl in *.
  destruct r; simpl; [exact IH|]. intros [H|H]; [discriminate H | exact (IH H)].
Qed.

Lemma mono_dispatch_facts (m : Mono.Message) (c : Wire.Category) (x : Mono.BoxIM App) :
  let '(x', _, evs) := Mono._dispatch_message handlers m c x in
  Mono.ws_running x' = Mono.ws_running x /\ ~ In Mono.ForcedOffline evs.
Proof.
  unfold Mono._dispatch_message.
  pose proof (mono_run_handlers_quiet (handlers c) m (Mono.app x)) as Q.
  destruct (Mono.run_handlers (handlers c) m (Mono.app x)) as [a evs].
  simpl in *. auto.
Qed.

Lemma mono_handle_facts (data : json) (x : Mono.BoxIM App) :
  let '(x', _, evs) := Mono._handle_ws_message handlers data x in
  (Mono.ws_running x = false -> Mono.ws_running x' = false)
  /\ (In Mono.ForcedOffline evs -> Mono.ws_running x' = false).
Proof.
  unfold Mono._handle_ws_message.
  destruct (let? cmd := get data "cmd" in
            let? msg_data := get_default data "data" (JDict []) in Ret (cmd, msg_data))
    as [[cmd msg_data]|e]; [|simpl; tauto].
  destruct (eq_int cmd _).
  { destruct (Mono.Message_init msg_data false) as [m|e].
    - pose proof (mono_dispatch_facts m Wire.private x) as D.
      destruct (Mono._dispatch_message handlers m Wire.private x) as [[x' r] evs].
      destruct D as [R Q]. rewrite R. tauto.
    - simpl. split; [tauto|]. intros [H|[]]. discriminate H. }
  destruct (eq_int cmd _).
  { destruct (Mono.Message_init msg_data true) as [m|e].
    - pose proof (mono_dispatch_facts m Wire.group x) as D.
      destruct (Mono._dispatch_message handlers m Wire.group x) as [[x' r] evs].
      destruct D as [R Q]. rewrite R. tauto.
    - simpl. split; [tauto|]. intros [H|[]]. discriminate H. }
  destruct (eq_int cmd _).
  { simpl. split; [tauto|]. intros [H|[]]. discriminate H. }
  destruct (eq_int cmd _); simpl; tauto.
Qed.

Lemma mono_receive_one_facts (f : Wire.frame) (x : Mono.BoxIM App) :
  let '(x', evs) := Mono.receive_one handlers f x in
  (Mono.ws_running x = false -> Mono.ws_running x' = false)
  /\ (In Mono.ForcedOffline evs -> Mono.ws_running x' = false).
Proof.
  unfold Mono.receive_one. destruct (Wire.json_loads f) as [data|e].
  - pose proof (mono_handle_facts data x) as H.
    destruct (Mono._handle_ws_message handlers data x) as [[x' r] evs].
    destruct H as [A B]. destruct r; simpl; split; auto.
    intros I. apply in_app_or in I. destruct I as [I|[I|[]]]; [auto | discriminate I].
  - destruct (is_JSONDecodeError e); simpl; split; auto;
      intros [H|[]]; discriminate H.
Qed.

Lemma mono_receive_facts (fs : list Wire.frame) (closed : option exn) (x : Mono.BoxIM App) :
  let '(x', r, evs) := Mono._ws_receive handlers fs closed x in
  r = Ret tt
  /\ (Mono.ws_running x = false -> Mono.ws_running x' = false)
  /\ (In Mono.ForcedOffline evs -> Mono.ws_running x' = false).
Proof.
  revert x. induction fs as [|f fs IH]; intros x; simpl.
  - destruct closed as [e|]; [destruct (is_ConnectionClosed e)|];
      destruct (Mono.ws_running x) eqn:R; simpl; repeat split; auto;
      intros H; repeat (destruct H as [H|H]; try discriminate H); contradiction.
  - pose proof (mono_receive_one_facts f x) as O.
    destruct (Mono.receive_one handlers f x) as [x1 evs1].
    specialize (IH x1).
    destruct (Mono._ws_receive handlers fs closed x1) as [[x2 r] evs2].
    destruct O as [O1 O2]. destruct IH as (I0 & I1 & I2).
    split; [exact I0|]. split; [auto|].
    intros H. apply in_app_or in H. destruct H as [H|H]; auto.
Qed.

Lemma after_kick_app (a b : list event) :
  after_kick (a ++ b)
  = match after_kick a with Some p => Some (p ++ b) | None => after_kick b end.
Proof.
  induction a as [|e a IH]; simpl; [reflexivity|].
  destruct (is_kick e); [reflexivity | exact IH].
Qed.

Lemma after_kick_receive (evs : list Mono.event) :
  match after_kick (map Receive evs) with
  | Some p => forallb is_receive p = true /\ In Mono.ForcedOffline evs
  | None => True
  end.
Proof.
  induction evs as [|e evs IH]; simpl; [exact I|].
  destruct e; simpl; try (destruct (after_kick (map Receive evs)); [|exact I];
    destruct IH; split; [assumption | right; assumption]).
  split; [|left; reflexivity].
  clear IH. induction evs; simpl; auto.
Qed.

Lemma mono_delays_follow_app (cfg : Config) (a b : list event) (n : Z) :
  delays_follow cfg n (a ++ b)
  <-> delays_follow cfg n a /\ delays_follow cfg (attempts_after n a) b.
Proof.
  revert n. induction a as [|e a IH]; intros n; simpl; [tauto|].
  destruct e; simpl; rewrite ?IH; tauto.
Qed.

Lemma mono_attempts_after_app (a b : list event) (n : Z) :
  attempts_after n (a ++ b) = attempts_after (attempts_after n a) b.
Proof.
  revert n. induction a as [|e a IH]; intros n; simpl; [reflexivity|].
  destruct e; simpl; apply IH.
Qed.

Lemma mono_receive_neutral (cfg : Config) (evs : list Mono.event) (n : Z) :
  delays_follow cfg n (map Receive evs) /\ attempts_after n (map Receive evs) = n.
Proof. induction evs as [|e evs IH]; simpl; auto. Qed.

(** One turn: what the log says about the counter is what the state holds. *)
Lemma mono_loop_body_tracks (cfg : Config) (env : ConnectEnv) (b : Supervised App) :
  let '(b', evs) := loop_body handlers cfg env b in
  delays_follow cfg (ws_reconnect_count b) evs
  /\ attempts_after (ws_reconnect_count b) evs = ws_reconnect_count b'.
Proof.
  unfold loop_body, _ws_connect.
  destruct (open_outcome env) as [[]|e]; simpl.
  2: { destruct (Mono.ws_running (boxim b)); simpl; auto. }
  destruct (auth_send env) as [[]|e]; simpl.
  2: { destruct (Mono.ws_running (boxim b)); simpl; auto. }
  destruct (Mono._ws_receive handlers (frames env) (stream_error env) (boxim b))
    as [[x r] revs].
  destruct (mono_receive_neutral cfg revs 0) as [D A].
  destruct r as [[]|e]; simpl; destruct (Mono.ws_running x); simpl;
    rewrite ?mono_delays_follow_app, ?mono_attempts_after_app, ?A; simpl; auto.
Qed.

(** X24 (app.py, BoxIM._ws_loop and _ws_connect): every sleep of the loop
    lasts min(RECONNECT_DELAY * 2^n, MAX_RECONNECT_DELAY), where n counts
    the sleeps since the socket last opened, this one included; the
    counter kept in the object is the one read off the log.  So the sleep
    after a connection that had opened is always the first step of the
    backoff, however the connection ended. *)
Theorem mono_backoff (cfg : Config) (envs : list ConnectEnv) (b : Supervised App) :
  let '(b', evs) := _ws_loop handlers cfg envs b in
  delays_follow cfg (ws_reconnect_count b) evs
  /\ attempts_after (ws_reconnect_count b) evs = ws_reconnect_count b'.
Proof.
  revert b. induction envs as [|env rest IH]; intros b; simpl; [auto|].
  destruct (Mono.ws_running (boxim b)); simpl; [|auto].
  pose proof (mono_loop_body_tracks cfg env b) as T.
  destruct (loop_body handlers cfg env b) as [b1 evs1].
  specialize (IH b1). destruct (_ws_loop handlers cfg rest b1) as [b2 evs2].
  destruct T as [T1 T2]. destruct IH as [I1 I2].
  rewrite mono_delays_follow_app, mono_attempts_after_app, T2. auto.
Qed.

Lemma mono_loop_body_kick (cfg : Config) (env : ConnectEnv) (b : Supervised App) :
  let '(b', evs) := loop_body handlers cfg env b in
  match after_kick evs with
  | Some p => forallb is_receive p = true /\ Mono.ws_running (boxim b') = false
  | None => True
  end.
Proof.
  unfold loop_body, _ws_connect.
  destruct (open_outcome env) as [[]|e]; simpl.
  2: { destruct (Mono.ws_running (boxim b)); simpl; exact I. }
  destruct (auth_send env) as [[]|e]; simpl.
  2: { destruct (Mono.ws_running (boxim b)); simpl; exact I. }
  pose proof (mono_receive_facts (frames env) (stream_error env) (boxim b)) as F.
  destruct (Mono._ws_receive handlers (frames env) (stream_error env) (boxim b))
    as [[x r] revs].
  destruct F as (-> & _ & K).
  pose proof (after_kick_receive revs) as A.
  simpl. destruct (Mono.ws_running x) eqn:R; simpl.
  - rewrite !after_kick_app. destruct (after_kick (map Receive revs)) as [p|]; [|exact I].
    destruct A as [_ A]. discriminate (K A).
  - rewrite !after_kick_app. destruct (after_kick (map Receive revs)) as [p|]; [|exact I].
    destruct A as [A _]. rewrite app_nil_r. auto.
Qed.

(** X25 (app.py, BoxIM._handle_ws_message and _ws_loop): once a
    ForceOffline frame has been received, the loop of app.py ends too:
    behind the kick the log holds only events of the receive loop of that
    connection, no sleep and no new connection attempt, and the run flag
    is clear when the loop is left. *)
Theorem mono_kick_ends_loop (cfg : Config) (envs : list ConnectEnv) (b : Supervised App)
  (behind : list event) :
  after_kick (snd (_ws_loop handlers cfg envs b)) = Some behind ->
  forallb is_receive behind = true
  /\ Mono.ws_running (boxim (fst (_ws_loop handlers cfg envs b))) = false.
Proof.
  revert b behind. induction envs as [|env rest IH]; intros b behind; simpl.
  { discriminate. }
  destruct (Mono.ws_running (boxim b)); simpl; [|discriminate].
  pose proof (mono_loop_body_kick cfg env b) as K.
  destruct (loop_body handlers cfg env b) as [b1 evs1].
  specialize (IH b1).
  destruct (_ws_loop handlers cfg rest b1) as [b2 evs2] eqn:L. simpl in *.
  rewrite after_kick_app.
  destruct (after_kick evs1) as [p|].
  - destruct K as [K1 K2]. intros [= <-].
    destruct rest as [|env' rest'].
    + simpl in L. inversion L; subst. rewrite app_nil_r. auto.
    + simpl in L. rewrite K2 in L. inversion L; subst. rewrite app_nil_r. auto.
  - apply IH.
Qed.

End MonoSupervisor.

(** *** Building a message *)

Section MessageConstruction.
Import Py Payload.

Lemma dict_get_finite (d : list (string * json)) (k : string) :
  (forall k v, items_get d k = Some v -> finite v = true) ->
  forall negative, dict_get d k <> JFloat (FInf negative).
Proof.
  intros F negative E. unfold dict_get in E.
  destruct (items_get d k) as [v|] eqn:G; [|discriminate E].
  subst v. specialize (F k _ G). discriminate F.
Qed.

Lemma dict_get_default_finite (d : list (string * json)) (k : string) (dflt : json) :
  (forall k v, items_get d k = Some v -> finite v = true) ->
  finite dflt = true ->
  forall negative, dict_get_default d k dflt <> JFloat (FInf negative).
Proof.
  intros F D negative E. unfold dict_get_default in E.
  destruct (items_get d k) as [v|] eqn:G.
  - subst v. specialize (F k _ G). discriminate F.
  - subst dflt. discriminate D.
Qed.

(** X26 (message_handlers.py and app.py, Message.__init__): a payload that
    is an object none of whose fields is an infinite float always yields a
    message; it keeps the payload and the group flag, its type is 0 when
    the payload has none, and it carries a recalled-message id only when
    its type is 10.  The class of app.py yields a message for every
    object.  A payload that is not an object makes both constructors raise
    AttributeError. *)
Theorem message_construction (payload : json) (is_group : bool) :
  (forall d, payload = JDict d ->
     (forall k v, items_get d k = Some v -> finite v = true) ->
     exists m,
       Wire.Message_init payload is_group = Ret m
       /\ Wire.data m = payload /\ Wire.is_group m = is_group
       /\ (items_get d "type" = None -> Wire.type m = Some 0)
       /\ (Wire.type m <> Some 10 -> Wire.recalled_message_id m = None))
  /\ (forall d, payload = JDict d ->
      exists m, Mono.Message_init payload is_group = Ret m
                /\ Mono.data m = payload /\ Mono.is_group m = is_group)
  /\ (is_dict payload = false ->
      Wire.Message_init payload is_group = Raise AttributeError
      /\ Mono.Message_init payload is_group = Raise AttributeError).
Proof.
  split; [|split].
  - intros d -> F. unfold Wire.Message_init. simpl.
    destruct (safe_int_returns _ (dict_get_finite d "id" F)) as (i & ->).
    assert (T : exists t, Wire._safe_int (dict_get_default d "type" (JInt 0)) = Ret t
                /\ (items_get d "type" = None -> t = Some 0)).
    { destruct (safe_int_returns _ (dict_get_default_finite d "type" (JInt 0) F eq_refl))
        as (t & E).
      exists t. split; [exact E|]. intros N. unfold dict_get_default in E.
      rewrite N in E. cbv in E. congruence. }
    destruct T as (t & -> & Ht).
    destruct (safe_int_returns _ (dict_get_finite d "sendId" F)) as (sd & ->).
    destruct (safe_int_returns _ (dict_get_finite d "recvId" F)) as (rv & ->).
    destruct (safe_int_returns _ (dict_get_finite d "groupId" F)) as (gp & ->).
    simpl.
    destruct (bool_decide (t = Some Wire.MessageType_RECALL)) eqn:B.
    + destruct (safe_int_returns _
                  (dict_get_default_finite d "content" (JStr "") F eq_refl)) as (c & ->).
      simpl. eexists. split; [reflexivity|]. simpl.
      split; [reflexivity|]. split; [reflexivity|]. split; [exact Ht|].
      apply bool_decide_eq_true in B. intros N. exfalso. apply N. exact B.
    + simpl. eexists. split; [reflexivity|]. simpl. auto.
  - intros d ->. unfold Mono.Message_init. simpl.
    destruct (mono_safe_int_returns (dict_get d "id")) as (i & ->).
    destruct (mono_safe_int_returns (dict_get_default d "type" (JInt 0))) as (t & ->).
    destruct (mono_safe_int_returns (dict_get d "sendId")) as (sd & ->).
    destruct (mono_safe_int_returns (dict_get d "recvId")) as (rv & ->).
    destruct (mono_safe_int_returns (dict_get d "groupId")) as (gp & ->).
    simpl. eexists. split; [reflexivity|]. simpl. auto.
  - intros N. destruct payload; try discriminate N; split; reflexivity.
Qed.

End MessageConstruction.

(** *** The loop of app.py at concrete inputs *)

Section MonoConcrete.
Import Py MonoLoop MonoCases Payload.

Example mono_backoff_values :
  List.filter (fun e => match e with Sleep _ => true | _ => false end)
    (snd (_ws_loop no_mono_handlers default_config (repeat mono_unreachable 9) mono_started))
  = [Sleep 4; Sleep 8; Sleep 16; Sleep 32; Sleep 64; Sleep 128; Sleep 256;
     Sleep 300; Sleep 300].
Proof. vm_compute. reflexivity. Qed.

Lemma mono_kick_witness :
  after_kick (snd (_ws_loop no_mono_handlers default_config
                     [mono_unreachable; mono_kicked; mono_unreachable] mono_started))
  = Some [Receive (Mono.SystemMessage (JStr "bye")); Receive Mono.StreamClosed]
  /\ Mono.ws_running
       (boxim (fst (_ws_loop no_mono_handlers default_config
                      [mono_unreachable; mono_kicked; mono_unreachable] mono_started)))
     = false.
Proof.
  assert (E : after_kick (snd (_ws_loop no_mono_handlers default_config
                                 [mono_unreachable; mono_kicked; mono_unreachable]
                                 mono_started))
              = Some [Receive (Mono.SystemMessage (JStr "bye"));
                      Receive Mono.StreamClosed]) by reflexivity.
  split; [exact E|].
  apply (mono_kick_ends_loop no_mono_handlers default_config
           [mono_unreachable; mono_kicked; mono_unreachable] mono_started _ E).
Defined.

Lemma message_construction_witness :
  exists m,
    Wire.Message_init Scenario.text_payload false = Ret m
    /\ Wire.data m = Scenario.text_payload /\ Wire.is_group m = false.
Proof.
  destruct (proj1 (message_construction Scenario.text_payload false) _ eq_refl)
    as (m & A & B & C & _).
  - intros k v H. unfold Scenario.text_payload in H. simpl in H.
    repeat match type of H with
    | (if ?c then _ else _) = _ => destruct c; [injection H as <-; reflexivity|]
    end.
    discriminate H.
  - exists m. auto.
Defined.

End MonoConcrete.

(** *** The tasks of the supervisor *)

Section TaskProperties.
Import Py Enhanced Tasks.

Context {App : Type}.
Variable handlers : Wire.Category -> list (Handler App).
Variable cfg : BotConfig.

(** The receive loop of [Enhanced] is the receive loop of the tasks, frame
    by frame. *)
Lemma ws_receive_by_frame (message : Wire.frame) (rest : list Wire.frame)
  (closed : option exn) (b : Bot App) :
  _ws_receive handlers [] closed b = receive_end closed b
  /\ _ws_receive handlers (message :: rest) closed b
     = match receive_frame handlers message b with
       | (b1, Raise e, evs) => (b1, Raise e, evs)
       | (b1, Ret _, evs) =>
           let '(b2, r, evs') := _ws_receive handlers rest closed b1 in
           (b2, r, evs ++ evs')
       end.
Proof.
  split; [reflexivity|]. unfold receive_frame. simpl.
  destruct (Wire.json_loads message) as [data|e]; reflexivity.
Qed.






























End TaskProperties.

(** *** The tasks of the supervisor at concrete schedules *)

Section TasksConcrete.
Import Py Enhanced Scenario Tasks TaskCases.

(** With one task and no re-login, the log is the one of the loop followed
    on its own. *)
Example one_task_is_the_loop :
  option_map (fun o => events (snd o))
    (run no_handlers default_config (two_failures ++ then_connected) (boot logged_in))
  = Some (snd (_ws_loop no_handlers default_config
                 [unreachable; unreachable; closed_by_server] started)).
Proof. vm_compute. reflexivity. Qed.


(** C2, where the code fails it: two runs of the supervisor after its
    first successful re-login, which has left two [_ws_loop] tasks on the
    object.

    In the first, task 1 receives ForceOffline on socket 0 while task 0 is
    in the [for attempt in range(3)] of [_ws_connect]: both flags are
    cleared, and then task 0 makes its next attempt, opens socket 1, sets
    the connected flag and sends the authentication frame.  The tasks end
    only when the server has closed both sockets.

    In the second, task 0 receives on socket 0 while task 1 is in its own
    [relogin]: it has closed socket 1, found itself in [self.ws_task] and
    sleeps the two seconds before [connect].  The ForceOffline frame that
    arrives on socket 0 now clears both flags, but [connect] sets the run
    flag again and starts task 4, which opens a socket and authenticates;
    and task 0, the task that was kicked, finds the run flag set when its
    stream ends and goes on to its next reconnect. *)
Theorem C2_supervisor_goes_on_after_kick :
  match run no_handlers default_config kicked_beside_opening (boot logged_in) with
  | Some (sys, log) =>
      existsb (fun entry => is_forced_offline (snd entry)) log = true
      /\ following_kick log = []
      /\ ws_running (boxim sys) = false /\ _ws_connected_flag (boxim sys) = false
      /\ position_of sys 0 = Loop (Opening 0 0)
      /\ position_of sys 1 = Loop (Receiving 0 0)
  | None => False
  end
  /\ match run no_handlers default_config (kicked_beside_opening ++ opening_goes_on)
             (boot logged_in) with
     | Some (sys, log) =>
         following_kick log
         = [(0, OpenFailed 0 TimeoutError); (0, Opened 1); (0, AuthSent)]%nat
         /\ ws_running (boxim sys) = false /\ _ws_connected_flag (boxim sys) = true
         /\ position_of sys 0 = Loop (Receiving 0 1)
     | None => False
     end
  /\ match run no_handlers default_config
             (kicked_beside_opening ++ opening_goes_on ++ both_closed)
             (boot logged_in) with
     | Some (sys, log) =>
         map position (tasks sys) = [Finished; Finished; Finished; Finished]
         /\ ws_running (boxim sys) = false /\ _ws_connected_flag (boxim sys) = false
     | None => False
     end
  /\ match run no_handlers default_config until_disconnect (boot logged_in) with
     | Some (sys, _) =>
         position_of sys 0 = Loop (Receiving 0 0)
         /\ position_of sys 1 = Loop (Closing 10)
         /\ ws_connection sys = Some 1%nat /\ ws_task sys = Some 1%nat
     | None => False
     end
  /\ match run no_handlers default_config until_kick (boot logged_in) with
     | Some (sys, _) =>
         position_of sys 0 = Loop (Receiving 0 0)
         /\ position_of sys 1 = Loop (ReloginSleep 10)
         /\ step no_handlers default_config (fst the_kick) (snd the_kick) sys
            = Some (set_boxim
                      (set_ws_connected_flag false (set_ws_running false (boxim sys))) sys,
                    [(0%nat, ForcedOffline)])
     | None => False
     end
  /\ match run no_handlers default_config (until_kick ++ the_kick :: after_kick)
             (boot logged_in) with
     | Some (sys, log) =>
         following_kick log
         = [(1, Spawned); (4, Connecting 11); (4, Opened 0); (4, AuthSent);
            (1, Relogin true); (1, Sleep 6);
            (0, StreamClosed); (0, LoopConnected); (0, Sleep 6); (0, Connecting 2)]%nat
         /\ ws_running (boxim sys) = true
         /\ map position (tasks sys)
            = [Loop (Opening 0 0); Loop (BackoffSleep 0); Finished; Finished;
               Loop (AuthWait 0)]
     | None => False
     end.
Proof.
  split; [|split; [|split; [|split; [|split]]]]; vm_compute; repeat split.
Qed.

End TasksConcrete.
